(** * ReviewIn backend: the authorization and entity model, verified

    A shallow embedding of the Flask back end (models.py, utils.py,
    decorators.py and the route modules) as pure functions over an explicit
    database state.  Every route handler becomes a function from the
    database, the verified token identity and the request to the new
    database and the HTTP response. *)

From Stdlib Require Import List ZArith String Ascii Bool Lia DecimalString.
From Stdlib Require Import Sorted Permutation.
Import ListNotations.

Open Scope string_scope.
Open Scope Z_scope.
Open Scope list_scope.

Set Warnings "-register-all".

(* ================================================================== *)
(** * Python strings

    A Python [str] is modelled as a [string] whose characters are the code
    points below 256.  [strip] and [lower] follow [str.strip] and
    [str.lower] on that range. *)

Definition code (c : ascii) : N := N_of_ascii c.

Definition in_range (lo hi : N) (c : ascii) : bool :=
  (N.leb lo (code c) && N.leb (code c) hi)%bool.

(** [str.isspace] on one character. *)
Definition is_space (c : ascii) : bool :=
  (in_range 9 13 c || in_range 28 32 c || N.eqb (code c) 133 || N.eqb (code c) 160)%bool.

Definition is_ascii_upper (c : ascii) : bool := in_range 65 90 c.
Definition is_ascii_lower (c : ascii) : bool := in_range 97 122 c.
Definition is_digit (c : ascii) : bool := in_range 48 57 c.
Definition is_ascii_letter (c : ascii) : bool :=
  (is_ascii_upper c || is_ascii_lower c)%bool.

(** An uppercase letter: A-Z and the capital letters of Latin-1. *)
Definition is_upper (c : ascii) : bool :=
  (is_ascii_upper c || in_range 192 214 c || in_range 216 222 c)%bool.

Definition lower_char (c : ascii) : ascii :=
  if is_upper c then ascii_of_N (code c + 32) else c.

Fixpoint lower (s : string) : string :=
  match s with
  | EmptyString => EmptyString
  | String c r => String (lower_char c) (lower r)
  end.

Fixpoint lstrip (s : string) : string :=
  match s with
  | EmptyString => EmptyString
  | String c r => if is_space c then lstrip r else s
  end.

(** [rstrip] keeps a character when it is not a space or when something
    that is kept follows it. *)
Fixpoint rstrip (s : string) : string :=
  match s with
  | EmptyString => EmptyString
  | String c r =>
      match rstrip r with
      | EmptyString => if is_space c then EmptyString else String c EmptyString
      | r' => String c r'
      end
  end.

Definition strip (s : string) : string := rstrip (lstrip s).

Fixpoint string_forallb (p : ascii -> bool) (s : string) : bool :=
  match s with
  | EmptyString => true
  | String c r => (p c && string_forallb p r)%bool
  end.

Fixpoint string_existsb (p : ascii -> bool) (s : string) : bool :=
  match s with
  | EmptyString => false
  | String c r => (p c || string_existsb p r)%bool
  end.

(** The characters before the first [sep], and those after it. *)
Fixpoint split_first (sep : ascii) (s : string) : option (string * string) :=
  match s with
  | EmptyString => None
  | String c r =>
      if Ascii.eqb c sep then Some (EmptyString, r)
      else match split_first sep r with
           | Some (a, b) => Some (String c a, b)
           | None => None
           end
  end.

(** The characters before the last [sep], and those after it. *)
Fixpoint split_last (sep : ascii) (s : string) : option (string * string) :=
  match s with
  | EmptyString => None
  | String c r =>
      match split_last sep r with
      | Some (a, b) => Some (String c a, b)
      | None => if Ascii.eqb c sep then Some (EmptyString, r) else None
      end
  end.

Definition str_len (s : string) : Z := Z.of_nat (String.length s).

(** [str(n)] for an integer. *)
Definition str_of_Z (n : Z) : string := NilZero.string_of_int (Z.to_int n).

(* ================================================================== *)
(** * JSON

    [jval] is a scalar of a request body; [json] is a response payload, in
    which [JTime t] stands for the string [t.isoformat()]. *)

Inductive jval : Type :=
| VNull
| VInt (n : Z)
| VStr (s : string).

Inductive json : Type :=
| JNull
| JInt (n : Z)
| JStr (s : string)
| JTime (t : Z)
| JList (l : list json)
| JObj (fields : list (string * json)).

Definition dict := list (string * jval).

Definition response : Type := json * Z.

Fixpoint dict_get (d : dict) (k : string) : option jval :=
  match d with
  | [] => None
  | (k', v) :: r => if String.eqb k' k then Some v else dict_get r k
  end.

(** [k in d] *)
Definition dict_has (d : dict) (k : string) : bool :=
  match dict_get d k with Some _ => true | None => false end.

Fixpoint obj_get (o : list (string * json)) (k : string) : option json :=
  match o with
  | [] => None
  | (k', v) :: r => if String.eqb k' k then Some v else obj_get r k
  end.

Definition obj_has (j : json) (k : string) : bool :=
  match j with
  | JObj o => match obj_get o k with Some _ => true | None => false end
  | _ => false
  end.

Definition json_of_jval (v : jval) : json :=
  match v with
  | VNull => JNull
  | VInt n => JInt n
  | VStr s => JStr s
  end.

Definition json_opt_str (o : option string) : json :=
  match o with Some s => JStr s | None => JNull end.

Definition json_opt_time (o : option Z) : json :=
  match o with Some t => JTime t | None => JNull end.

(** [jsonify({"error": msg}), status] *)
Definition err (msg : string) (status : Z) : response :=
  (JObj [("error", JStr msg)], status).

(** Python's name for the type of a request value, as exception texts
    print it. *)
Definition type_name (v : jval) : string :=
  match v with
  | VNull => "NoneType"
  | VInt _ => "int"
  | VStr _ => "str"
  end.

(** The text of the [AttributeError] raised by [v.attr]. *)
Definition no_attribute (ty attr : string) : string :=
  ("'" ++ ty ++ "' object has no attribute '" ++ attr ++ "'")%string.

(** The result of running a handler body: it returns, or an exception
    escapes with its message. *)
Inductive outcome (A : Type) : Type :=
| Ret (a : A)
| Raise (msg : string).
Arguments Ret {A} a.
Arguments Raise {A} msg.

Definition bind {A B} (m : outcome A) (f : A -> outcome B) : outcome B :=
  match m with
  | Ret a => f a
  | Raise e => Raise e
  end.

Notation "'do' x <- m ; k" := (bind m (fun x => k))
  (at level 10, x name, m at level 100, k at level 200).

(** [v.strip()] : only a [str] has the method. *)
Definition py_strip (v : jval) : outcome string :=
  match v with
  | VStr s => Ret (strip s)
  | _ => Raise (no_attribute (type_name v) "strip")
  end.

(** [str(v)] *)
Definition py_str (v : jval) : string :=
  match v with
  | VNull => "None"
  | VInt n => str_of_Z n
  | VStr s => s
  end.

(** [x or None] for a string. *)
Definition or_None (s : string) : option string :=
  match s with EmptyString => None | _ => Some s end.

(** [data.get(k, "").strip() or None] *)
Definition get_stripped_or_None (d : dict) (k : string) : outcome (option string) :=
  match dict_get d k with
  | None => Ret None
  | Some v => do s <- py_strip v; Ret (or_None s)
  end.

(** [data.get(k)] : a missing key reads as [None]. *)
Definition dict_get_or_null (d : dict) (k : string) : jval :=
  match dict_get d k with Some v => v | None => VNull end.

(** [data[k]] : a missing key raises [KeyError]. *)
Definition dict_item (d : dict) (k : string) : outcome jval :=
  match dict_get d k with
  | Some v => Ret v
  | None => Raise ("'" ++ k ++ "'")%string
  end.

(* ================================================================== *)
(** * models.py: the tables

    Each table is the list of its rows in insertion order.  Timestamps are
    integers; the clock value [now] is an input of every operation that
    reads it. *)

Record User : Type := mkUser {
  u_id : Z;
  u_name : string;
  u_email : string;
  u_password_hash : string;
  u_role : string;
  u_created_at : Z
}.

(** The model class [Class]. *)
Record Classroom : Type := mkClass {
  c_id : Z;
  c_name : string;
  c_subject : string;
  c_grade : option string;
  c_description : option string;
  c_passcode : string;
  c_owner_id : Z;
  c_created_at : Z
}.

(** A row of the association table [class_students]. *)
Record Enrollment : Type := mkEnrollment {
  e_class_id : Z;
  e_user_id : Z;
  e_joined_at : Z
}.

Record Assignment : Type := mkAssignment {
  a_id : Z;
  a_title : string;
  a_description : option string;
  a_due_date : option Z;
  a_class_id : Z;
  a_created_at : Z
}.

Record Submission : Type := mkSubmission {
  s_id : Z;
  s_content : option string;
  s_file_name : jval;
  s_file_size : jval;
  s_student_id : Z;
  s_assignment_id : Z;
  s_submitted_at : Z;
  s_grade : option string;
  s_feedback : option string;
  s_graded_at : option Z
}.

Record PeerReview : Type := mkPeerReview {
  r_id : Z;
  r_content : string;
  r_reviewer_id : Z;
  r_submission_id : Z;
  r_created_at : Z
}.

Record DB : Type := mkDB {
  users : list User;
  classes : list Classroom;
  class_students : list Enrollment;
  assignments : list Assignment;
  submissions : list Submission;
  peer_reviews : list PeerReview
}.

Definition empty_db : DB := mkDB [] [] [] [] [] [].

(** The integer primary key of a new row: one more than the largest key
    of the table. *)
Definition next_id (ids : list Z) : Z := 1 + fold_right Z.max 0 ids.

(** ** [db.session.get] *)

Definition get_User (st : DB) (id : Z) : option User :=
  find (fun u => u_id u =? id) (users st).

Definition get_Class (st : DB) (id : Z) : option Classroom :=
  find (fun c => c_id c =? id) (classes st).

Definition get_Assignment (st : DB) (id : Z) : option Assignment :=
  find (fun a => a_id a =? id) (assignments st).

Definition get_Submission (st : DB) (id : Z) : option Submission :=
  find (fun s => s_id s =? id) (submissions st).

(** ** Relationships *)

Definition is_enrolled (st : DB) (uid cid : Z) : bool :=
  existsb (fun e => (e_class_id e =? cid) && (e_user_id e =? uid))%bool
          (class_students st).

(** [cls.students] *)
Definition Class_students (st : DB) (c : Classroom) : list User :=
  filter (fun u => is_enrolled st (u_id u) (c_id c)) (users st).

(** [user.enrolled_classes] *)
Definition User_enrolled_classes (st : DB) (u : User) : list Classroom :=
  filter (fun c => is_enrolled st (u_id u) (c_id c)) (classes st).

(** [cls.owner] *)
Definition Class_owner (st : DB) (c : Classroom) : option User :=
  get_User st (c_owner_id c).

(** [cls.assignments] *)
Definition Class_assignments (st : DB) (c : Classroom) : list Assignment :=
  filter (fun a => a_class_id a =? c_id c) (assignments st).

(** [assignment.submissions] *)
Definition Assignment_submissions (st : DB) (a : Assignment) : list Submission :=
  filter (fun s => s_assignment_id s =? a_id a) (submissions st).

(** [submission.peer_reviews] *)
Definition Submission_peer_reviews (st : DB) (s : Submission) : list PeerReview :=
  filter (fun r => r_submission_id r =? s_id s) (peer_reviews st).

(** [submission.assignment] *)
Definition Submission_assignment (st : DB) (s : Submission) : option Assignment :=
  get_Assignment st (s_assignment_id s).

(** [user in cls.students], where [user] may be [None]. *)
Definition user_in_students (st : DB) (user : option User) (c : Classroom) : bool :=
  match user with
  | Some u => existsb (fun s => u_id s =? u_id u) (Class_students st c)
  | None => false
  end.

(** ** [to_dict] *)

Definition User_to_dict (u : User) : json :=
  JObj [("id", JInt (u_id u));
        ("name", JStr (u_name u));
        ("email", JStr (u_email u));
        ("role", JStr (u_role u));
        ("createdAt", JTime (u_created_at u))].

Definition user_name_or_None (o : option User) : json :=
  match o with Some u => JStr (u_name u) | None => JNull end.

Definition PeerReview_to_dict (st : DB) (r : PeerReview) : json :=
  JObj [("id", JInt (r_id r));
        ("content", JStr (r_content r));
        ("reviewerId", JInt (r_reviewer_id r));
        ("reviewerName", user_name_or_None (get_User st (r_reviewer_id r)));
        ("submissionId", JInt (r_submission_id r));
        ("createdAt", JTime (r_created_at r))].

Definition Submission_to_dict (st : DB) (include_reviews : bool) (s : Submission) : json :=
  let data :=
    [("id", JInt (s_id s));
     ("content", json_opt_str (s_content s));
     ("fileName", json_of_jval (s_file_name s));
     ("fileSize", json_of_jval (s_file_size s));
     ("studentId", JInt (s_student_id s));
     ("studentName", user_name_or_None (get_User st (s_student_id s)));
     ("assignmentId", JInt (s_assignment_id s));
     ("submittedAt", JTime (s_submitted_at s));
     ("grade", json_opt_str (s_grade s));
     ("feedback", json_opt_str (s_feedback s));
     ("gradedAt", json_opt_time (s_graded_at s))] in
  let data :=
    if include_reviews
    then data ++ [("peerReviews",
                   JList (map (PeerReview_to_dict st) (Submission_peer_reviews st s)))]
    else data in
  JObj data.

Definition Assignment_to_dict (st : DB) (include_submissions : bool) (a : Assignment) : json :=
  let data :=
    [("id", JInt (a_id a));
     ("title", JStr (a_title a));
     ("description", json_opt_str (a_description a));
     ("dueDate", json_opt_time (a_due_date a));
     ("classId", JInt (a_class_id a));
     ("submissionCount", JInt (Z.of_nat (List.length (Assignment_submissions st a))));
     ("createdAt", JTime (a_created_at a))] in
  let data :=
    if include_submissions
    then data ++ [("submissions",
                   JList (map (Submission_to_dict st true) (Assignment_submissions st a)))]
    else data in
  JObj data.

Definition Class_to_dict (st : DB)
    (include_passcode include_students include_assignments : bool)
    (c : Classroom) : json :=
  let data :=
    [("id", JInt (c_id c));
     ("name", JStr (c_name c));
     ("subject", JStr (c_subject c));
     ("grade", json_opt_str (c_grade c));
     ("description", json_opt_str (c_description c));
     ("ownerId", JInt (c_owner_id c));
     ("ownerName", user_name_or_None (Class_owner st c));
     ("studentCount", JInt (Z.of_nat (List.length (Class_students st c))));
     ("createdAt", JTime (c_created_at c))] in
  let data :=
    if include_passcode then data ++ [("passcode", JStr (c_passcode c))] else data in
  let data :=
    if include_students
    then data ++ [("students", JList (map User_to_dict (Class_students st c)))]
    else data in
  let data :=
    if include_assignments
    then data ++ [("assignments",
                   JList (map (Assignment_to_dict st true) (Class_assignments st c)))]
    else data in
  JObj data.

(** Functional updates of one table. *)
Definition set_users (st : DB) (l : list User) : DB :=
  mkDB l (classes st) (class_students st) (assignments st) (submissions st) (peer_reviews st).
Definition set_classes (st : DB) (l : list Classroom) : DB :=
  mkDB (users st) l (class_students st) (assignments st) (submissions st) (peer_reviews st).
Definition set_class_students (st : DB) (l : list Enrollment) : DB :=
  mkDB (users st) (classes st) l (assignments st) (submissions st) (peer_reviews st).
Definition set_assignments (st : DB) (l : list Assignment) : DB :=
  mkDB (users st) (classes st) (class_students st) l (submissions st) (peer_reviews st).
Definition set_submissions (st : DB) (l : list Submission) : DB :=
  mkDB (users st) (classes st) (class_students st) (assignments st) l (peer_reviews st).
Definition set_peer_reviews (st : DB) (l : list PeerReview) : DB :=
  mkDB (users st) (classes st) (class_students st) (assignments st) (submissions st) l.

(** ** [db.session.delete] with the declared cascades

    [Class.assignments], [Assignment.submissions] and
    [Submission.peer_reviews] are declared with
    [cascade="all, delete-orphan"]: deleting a parent deletes every member of
    the collection first, each with its own cascade.  Deleting a class also
    deletes its rows of the association table. *)

Definition session_delete_PeerReview (st : DB) (r : PeerReview) : DB :=
  set_peer_reviews st (filter (fun x => negb (r_id x =? r_id r)) (peer_reviews st)).

Definition session_delete_Submission (st : DB) (s : Submission) : DB :=
  let st1 := fold_left session_delete_PeerReview (Submission_peer_reviews st s) st in
  set_submissions st1 (filter (fun x => negb (s_id x =? s_id s)) (submissions st1)).

Definition session_delete_Assignment (st : DB) (a : Assignment) : DB :=
  let st1 := fold_left session_delete_Submission (Assignment_submissions st a) st in
  set_assignments st1 (filter (fun x => negb (a_id x =? a_id a)) (assignments st1)).

Definition session_delete_Class (st : DB) (c : Classroom) : DB :=
  let st1 := fold_left session_delete_Assignment (Class_assignments st c) st in
  let st2 := set_class_students st1
               (filter (fun e => negb (e_class_id e =? c_id c)) (class_students st1)) in
  set_classes st2 (filter (fun x => negb (c_id x =? c_id c)) (classes st2)).

(* ================================================================== *)
(** * utils.py *)

Definition chars_mem (c : ascii) (s : string) : bool :=
  string_existsb (Ascii.eqb c) s.

(** [[a-zA-Z0-9._%+-]] *)
Definition email_local_char (c : ascii) : bool :=
  (is_ascii_letter c || is_digit c || chars_mem c "._%+-")%bool.

(** [[a-zA-Z0-9.-]] *)
Definition email_domain_char (c : ascii) : bool :=
  (is_ascii_letter c || is_digit c || chars_mem c ".-")%bool.

Definition nonempty (s : string) : bool :=
  match s with EmptyString => false | _ => true end.

(** The pattern up to its final [$]: a local part, the first [@], a domain,
    its last dot and at least two letters. *)
Definition email_pattern (s : string) : bool :=
  match split_first "@"%char s with
  | Some (loc, rest) =>
      (nonempty loc && string_forallb email_local_char loc &&
       match split_last "."%char rest with
       | Some (dom, tld) =>
           nonempty dom && string_forallb email_domain_char dom &&
           (2 <=? str_len tld) && string_forallb is_ascii_letter tld
       | None => false
       end)%bool
  | None => false
  end.

(** [s] without its last character when that is a newline. *)
Fixpoint chomp_newline (s : string) : option string :=
  match s with
  | EmptyString => None
  | String c EmptyString => if Ascii.eqb c "010"%char then Some EmptyString else None
  | String c r => option_map (String c) (chomp_newline r)
  end.

(** [validate_email]: [$] matches at the end and before a final newline. *)
Definition validate_email (email : string) : bool :=
  (email_pattern email ||
   match chomp_newline email with
   | Some e => email_pattern e
   | None => false
   end)%bool.

Definition validate_password (password : string) : bool * string :=
  if str_len password <? 8 then (false, "Password must be at least 8 characters")
  else if negb (string_existsb is_ascii_upper password)
  then (false, "Password must contain an uppercase letter")
  else if negb (string_existsb is_ascii_lower password)
  then (false, "Password must contain a lowercase letter")
  else if negb (string_existsb is_digit password)
  then (false, "Password must contain a number")
  else (true, "Valid").

(** The response of the token library when [verify_jwt_in_request] finds
    no valid token. *)
Definition jwt_unauthorized : response :=
  (JObj [("msg", JStr "Missing Authorization Header")], 401).

(** In every handler [ident] is the outcome of token verification: [None]
    when it fails, otherwise the integer [int(get_jwt_identity())]. *)

Definition jwt_required (st : DB) (ident : option Z)
    (fn : Z -> DB * response) : DB * response :=
  match ident with
  | None => (st, jwt_unauthorized)
  | Some current_user_id => fn current_user_id
  end.

Definition teacher_required (st : DB) (ident : option Z)
    (fn : Z -> DB * response) : DB * response :=
  match ident with
  | None => (st, jwt_unauthorized)
  | Some current_user_id =>
      match get_User st current_user_id with
      | Some user =>
          if negb (String.eqb (u_role user) "teacher")
          then (st, err "Teacher access required" 403)
          else fn current_user_id
      | None => (st, err "Teacher access required" 403)
      end
  end.

Definition student_required (st : DB) (ident : option Z)
    (fn : Z -> DB * response) : DB * response :=
  match ident with
  | None => (st, jwt_unauthorized)
  | Some current_user_id =>
      match get_User st current_user_id with
      | Some user =>
          if negb (String.eqb (u_role user) "student")
          then (st, err "Student access required" 403)
          else fn current_user_id
      | None => (st, err "Student access required" 403)
      end
  end.

(* ================================================================== *)
(** * decorators.py *)

(** [body] is [None] when the request is not JSON, otherwise the parsed
    object. *)
Definition validate_json (st : DB) (required_fields : list string)
    (body : option dict) (f : dict -> DB * response) : DB * response :=
  match body with
  | None => (st, err "Content-Type must be application/json" 400)
  | Some data =>
      match data with
      | [] => (st, err "Request body required" 400)
      | _ =>
          let missing := filter (fun field => negb (dict_has data field)) required_fields in
          match missing with
          | [] => f data
          | _ => (st, (JObj [("error", JStr "Missing required fields");
                             ("missing_fields", JList (map JStr missing))], 400))
          end
      end
  end.

(** The session is rolled back, so the database is the one before the
    request. *)
Definition handle_db_errors (st : DB) (f : outcome (DB * response)) : DB * response :=
  match f with
  | Ret r => r
  | Raise e => (st, (JObj [("error", JStr "Internal server error");
                           ("details", JStr e)], 500))
  end.

(** app.py, [internal_error]: what a handler without [handle_db_errors]
    answers when an exception escapes. *)
Definition internal_error (st : DB) (f : outcome (DB * response)) : DB * response :=
  match f with
  | Ret r => r
  | Raise _ => (st, err "Internal server error" 500)
  end.

(** [request.get_json() or {}] *)
Definition get_json_or_empty (body : option dict) : dict :=
  match body with Some d => d | None => [] end.

(* ================================================================== *)
(** * The external collaborators

    Password hashing, token issuance and ISO date parsing are libraries;
    the handlers see them through this interface.  [salt] and the clock are
    the values the environment draws for one call. *)

Class Collaborators : Type := {
  generate_password_hash : string -> string -> string;   (* salt, password *)
  check_password_hash : string -> string -> bool;        (* hash, password *)
  create_access_token : Z -> Z -> string;                (* clock, identity *)
  create_refresh_token : Z -> Z -> string;
  fromisoformat : string -> option Z
}.

Section Routes.

Context {K : Collaborators}.

(* ------------------------------------------------------------------ *)
(** ** routes/auth.py *)

(** [len(v)] followed by the pattern searches: both need a [str]. *)
Definition password_str (v : jval) : outcome string :=
  match v with
  | VStr s => Ret s
  | _ => Raise ("object of type '" ++ type_name v ++ "' has no len()")%string
  end.

Definition find_user_by_email (st : DB) (email : string) : option User :=
  find (fun u => String.eqb (u_email u) email) (users st).

Definition register (st : DB) (body : option dict) (salt : string) (now : Z)
    : DB * response :=
  validate_json st ["name"; "email"; "password"; "role"] body (fun data =>
  internal_error st (
    do v_name <- dict_item data "name";
    do name <- py_strip v_name;
    do v_email <- dict_item data "email";
    do email0 <- py_strip v_email;
    let email := lower email0 in
    do password <- dict_item data "password";
    do v_role <- dict_item data "role";
    do role0 <- py_strip v_role;
    let role := lower role0 in
    if negb (String.eqb role "teacher" || String.eqb role "student")
    then Ret (st, err "Role must be 'teacher' or 'student'" 400)
    else if negb (validate_email email)
    then Ret (st, err "Invalid email format" 400)
    else
      do pw <- password_str password;
      let (is_valid, msg) := validate_password pw in
      if negb is_valid then Ret (st, err msg 400)
      else match find_user_by_email st email with
      | Some _ => Ret (st, err "Email already registered" 409)
      | None =>
          let user := mkUser (next_id (map u_id (users st))) name email
                             (generate_password_hash salt pw) role now in
          let st' := set_users st (users st ++ [user]) in
          Ret (st', (JObj [("message", JStr "Registration successful");
                           ("access_token", JStr (create_access_token now (u_id user)));
                           ("refresh_token", JStr (create_refresh_token now (u_id user)));
                           ("user", User_to_dict user)], 201))
      end)).

(** [bcrypt.check_password_hash(hash, password)]: the hashing library
    takes a [str]; any other value is taken to raise. *)
Definition bcrypt_check (hash : string) (password : jval) : outcome bool :=
  match password with
  | VStr p => Ret (check_password_hash hash p)
  | _ => Raise ("password must be a string")%string
  end.

Definition login (st : DB) (body : option dict) (now : Z) : DB * response :=
  validate_json st ["email"; "password"] body (fun data =>
  internal_error st (
    do v_email <- dict_item data "email";
    do email0 <- py_strip v_email;
    let email := lower email0 in
    do password <- dict_item data "password";
    let invalid := err "Invalid email or password" 401 in
    match find_user_by_email st email with
    | None => Ret (st, invalid)
    | Some user =>
        do ok <- bcrypt_check (u_password_hash user) password;
        if negb ok then Ret (st, invalid)
        else Ret (st, (JObj [("message", JStr "Login successful");
                             ("access_token", JStr (create_access_token now (u_id user)));
                             ("refresh_token", JStr (create_refresh_token now (u_id user)));
                             ("user", User_to_dict user)], 200))
    end)).

Definition get_session (st : DB) (ident : option Z) : DB * response :=
  jwt_required st ident (fun current_user_id =>
    match get_User st current_user_id with
    | None => (st, err "User not found" 404)
    | Some user => (st, (JObj [("user", User_to_dict user)], 200))
    end).

(* ------------------------------------------------------------------ *)
(** ** routes/classes.py *)

(** [passcode] is the value [_generate_passcode] draws for the new row. *)
Definition create_class (st : DB) (ident : option Z) (body : option dict)
    (passcode : string) (now : Z) : DB * response :=
  teacher_required st ident (fun user_id =>
  validate_json st ["name"; "subject"] body (fun data =>
  handle_db_errors st (
    do v_name <- dict_item data "name";
    do name <- py_strip v_name;
    do v_subject <- dict_item data "subject";
    do subject <- py_strip v_subject;
    do grade <- get_stripped_or_None data "grade";
    do description <- get_stripped_or_None data "description";
    let new_class := mkClass (next_id (map c_id (classes st))) name subject grade
                             description passcode user_id now in
    let st' := set_classes st (classes st ++ [new_class]) in
    Ret (st', (JObj [("message", JStr "Class created successfully");
                     ("class", Class_to_dict st' true false false new_class)], 201))))).

(** [order_by(Class.created_at.desc())]: newest first.  SQL leaves the
    order of rows of equal time open; the insertion below fixes one. *)
Fixpoint insert_desc (c : Classroom) (l : list Classroom) : list Classroom :=
  match l with
  | [] => [c]
  | x :: r => if c_created_at x <? c_created_at c then c :: l else x :: insert_desc c r
  end.

Definition order_by_created_at_desc (l : list Classroom) : list Classroom :=
  fold_right insert_desc [] l.

(** [role_arg] is the query parameter [role], when given. *)
Definition list_classes (st : DB) (ident : option Z) (role_arg : option string)
    : DB * response :=
  jwt_required st ident (fun user_id =>
    match get_User st user_id with
    | None => (st, err "User not found" 404)
    | Some user =>
        let role_filter := match role_arg with Some r => r | None => u_role user end in
        if String.eqb role_filter "teacher" then
          let cs := order_by_created_at_desc
                      (filter (fun c => c_owner_id c =? user_id) (classes st)) in
          (st, (JObj [("classes", JList (map (Class_to_dict st true true true) cs))], 200))
        else
          let cs := order_by_created_at_desc (User_enrolled_classes st user) in
          (st, (JObj [("classes", JList (map (Class_to_dict st false false true) cs))], 200))
    end).

Definition get_class (st : DB) (ident : option Z) (class_id : Z) : DB * response :=
  jwt_required st ident (fun user_id =>
    let user := get_User st user_id in
    match get_Class st class_id with
    | None => (st, err "Class not found" 404)
    | Some cls =>
        let is_owner := c_owner_id cls =? user_id in
        let is_student := user_in_students st user cls in
        if (negb is_owner && negb is_student)%bool
        then (st, err "Access denied" 403)
        else (st, (JObj [("class", Class_to_dict st is_owner is_owner true cls)], 200))
    end).

Definition delete_class (st : DB) (ident : option Z) (class_id : Z) : DB * response :=
  teacher_required st ident (fun user_id =>
  handle_db_errors st (
    match get_Class st class_id with
    | None => Ret (st, err "Class not found" 404)
    | Some cls =>
        if negb (c_owner_id cls =? user_id)
        then Ret (st, err "Only the class owner can delete it" 403)
        else Ret (session_delete_Class st cls,
                  (JObj [("message", JStr "Class deleted successfully")], 200))
    end)).

(** [db.session.get(Class, key)] for a key taken from the body.  The
    primary key is an integer column: [None] finds no row, and a string is
    taken to be refused by the storage layer. *)
Definition get_Class_by (st : DB) (key : jval) : outcome (option Classroom) :=
  match key with
  | VInt n => Ret (get_Class st n)
  | VNull => Ret None
  | VStr _ => Raise "invalid primary key"
  end.

Definition join_class (st : DB) (ident : option Z) (body : option dict) (now : Z)
    : DB * response :=
  student_required st ident (fun user_id =>
  validate_json st ["classId"; "passcode"] body (fun data =>
  handle_db_errors st (
    let user := get_User st user_id in
    do key <- dict_item data "classId";
    do found <- get_Class_by st key;
    match found with
    | None => Ret (st, err "Class not found" 404)
    | Some cls =>
        do v_pass <- dict_item data "passcode";
        do given <- py_strip v_pass;
        if negb (String.eqb (c_passcode cls) given)
        then Ret (st, err "Invalid passcode" 401)
        else if user_in_students st user cls
        then Ret (st, err "Already enrolled in this class" 409)
        else
          let st' := set_class_students st
                       (class_students st ++ [mkEnrollment (c_id cls) user_id now]) in
          Ret (st', (JObj [("message", JStr "Joined class successfully");
                           ("class", Class_to_dict st' false false false cls)], 200))
    end))).

Definition leave_class (st : DB) (ident : option Z) (class_id : Z) : DB * response :=
  student_required st ident (fun user_id =>
  handle_db_errors st (
    let user := get_User st user_id in
    match get_Class st class_id with
    | None => Ret (st, err "Class not found" 404)
    | Some cls =>
        if negb (user_in_students st user cls)
        then Ret (st, err "Not enrolled in this class" 400)
        else
          let st' := set_class_students st
                       (filter (fun e => negb ((e_class_id e =? c_id cls) &&
                                               (e_user_id e =? user_id)))
                               (class_students st)) in
          Ret (st', (JObj [("message", JStr "Left class successfully")], 200))
    end)).

(* ------------------------------------------------------------------ *)
(** ** routes/assignments.py *)

(** [s.replace("Z", "+00:00")] *)
Fixpoint replace_Z (s : string) : string :=
  match s with
  | EmptyString => EmptyString
  | String c r =>
      if Ascii.eqb c "Z"%char then ("+00:00" ++ replace_Z r)%string
      else String c (replace_Z r)
  end.

(** [_parse_date]: a falsy value gives [None]; so does a value without
    [replace] or a string that is not an ISO date, whose exception is
    caught. *)
Definition _parse_date (date_str : jval) : option Z :=
  match date_str with
  | VStr EmptyString => None
  | VStr s => fromisoformat (replace_Z s)
  | _ => None
  end.

Definition create_assignment (st : DB) (ident : option Z) (class_id : Z)
    (body : option dict) (now : Z) : DB * response :=
  teacher_required st ident (fun user_id =>
  validate_json st ["title"] body (fun data =>
  handle_db_errors st (
    match get_Class st class_id with
    | None => Ret (st, err "Class not found" 404)
    | Some cls =>
        if negb (c_owner_id cls =? user_id)
        then Ret (st, err "Only the class owner can create assignments" 403)
        else
          do v_title <- dict_item data "title";
          do title <- py_strip v_title;
          do description <- get_stripped_or_None data "description";
          let assignment :=
            mkAssignment (next_id (map a_id (assignments st))) title description
                         (_parse_date (dict_get_or_null data "dueDate")) class_id now in
          let st' := set_assignments st (assignments st ++ [assignment]) in
          Ret (st', (JObj [("message", JStr "Assignment created");
                           ("assignment", Assignment_to_dict st' false assignment)], 201))
    end))).

(** The guard shared by the handlers that modify an assignment. *)
Definition owned_class (st : DB) (class_id user_id : Z) : bool :=
  match get_Class st class_id with
  | None => false
  | Some cls => c_owner_id cls =? user_id
  end.

Definition replace_assignment (st : DB) (a : Assignment) : DB :=
  set_assignments st
    (map (fun x => if a_id x =? a_id a then a else x) (assignments st)).

Definition update_assignment (st : DB) (ident : option Z) (class_id assignment_id : Z)
    (body : option dict) : DB * response :=
  teacher_required st ident (fun user_id =>
  handle_db_errors st (
    if negb (owned_class st class_id user_id)
    then Ret (st, err "Access denied" 403)
    else match get_Assignment st assignment_id with
    | None => Ret (st, err "Assignment not found" 404)
    | Some assignment =>
        if negb (a_class_id assignment =? class_id)
        then Ret (st, err "Assignment not found" 404)
        else
          let data := get_json_or_empty body in
          do title <-
            match dict_get data "title" with
            | Some v => py_strip v
            | None => Ret (a_title assignment)
            end;
          do description <-
            match dict_get data "description" with
            | Some v => do s <- py_strip v; Ret (or_None s)
            | None => Ret (a_description assignment)
            end;
          let due_date :=
            match dict_get data "dueDate" with
            | Some v => _parse_date v
            | None => a_due_date assignment
            end in
          let assignment' :=
            mkAssignment (a_id assignment) title description due_date
                         (a_class_id assignment) (a_created_at assignment) in
          let st' := replace_assignment st assignment' in
          Ret (st', (JObj [("message", JStr "Assignment updated");
                           ("assignment", Assignment_to_dict st' false assignment')], 200))
    end)).

Definition delete_assignment (st : DB) (ident : option Z) (class_id assignment_id : Z)
    : DB * response :=
  teacher_required st ident (fun user_id =>
  handle_db_errors st (
    if negb (owned_class st class_id user_id)
    then Ret (st, err "Access denied" 403)
    else match get_Assignment st assignment_id with
    | None => Ret (st, err "Assignment not found" 404)
    | Some assignment =>
        if negb (a_class_id assignment =? class_id)
        then Ret (st, err "Assignment not found" 404)
        else Ret (session_delete_Assignment st assignment,
                  (JObj [("message", JStr "Assignment deleted")], 200))
    end)).

(* ------------------------------------------------------------------ *)
(** ** routes/submissions.py *)

Definition find_submission (st : DB) (student_id assignment_id : Z) : option Submission :=
  find (fun s => (s_student_id s =? student_id) && (s_assignment_id s =? assignment_id))%bool
       (submissions st).

Definition create_submission (st : DB) (ident : option Z) (class_id assignment_id : Z)
    (body : option dict) (now : Z) : DB * response :=
  student_required st ident (fun user_id =>
  handle_db_errors st (
    let user := get_User st user_id in
    match get_Class st class_id with
    | None => Ret (st, err "Class not found" 404)
    | Some cls =>
        if negb (user_in_students st user cls)
        then Ret (st, err "Not enrolled in this class" 403)
        else
          let not_found := Ret (st, err "Assignment not found" 404) in
          match get_Assignment st assignment_id with
          | None => not_found
          | Some assignment =>
              if negb (a_class_id assignment =? class_id) then not_found
              else match find_submission st user_id assignment_id with
              | Some _ => Ret (st, err "Already submitted. Use PUT to edit." 409)
              | None =>
                  let data := get_json_or_empty body in
                  do content <- get_stripped_or_None data "content";
                  let submission :=
                    mkSubmission (next_id (map s_id (submissions st))) content
                                 (dict_get_or_null data "fileName")
                                 (dict_get_or_null data "fileSize")
                                 user_id assignment_id now None None None in
                  let st' := set_submissions st (submissions st ++ [submission]) in
                  Ret (st', (JObj [("message", JStr "Submission created");
                                   ("submission", Submission_to_dict st' false submission)],
                             201))
              end
          end
    end)).

(** The test the submission handlers share:
    [not submission or submission.assignment_id != assignment_id
     or submission.assignment.class_id != class_id];
    [Ret None] stands for "Submission not found". *)
Definition submission_in_chain (st : DB) (class_id assignment_id submission_id : Z)
    : outcome (option Submission) :=
  match get_Submission st submission_id with
  | None => Ret None
  | Some submission =>
      if negb (s_assignment_id submission =? assignment_id) then Ret None
      else match Submission_assignment st submission with
      | None => Raise (no_attribute "NoneType" "class_id")
      | Some a => if negb (a_class_id a =? class_id) then Ret None
                  else Ret (Some submission)
      end
  end.

Definition replace_submission (st : DB) (s : Submission) : DB :=
  set_submissions st
    (map (fun x => if s_id x =? s_id s then s else x) (submissions st)).

Definition update_submission (st : DB) (ident : option Z)
    (class_id assignment_id submission_id : Z) (body : option dict) (now : Z)
    : DB * response :=
  student_required st ident (fun user_id =>
  handle_db_errors st (
    do found <- submission_in_chain st class_id assignment_id submission_id;
    match found with
    | None => Ret (st, err "Submission not found" 404)
    | Some submission =>
        if negb (s_student_id submission =? user_id)
        then Ret (st, err "Cannot edit another student's submission" 403)
        else
          let data := get_json_or_empty body in
          do content <-
            match dict_get data "content" with
            | Some v => do s <- py_strip v; Ret (or_None s)
            | None => Ret (s_content submission)
            end;
          let file_name :=
            match dict_get data "fileName" with
            | Some v => v
            | None => s_file_name submission
            end in
          let file_size :=
            match dict_get data "fileSize" with
            | Some v => v
            | None => s_file_size submission
            end in
          let submission' :=
            mkSubmission (s_id submission) content file_name file_size
                         (s_student_id submission) (s_assignment_id submission) now
                         (s_grade submission) (s_feedback submission)
                         (s_graded_at submission) in
          let st' := replace_submission st submission' in
          Ret (st', (JObj [("message", JStr "Submission updated");
                           ("submission", Submission_to_dict st' false submission')], 200))
    end)).

Definition delete_submission (st : DB) (ident : option Z)
    (class_id assignment_id submission_id : Z) : DB * response :=
  student_required st ident (fun user_id =>
  handle_db_errors st (
    do found <- submission_in_chain st class_id assignment_id submission_id;
    match found with
    | None => Ret (st, err "Submission not found" 404)
    | Some submission =>
        if negb (s_student_id submission =? user_id)
        then Ret (st, err "Cannot withdraw another student's submission" 403)
        else Ret (session_delete_Submission st submission,
                  (JObj [("message", JStr "Submission withdrawn")], 200))
    end)).

Definition grade_submission (st : DB) (ident : option Z)
    (class_id assignment_id submission_id : Z) (body : option dict) (now : Z)
    : DB * response :=
  teacher_required st ident (fun user_id =>
  validate_json st ["grade"] body (fun data =>
  handle_db_errors st (
    if negb (owned_class st class_id user_id)
    then Ret (st, err "Access denied" 403)
    else
      do found <- submission_in_chain st class_id assignment_id submission_id;
      match found with
      | None => Ret (st, err "Submission not found" 404)
      | Some submission =>
          do v_grade <- dict_item data "grade";
          let grade := strip (py_str v_grade) in
          do feedback <- get_stripped_or_None data "feedback";
          let submission' :=
            mkSubmission (s_id submission) (s_content submission)
                         (s_file_name submission) (s_file_size submission)
                         (s_student_id submission) (s_assignment_id submission)
                         (s_submitted_at submission)
                         (Some grade) feedback (Some now) in
          let st' := replace_submission st submission' in
          Ret (st', (JObj [("message", JStr "Submission graded");
                           ("submission", Submission_to_dict st' false submission')], 200))
      end))).

(* ------------------------------------------------------------------ *)
(** ** routes/peer_reviews.py *)

(** [PeerReview.query.filter_by(reviewer_id=..., submission_id=...).first()] *)
Definition find_review (st : DB) (reviewer_id submission_id : Z) : option PeerReview :=
  find (fun r => (r_reviewer_id r =? reviewer_id) && (r_submission_id r =? submission_id))%bool
       (peer_reviews st).

Definition create_peer_review (st : DB) (ident : option Z)
    (class_id assignment_id submission_id : Z) (body : option dict) (now : Z)
    : DB * response :=
  student_required st ident (fun user_id =>
  validate_json st ["content"] body (fun data =>
  handle_db_errors st (
    let user := get_User st user_id in
    match get_Class st class_id with
    | None => Ret (st, err "Class not found" 404)
    | Some cls =>
        if negb (user_in_students st user cls)
        then Ret (st, err "Not enrolled in this class" 403)
        else
          do found <- submission_in_chain st class_id assignment_id submission_id;
          match found with
          | None => Ret (st, err "Submission not found" 404)
          | Some submission =>
              if s_student_id submission =? user_id
              then Ret (st, err "Cannot review your own submission" 400)
              else match find_review st user_id submission_id with
              | Some _ => Ret (st, err "You have already reviewed this submission" 409)
              | None =>
                  do v_content <- dict_item data "content";
                  do content <- py_strip v_content;
                  let review :=
                    mkPeerReview (next_id (map r_id (peer_reviews st))) content
                                 user_id submission_id now in
                  let st' := set_peer_reviews st (peer_reviews st ++ [review]) in
                  Ret (st', (JObj [("message", JStr "Peer review submitted");
                                   ("peerReview", PeerReview_to_dict st' review)], 201))
              end
          end
    end))).

(** One element of the list [pending]. *)
Definition pending_entry (st : DB) (cls : Classroom) (assignment : Assignment)
    (submission : Submission) : json :=
  JObj [("class", JObj [("id", JInt (c_id cls)); ("name", JStr (c_name cls))]);
        ("assignment", JObj [("id", JInt (a_id assignment));
                             ("title", JStr (a_title assignment))]);
        ("submission", Submission_to_dict st false submission)].

(** The body of the innermost loop: [continue] leaves [pending] as it is,
    otherwise the entry is appended. *)
Definition pending_visit_submission (st : DB) (user_id : Z) (cls : Classroom)
    (assignment : Assignment) (pending : list json) (submission : Submission)
    : list json :=
  if s_student_id submission =? user_id then pending
  else match find_review st user_id (s_id submission) with
       | Some _ => pending
       | None => pending ++ [pending_entry st cls assignment submission]
       end.

Definition pending_visit_assignment (st : DB) (user_id : Z) (cls : Classroom)
    (pending : list json) (assignment : Assignment) : list json :=
  fold_left (pending_visit_submission st user_id cls assignment)
            (Assignment_submissions st assignment) pending.

Definition pending_visit_class (st : DB) (user_id : Z)
    (pending : list json) (cls : Classroom) : list json :=
  fold_left (pending_visit_assignment st user_id cls)
            (Class_assignments st cls) pending.

Definition get_pending_reviews (st : DB) (ident : option Z) : DB * response :=
  student_required st ident (fun user_id =>
    match get_User st user_id with
    | None => (st, err "User not found" 404)
    | Some user =>
        let pending :=
          fold_left (pending_visit_class st user_id)
                    (User_enrolled_classes st user) [] in
        (st, (JObj [("pending", JList pending)], 200))
    end).

(* ------------------------------------------------------------------ *)
(** ** The API as a transition system

    One request of the API.  [ident] is the result of verifying the bearer
    token; the clock and the random draws are part of the request.  Logout
    and token refresh act on tokens only and never on the database, so they
    are not among the requests. *)

Inductive request : Type :=
| Register (body : option dict) (salt : string) (now : Z)
| Login (body : option dict) (now : Z)
| GetSession (ident : option Z)
| CreateClass (ident : option Z) (body : option dict) (passcode : string) (now : Z)
| ListClasses (ident : option Z) (role_arg : option string)
| GetClass (ident : option Z) (class_id : Z)
| DeleteClass (ident : option Z) (class_id : Z)
| JoinClass (ident : option Z) (body : option dict) (now : Z)
| LeaveClass (ident : option Z) (class_id : Z)
| CreateAssignment (ident : option Z) (class_id : Z) (body : option dict) (now : Z)
| UpdateAssignment (ident : option Z) (class_id assignment_id : Z) (body : option dict)
| DeleteAssignment (ident : option Z) (class_id assignment_id : Z)
| CreateSubmission (ident : option Z) (class_id assignment_id : Z)
                   (body : option dict) (now : Z)
| UpdateSubmission (ident : option Z) (class_id assignment_id submission_id : Z)
                   (body : option dict) (now : Z)
| DeleteSubmission (ident : option Z) (class_id assignment_id submission_id : Z)
| GradeSubmission (ident : option Z) (class_id assignment_id submission_id : Z)
                  (body : option dict) (now : Z)
| CreatePeerReview (ident : option Z) (class_id assignment_id submission_id : Z)
                   (body : option dict) (now : Z)
| GetPendingReviews (ident : option Z).

Definition handle (st : DB) (rq : request) : DB * response :=
  match rq with
  | Register body salt now => register st body salt now
  | Login body now => login st body now
  | GetSession ident => get_session st ident
  | CreateClass ident body passcode now => create_class st ident body passcode now
  | ListClasses ident role_arg => list_classes st ident role_arg
  | GetClass ident class_id => get_class st ident class_id
  | DeleteClass ident class_id => delete_class st ident class_id
  | JoinClass ident body now => join_class st ident body now
  | LeaveClass ident class_id => leave_class st ident class_id
  | CreateAssignment ident class_id body now => create_assignment st ident class_id body now
  | UpdateAssignment ident class_id aid body => update_assignment st ident class_id aid body
  | DeleteAssignment ident class_id aid => delete_assignment st ident class_id aid
  | CreateSubmission ident class_id aid body now =>
      create_submission st ident class_id aid body now
  | UpdateSubmission ident class_id aid sid body now =>
      update_submission st ident class_id aid sid body now
  | DeleteSubmission ident class_id aid sid => delete_submission st ident class_id aid sid
  | GradeSubmission ident class_id aid sid body now =>
      grade_submission st ident class_id aid sid body now
  | CreatePeerReview ident class_id aid sid body now =>
      create_peer_review st ident class_id aid sid body now
  | GetPendingReviews ident => get_pending_reviews st ident
  end.

(* ------------------------------------------------------------------ *)
(** ** init_db.py

    [_seed_data]: on a database that has a user nothing is done; otherwise
    the demo teacher, student, class, enrolment and assignment are
    inserted. *)
Definition _seed_data (st : DB) (salt_teacher salt_student passcode : string)
    (now : Z) : DB :=
  match users st with
  | _ :: _ => st
  | [] =>
      let teacher :=
        mkUser (next_id (map u_id (users st))) "Demo Teacher" "teacher@reviewin.dev"
               (generate_password_hash salt_teacher "Teacher1") "teacher" now in
      let st := set_users st (users st ++ [teacher]) in
      let student :=
        mkUser (next_id (map u_id (users st))) "Demo Student" "student@reviewin.dev"
               (generate_password_hash salt_student "Student1") "student" now in
      let st := set_users st (users st ++ [student]) in
      let demo_class :=
        mkClass (next_id (map c_id (classes st))) "Intro to Computer Science"
                "Computer Science" (Some "10")
                (Some "A beginner-friendly CS class covering fundamentals.")
                passcode (u_id teacher) now in
      let st := set_classes st (classes st ++ [demo_class]) in
      let st := set_class_students st
                  (class_students st
                   ++ [mkEnrollment (c_id demo_class) (u_id student) now]) in
      let assignment :=
        mkAssignment (next_id (map a_id (assignments st))) "Hello World Program"
                     (Some "Write a 'Hello World' program in Python.") None
                     (c_id demo_class) now in
      set_assignments st (assignments st ++ [assignment])
  end.

(** What can happen to the database: a request of the API, or a run of
    the seeding script. *)
Inductive event : Type :=
| Api (rq : request)
| Seed (salt_teacher salt_student passcode : string) (now : Z).

Definition step (st : DB) (ev : event) : DB :=
  match ev with
  | Api rq => fst (handle st rq)
  | Seed salt_teacher salt_student passcode now =>
      _seed_data st salt_teacher salt_student passcode now
  end.

(** The database after a sequence of events. *)
Definition run (st : DB) (evs : list event) : DB := fold_left step evs st.

(** A state is reachable when some sequence of events leads to it from
    the empty database, the tables as [db.create_all] makes them. *)
Definition reachable (st : DB) : Prop :=
  exists evs, run empty_db evs = st.

End Routes.

(* ================================================================== *)
(** * Notions used by the properties *)

(** [student_id] has reviewed submission [submission_id]. *)
Definition has_reviewed (st : DB) (student_id submission_id : Z) : bool :=
  existsb (fun r => (r_reviewer_id r =? student_id) && (r_submission_id r =? submission_id))%bool
          (peer_reviews st).

(** The pending reviews of a student as a comprehension: every class the
    student is enrolled in, every assignment of it, every submission of
    that assignment by somebody else that the student has not reviewed. *)
Definition pending_triples (st : DB) (student_id : Z)
    : list (Classroom * Assignment * Submission) :=
  flat_map (fun c =>
    flat_map (fun a =>
      map (fun s => (c, a, s))
          (filter (fun s => negb (s_student_id s =? student_id) &&
                            negb (has_reviewed st student_id (s_id s)))%bool
                  (filter (fun s => s_assignment_id s =? a_id a) (submissions st))))
      (filter (fun a => a_class_id a =? c_id c) (assignments st)))
    (filter (fun c => is_enrolled st student_id (c_id c)) (classes st)).

(** The response entry of one triple. *)
Definition entry_of (st : DB) (t : Classroom * Assignment * Submission) : json :=
  pending_entry st (fst (fst t)) (snd (fst t)) (snd t).

(** The (student, assignment) pair of a submission. *)
Definition submission_key (s : Submission) : Z * Z :=
  (s_student_id s, s_assignment_id s).

(** At most one submission per (student, assignment) pair. *)
Definition one_submission_per_pair (st : DB) : Prop :=
  NoDup (map submission_key (submissions st)).

(** Submission ids are primary keys. *)
Definition submission_ids_unique (st : DB) : Prop :=
  NoDup (map s_id (submissions st)).

(** [l'] is [l] with some rows removed. *)
Definition filtered {A} (l l' : list A) : Prop :=
  exists p, l' = filter p l.

(** A deletion: users are untouched and every other table loses rows
    only. *)
Definition shrinks (st st' : DB) : Prop :=
  users st' = users st /\
  filtered (classes st) (classes st') /\
  filtered (class_students st) (class_students st') /\
  filtered (assignments st) (assignments st') /\
  filtered (submissions st) (submissions st') /\
  filtered (peer_reviews st) (peer_reviews st').

(** An assignment of [st] under class [class_id], a submission under such
    an assignment, a review under such a submission. *)
Definition assignment_under (class_id : Z) (a : Assignment) : Prop :=
  a_class_id a = class_id.

Definition submission_under (st : DB) (class_id : Z) (s : Submission) : Prop :=
  exists a, In a (assignments st) /\ assignment_under class_id a /\
            s_assignment_id s = a_id a.

Definition review_under (st : DB) (class_id : Z) (r : PeerReview) : Prop :=
  exists s, In s (submissions st) /\ submission_under st class_id s /\
            r_submission_id r = s_id s.

(** Every table of [st'] holds rows of [st] only. *)
Definition rows_from (st st' : DB) : Prop :=
  incl (users st') (users st) /\
  incl (classes st') (classes st) /\
  incl (class_students st') (class_students st) /\
  incl (assignments st') (assignments st) /\
  incl (submissions st') (submissions st) /\
  incl (peer_reviews st') (peer_reviews st).

(** The rows a deletion leaves behind still find their parents: a review
    survives only if its submission does, a submission only if its
    assignment does, an assignment only if its class does. *)
Definition reviews_follow (st st' : DB) : Prop :=
  forall s, In s (submissions st) ->
    In s (submissions st') \/
    (forall r, In r (peer_reviews st') -> r_submission_id r <> s_id s).

Definition submissions_follow (st st' : DB) : Prop :=
  forall a, In a (assignments st) ->
    In a (assignments st') \/
    (forall s, In s (submissions st') -> s_assignment_id s <> a_id a).

Definition assignments_follow (st st' : DB) : Prop :=
  forall c, In c (classes st) ->
    In c (classes st') \/
    (forall a, In a (assignments st') -> a_class_id a <> c_id c).

Definition cascades (st st' : DB) : Prop :=
  shrinks st st' /\ reviews_follow st st' /\
  submissions_follow st st' /\ assignments_follow st st'.

(** Nothing with the key of submission [s] is left. *)
Definition submission_gone (s : Submission) (st' : DB) : Prop :=
  (forall x, In x (submissions st') -> s_id x <> s_id s) /\
  (forall r, In r (peer_reviews st') -> r_submission_id r <> s_id s).

(** Nothing of assignment [a] is left in [st']: not the assignment, none
    of its submissions, and no review of a submission it had in [st]. *)
Definition assignment_gone (a : Assignment) (st st' : DB) : Prop :=
  (forall y, In y (assignments st') -> a_id y <> a_id a) /\
  (forall y, In y (submissions st') -> s_assignment_id y <> a_id a) /\
  (forall s, In s (submissions st) -> s_assignment_id s = a_id a ->
     forall r, In r (peer_reviews st') -> r_submission_id r <> s_id s).

(** The invariant behind "one submission per student and assignment". *)
Definition submissions_wf (st : DB) : Prop :=
  submission_ids_unique st /\ one_submission_per_pair st.

(** Submission [s] once graded. *)
Definition graded (s : Submission) (grade : string) (feedback : option string)
    (now : Z) : Submission :=
  mkSubmission (s_id s) (s_content s) (s_file_name s) (s_file_size s)
               (s_student_id s) (s_assignment_id s) (s_submitted_at s)
               (Some grade) feedback (Some now).

(** Stored emails are in normal form and pairwise distinct. *)
Definition users_wf (st : DB) : Prop :=
  (forall u, In u (users st) -> lower (u_email u) = u_email u) /\
  NoDup (map u_email (users st)).

(** Referential integrity: no orphaned child row. *)
Definition no_orphans (st : DB) : Prop :=
  (forall a, In a (assignments st) ->
     exists c, In c (classes st) /\ c_id c = a_class_id a) /\
  (forall s, In s (submissions st) ->
     exists a, In a (assignments st) /\ a_id a = s_assignment_id s) /\
  (forall r, In r (peer_reviews st) ->
     exists s, In s (submissions st) /\ s_id s = r_submission_id r).

Definition status (r : DB * response) : Z := snd (snd r).
Definition payload (r : DB * response) : json := fst (snd r).

(** The field [k] of the object under key [outer] of a response. *)
Definition payload_field_has (r : DB * response) (outer k : string) : bool :=
  match payload r with
  | JObj o => match obj_get o outer with
              | Some j => obj_has j k
              | None => false
              end
  | _ => false
  end.

(** No character of [s] is an uppercase letter. *)
Definition no_uppercase (s : string) : Prop :=
  string_existsb is_upper s = false.

(* ================================================================== *)
(** * Further notions

    Notions for the properties of the second part of the development,
    which covers the routes and helpers the first part leaves out.  As
    before, a property of a handler speaks of a request that reaches the
    handler: the rate limiter of the application, which answers 429
    before a handler runs, is not part of the model, and [None] as
    identity stands for a request without an Authorization header. *)

(** ** Access control *)

(** The token a request carries: [None] for the two routes without
    [jwt_required] or a role decorator. *)
Definition token_of (rq : request) : option (option Z) :=
  match rq with
  | Register _ _ _ | Login _ _ => None
  | GetSession i | ListClasses i _ | GetClass i _ | GetPendingReviews i => Some i
  | CreateClass i _ _ _ | DeleteClass i _ | JoinClass i _ _ | LeaveClass i _ => Some i
  | CreateAssignment i _ _ _ | UpdateAssignment i _ _ _ | DeleteAssignment i _ _ => Some i
  | CreateSubmission i _ _ _ _ | UpdateSubmission i _ _ _ _ _
  | DeleteSubmission i _ _ _ | GradeSubmission i _ _ _ _ _
  | CreatePeerReview i _ _ _ _ _ => Some i
  end.

(** The role decorator of a route: [teacher_required], [student_required],
    or none. *)
Definition required_role (rq : request) : option string :=
  match rq with
  | CreateClass _ _ _ _ | DeleteClass _ _
  | CreateAssignment _ _ _ _ | UpdateAssignment _ _ _ _ | DeleteAssignment _ _ _
  | GradeSubmission _ _ _ _ _ _ => Some "teacher"
  | JoinClass _ _ _ | LeaveClass _ _
  | CreateSubmission _ _ _ _ _ | UpdateSubmission _ _ _ _ _ _
  | DeleteSubmission _ _ _ _ | CreatePeerReview _ _ _ _ _ _
  | GetPendingReviews _ => Some "student"
  | _ => None
  end.

Definition role_denied (role : string) : response :=
  if String.eqb role "teacher" then err "Teacher access required" 403
  else err "Student access required" 403.

(** The routes that only read. *)
Definition read_only (rq : request) : bool :=
  match rq with
  | Login _ _ | GetSession _ | ListClasses _ _ | GetClass _ _
  | GetPendingReviews _ => true
  | _ => false
  end.

(** ** Accounts, memberships, reviews *)

(** Every account has a primary key of its own, one of the two roles and
    an address that matches the pattern of [validate_email] up to its
    end. *)
Definition users_valid (st : DB) : Prop :=
  NoDup (map u_id (users st)) /\
  forall u, In u (users st) ->
    (u_role u = "teacher" \/ u_role u = "student") /\
    email_pattern (u_email u) = true.

(** The (class, user) pair of a membership row. *)
Definition membership_key (e : Enrollment) : Z * Z := (e_class_id e, e_user_id e).

(** Memberships: at most one row per (class, user), each of an existing
    class and of an existing student; every class is owned by an existing
    teacher. *)
Definition memberships_wf (st : DB) : Prop :=
  NoDup (map membership_key (class_students st)) /\
  (forall e, In e (class_students st) ->
     (exists c, In c (classes st) /\ c_id c = e_class_id e) /\
     (exists u, get_User st (e_user_id e) = Some u /\ u_role u = "student")) /\
  (forall c, In c (classes st) ->
     exists u, get_User st (c_owner_id c) = Some u /\ u_role u = "teacher").



(** ** Keys and the pending list *)

(** Class, assignment and review ids are primary keys. *)
Definition keys_wf (st : DB) : Prop :=
  NoDup (map c_id (classes st)) /\
  NoDup (map a_id (assignments st)) /\
  NoDup (map r_id (peer_reviews st)).

(** [submission_id] is offered to [uid] for review. *)
Definition is_pending (st : DB) (uid sid : Z) : Prop :=
  exists c a s, In (c, a, s) (pending_triples st uid) /\ s_id s = sid.

(** ** Rows the handlers insert *)

(** The row [create_peer_review] inserts. *)
Definition new_review (st : DB) (uid sid : Z) (content : string) (now : Z) : PeerReview :=
  mkPeerReview (next_id (map r_id (peer_reviews st))) content uid sid now.

(** The row [create_submission] inserts. *)
Definition new_submission (st : DB) (uid aid : Z) (body : option dict)
    (content : option string) (now : Z) : Submission :=
  mkSubmission (next_id (map s_id (submissions st))) content
               (dict_get_or_null (get_json_or_empty body) "fileName")
               (dict_get_or_null (get_json_or_empty body) "fileSize")
               uid aid now None None None.

(** ** Partial updates *)

(** [if k in data: field = f(data[k])], read as a function of the old
    value of the field. *)
Definition updated {A} (data : dict) (k : string) (f : jval -> A) (old : A) : A :=
  match dict_get data k with Some v => f v | None => old end.

(** The value stored for a string sent as an optional text. *)
Definition stored_text (v : jval) : option string :=
  match v with VStr s => or_None (strip s) | _ => None end.

(** The value stored for a string sent as a title. *)
Definition stored_title (v : jval) : string :=
  match v with VStr s => strip s | _ => EmptyString end.

(** A key that is absent or holds a string. *)
Definition absent_or_string (data : dict) (k : string) : bool :=
  match dict_get data k with Some (VStr _) | None => true | _ => false end.

(** ** Typing of request bodies *)

(** Every key of [keys] is absent from [data] or holds a string. *)
Definition strings_at (data : dict) (keys : list string) : bool :=
  forallb (absent_or_string data) keys.

(** An integer the database can bind: a signed 64-bit value. *)
Definition fits_int64 (n : Z) : bool := (- 2 ^ 63 <=? n) && (n <? 2 ^ 63).

(** The body of [create_submission] and [update_submission]: a text as
    [content], a string or null as [fileName], an integer or null as
    [fileSize], each of them optional. *)
Definition submission_body (d : dict) : bool :=
  strings_at d ["content"]
  && match dict_get d "fileName" with Some (VInt _) => false | _ => true end
  && match dict_get d "fileSize" with
     | Some (VInt n) => fits_int64 n
     | Some (VStr _) => false
     | _ => true
     end.

(** The request holds values of the types the handler and the tables
    expect: strings where the handler calls [strip] or [len], an integer
    as [classId], ids that fit the integer columns.  The handlers that
    read the body with [request.get_json() or {}] are given a JSON
    body. *)
Definition well_typed (rq : request) : bool :=
  match rq with
  | Register (Some d) _ _ => strings_at d ["name"; "email"; "password"; "role"]
  | Login (Some d) _ => strings_at d ["email"; "password"]
  | CreateClass _ (Some d) _ _ => strings_at d ["name"; "subject"; "grade"; "description"]
  | GetClass _ cid | DeleteClass _ cid | LeaveClass _ cid => fits_int64 cid
  | JoinClass _ (Some d) _ =>
      match dict_get d "classId" with
      | Some (VInt n) => fits_int64 n
      | None => true
      | _ => false
      end
      && strings_at d ["passcode"]
  | CreateAssignment _ cid body _ =>
      fits_int64 cid
      && match body with Some d => strings_at d ["title"; "description"] | None => true end
  | UpdateAssignment _ cid aid body =>
      fits_int64 cid && fits_int64 aid
      && match body with Some d => strings_at d ["title"; "description"] | None => false end
  | DeleteAssignment _ cid aid => fits_int64 cid && fits_int64 aid
  | CreateSubmission _ cid aid body _ =>
      fits_int64 cid && fits_int64 aid
      && match body with Some d => submission_body d | None => false end
  | UpdateSubmission _ cid aid sid body _ =>
      fits_int64 cid && fits_int64 aid && fits_int64 sid
      && match body with Some d => submission_body d | None => false end
  | DeleteSubmission _ cid aid sid => fits_int64 cid && fits_int64 aid && fits_int64 sid
  | GradeSubmission _ cid aid sid body _ =>
      fits_int64 cid && fits_int64 aid && fits_int64 sid
      && match body with Some d => strings_at d ["feedback"] | None => true end
  | CreatePeerReview _ cid aid sid body _ =>
      fits_int64 cid && fits_int64 aid && fits_int64 sid
      && match body with Some d => strings_at d ["content"] | None => true end
  | _ => true
  end.

(** ** Registration *)

(** The row [register] inserts. *)
Definition new_user {K : Collaborators} (st : DB) (name email password role salt : string)
    (now : Z) : User :=
  mkUser (next_id (map u_id (users st))) (strip name) (lower (strip email))
         (generate_password_hash salt password) (lower (strip role)) now.

(** The body of the answers of [register] and [login] that carry tokens. *)
Definition token_response {K : Collaborators} (message : string) (now : Z) (u : User)
    : json :=
  JObj [("message", JStr message);
        ("access_token", JStr (create_access_token now (u_id u)));
        ("refresh_token", JStr (create_refresh_token now (u_id u)));
        ("user", User_to_dict u)].

(** A value that is not a string. *)
Definition not_a_string (v : jval) : bool :=
  match v with VStr _ => false | _ => true end.

(** ** Listing *)

(** [x] was created no earlier than [y]. *)
Definition newer_first (x y : Classroom) : Prop := c_created_at y <= c_created_at x.

(** The view [list_classes] answers with: the one of a teacher when the
    query parameter [role], or without it the role of the account, is
    ["teacher"]. *)
Definition teacher_view (user : User) (role_arg : option string) : bool :=
  String.eqb (match role_arg with Some r => r | None => u_role user end) "teacher".

(** The rows [list_classes] selects for [uid]. *)
Definition listed (st : DB) (uid : Z) (as_teacher : bool) (c : Classroom) : bool :=
  if as_teacher then c_owner_id c =? uid else is_enrolled st uid (c_id c).

(** ** models.py: passcodes *)

(** models.py, [_generate_passcode]:
    [string.ascii_uppercase + string.digits]. *)
Definition passcode_alphabet : list ascii :=
  list_ascii_of_string "ABCDEFGHIJKLMNOPQRSTUVWXYZ0123456789".

(** [random.choices(population, k=k)]: [k] independent picks with
    replacement; [pick i] is the number the generator draws for the
    [i]-th pick, reduced to an index of the population. *)
Definition random_choices (population : list ascii) (k : nat) (pick : nat -> nat)
    : list ascii :=
  map (fun i => nth (pick i mod List.length population) population "000"%char)
      (seq 0 k).

(** ["".join(random.choices(string.ascii_uppercase + string.digits, k=6))] *)
Definition _generate_passcode (pick : nat -> nat) : string :=
  string_of_list_ascii (random_choices passcode_alphabet 6 pick).

(** The row [create_class] inserts. *)
Definition new_class (st : DB) (uid : Z) (name subject : string) (data : dict)
    (passcode : string) (now : Z) : Classroom :=
  mkClass (next_id (map c_id (classes st))) (strip name) (strip subject)
          (updated data "grade" stored_text None)
          (updated data "description" stored_text None)
          passcode uid now.

(** ** Assignments *)

(** The row [create_assignment] inserts. *)
Definition new_assignment {K : Collaborators} (st : DB) (cid : Z) (title : string)
    (data : dict) (now : Z) : Assignment :=
  mkAssignment (next_id (map a_id (assignments st))) (strip title)
               (updated data "description" stored_text None)
               (_parse_date (dict_get_or_null data "dueDate")) cid now.

(** ** The address pattern *)

(** The language of the pattern of [validate_email] up to its [$]:
    [local@domain.tld] with a non-empty local part over [[a-zA-Z0-9._%+-]],
    a non-empty domain over [[a-zA-Z0-9.-]] and at least two letters after
    its last dot. *)
Definition email_shape (s : string) : Prop :=
  exists loc dom tld,
    s = (loc ++ "@" ++ dom ++ "." ++ tld)%string /\
    loc <> EmptyString /\ string_forallb email_local_char loc = true /\
    dom <> EmptyString /\ string_forallb email_domain_char dom = true /\
    2 <= str_len tld /\ string_forallb is_ascii_letter tld = true.

(** ** Changes to a submission *)

(** [s'] is [s] up to the fields a student edits. *)
Definition same_but_work (s s' : Submission) : Prop :=
  s_id s' = s_id s /\ s_student_id s' = s_student_id s /\
  s_assignment_id s' = s_assignment_id s /\
  s_grade s' = s_grade s /\ s_feedback s' = s_feedback s /\
  s_graded_at s' = s_graded_at s.

(** [s'] is [s] up to the fields a teacher sets. *)
Definition same_but_grading (s s' : Submission) : Prop :=
  s_id s' = s_id s /\ s_student_id s' = s_student_id s /\
  s_assignment_id s' = s_assignment_id s /\
  s_content s' = s_content s /\ s_file_name s' = s_file_name s /\
  s_file_size s' = s_file_size s /\ s_submitted_at s' = s_submitted_at s.

(** ** Keys of submissions and reviews *)

(** Submission and review ids are primary keys. *)
Definition child_keys (st : DB) : Prop :=
  NoDup (map s_id (submissions st)) /\ NoDup (map r_id (peer_reviews st)).

(** ** Authors *)

(** Every submission is the work of an existing student account and every
    review the review of one. *)
Definition authors_wf (st : DB) : Prop :=
  (forall s, In s (submissions st) ->
     exists u, get_User st (s_student_id s) = Some u /\ u_role u = "student") /\
  (forall r, In r (peer_reviews st) ->
     exists u, get_User st (r_reviewer_id r) = Some u /\ u_role u = "student").

(** ** Removals *)

(** [st'] has every row of [st]: classes, memberships and reviews as they
    are, assignments and submissions at least under their ids (an update
    replaces the row). *)
Definition keeps (st st' : DB) : Prop :=
  incl (classes st) (classes st') /\
  incl (class_students st) (class_students st') /\
  (forall a, In a (assignments st) ->
     exists a', In a' (assignments st') /\ a_id a' = a_id a) /\
  (forall s, In s (submissions st) ->
     exists s', In s' (submissions st') /\ s_id s' = s_id s) /\
  incl (peer_reviews st) (peer_reviews st').

(** The event is the [delete_class] request of the owner of [c] for [c]. *)
Definition deletes_class (st : DB) (ev : event) (c : Classroom) : Prop :=
  In c (classes st) /\ ev = Api (DeleteClass (Some (c_owner_id c)) (c_id c)).

(** The event is the [delete_assignment] request for [a], sent by the
    owner of the class of [a] under the path of that class. *)
Definition deletes_assignment (st : DB) (ev : event) (a : Assignment) : Prop :=
  exists c, get_Class st (a_class_id a) = Some c /\
    ev = Api (DeleteAssignment (Some (c_owner_id c)) (a_class_id a) (a_id a)).

(** The event is the [delete_submission] request for [s], sent by the
    author of [s] under the path of its assignment and class. *)
Definition deletes_submission (st : DB) (ev : event) (s : Submission) : Prop :=
  exists a, get_Assignment st (s_assignment_id s) = Some a /\
    ev = Api (DeleteSubmission (Some (s_student_id s)) (a_class_id a) (a_id a) (s_id s)).

(** The event is the [leave_class] request of the member of [e] for the
    class of [e]. *)
Definition leaves_class (ev : event) (e : Enrollment) : Prop :=
  ev = Api (LeaveClass (Some (e_user_id e)) (e_class_id e)).

(* ================================================================== *)
(** * A concrete instance and a concrete run

    A stand-in for the libraries, used to evaluate the handlers: the "hash"
    is the password behind a marker, checked by recomputation. *)

Definition demo_hash (salt password : string) : string :=
  ("bcrypt$" ++ password)%string.

Definition demo_check (hash password : string) : bool :=
  String.eqb hash (demo_hash "" password).

Definition demo_collaborators : Collaborators := {|
  generate_password_hash := demo_hash;
  check_password_hash := demo_check;
  create_access_token := fun now identity => ("access:" ++ str_of_Z identity)%string;
  create_refresh_token := fun now identity => ("refresh:" ++ str_of_Z identity)%string;
  fromisoformat := fun _ => None
|}.

Definition register_body (name email password role : string) : option dict :=
  Some [("name", VStr name); ("email", VStr email);
        ("password", VStr password); ("role", VStr role)].

Definition login_body (email password : string) : option dict :=
  Some [("email", VStr email); ("password", VStr password)].

Definition join_body (class_id : Z) (passcode : string) : option dict :=
  Some [("classId", VInt class_id); ("passcode", VStr passcode)].

(** A teacher (user 1) and two students (2 and 3); class 1 with passcode
    ABC123, both students enrolled; assignment 1; student 2 submits. *)
Definition classroom_requests : list request :=
  [ Register (register_body "T" "Teacher@Test.com" "Teacher1" "teacher") "s1" 10;
    Register (register_body "A" "a@test.com" "Student1" "student") "s2" 11;
    Register (register_body "B" "b@test.com" "Student1" "student") "s3" 12;
    CreateClass (Some 1) (Some [("name", VStr "Bio"); ("subject", VStr "Biology")])
                "ABC123" 13;
    JoinClass (Some 2) (join_body 1 "ABC123") 14;
    JoinClass (Some 3) (join_body 1 "ABC123") 15;
    CreateAssignment (Some 1) 1 (Some [("title", VStr "Lab Report")]) 16;
    CreateSubmission (Some 2) 1 1 (Some [("content", VStr "My report")]) 17 ].

Definition classroom_db : DB :=
  run (K := demo_collaborators) empty_db (map Api classroom_requests).

(** The same, after student 2 has left the class. *)
Definition after_leave_db : DB :=
  run (K := demo_collaborators) classroom_db [Api (LeaveClass (Some 2) 1)].

(* ================================================================== *)
(** * Lookups and lists *)

Lemma find_existsb {A} (p : A -> bool) (l : list A) :
  existsb p l = match find p l with Some _ => true | None => false end.
Proof.
  induction l as [|x l IH]; simpl; [reflexivity|].
  destruct (p x); simpl; auto.
Qed.

Lemma find_none_iff {A} (p : A -> bool) (l : list A) :
  find p l = None <-> forall x, In x l -> p x = false.
Proof.
  split.
  - apply find_none.
  - induction l as [|x l IH]; simpl; intros H; [reflexivity|].
    rewrite (H x (or_introl eq_refl)). apply IH. intros y Hy. apply H. now right.
Qed.

Lemma find_append {A} (p : A -> bool) (l1 l2 : list A) :
  find p (l1 ++ l2) = match find p l1 with Some x => Some x | None => find p l2 end.
Proof.
  induction l1 as [|x l1 IH]; simpl; [reflexivity|]. now destruct (p x).
Qed.

Lemma get_User_some st uid u :
  get_User st uid = Some u -> In u (users st) /\ u_id u = uid.
Proof.
  unfold get_User. intros H. apply find_some in H as [H1 H2]. split; [assumption|lia].
Qed.

Lemma get_Class_some st cid c :
  get_Class st cid = Some c -> In c (classes st) /\ c_id c = cid.
Proof.
  unfold get_Class. intros H. apply find_some in H as [H1 H2]. split; [assumption|lia].
Qed.

Lemma get_Assignment_some st aid a :
  get_Assignment st aid = Some a -> In a (assignments st) /\ a_id a = aid.
Proof.
  unfold get_Assignment. intros H. apply find_some in H as [H1 H2]. split; [assumption|lia].
Qed.

Lemma get_Submission_some st sid s :
  get_Submission st sid = Some s -> In s (submissions st) /\ s_id s = sid.
Proof.
  unfold get_Submission. intros H. apply find_some in H as [H1 H2]. split; [assumption|lia].
Qed.

(** Membership of a loaded user in [cls.students] is the presence of the
    association row. *)
Lemma user_in_students_enrolled st uid u c :
  get_User st uid = Some u ->
  user_in_students st (Some u) c = is_enrolled st uid (c_id c).
Proof.
  intros H. apply get_User_some in H as [Hin Hid]. subst uid.
  unfold user_in_students, Class_students.
  destruct (is_enrolled st (u_id u) (c_id c)) eqn:E.
  - apply existsb_exists. exists u. split; [|apply Z.eqb_refl].
    apply filter_In. split; assumption.
  - apply not_true_is_false. intros Hex.
    apply existsb_exists in Hex as (x & Hx & Hxu).
    apply filter_In in Hx as [_ Hx]. apply Z.eqb_eq in Hxu.
    rewrite Hxu in Hx. congruence.
Qed.

Lemma is_enrolled_true st uid cid :
  is_enrolled st uid cid = true <->
  exists e, In e (class_students st) /\ e_class_id e = cid /\ e_user_id e = uid.
Proof.
  unfold is_enrolled. rewrite existsb_exists. split.
  - intros (e & He & Hb). apply andb_true_iff in Hb as [H1 H2].
    exists e. repeat split; [assumption|lia|lia].
  - intros (e & He & H1 & H2). exists e. split; [assumption|].
    apply andb_true_iff. split; lia.
Qed.

Lemma has_reviewed_true st uid sid :
  has_reviewed st uid sid = true <->
  exists r, In r (peer_reviews st) /\ r_reviewer_id r = uid /\ r_submission_id r = sid.
Proof.
  unfold has_reviewed. rewrite existsb_exists. split.
  - intros (r & Hr & Hb). apply andb_true_iff in Hb as [H1 H2].
    exists r. repeat split; [assumption|lia|lia].
  - intros (r & Hr & H1 & H2). exists r. split; [assumption|].
    apply andb_true_iff. split; lia.
Qed.

Lemma find_review_has_reviewed st uid sid :
  has_reviewed st uid sid =
  match find_review st uid sid with Some _ => true | None => false end.
Proof. apply find_existsb. Qed.

(** A loop that only appends computes a [flat_map]. *)
Lemma fold_left_append {A B} (g : list A -> B -> list A) (f : B -> list A) :
  (forall acc x, g acc x = acc ++ f x) ->
  forall l acc, fold_left g l acc = acc ++ flat_map f l.
Proof.
  intros Hg. induction l as [|x l IH]; intros acc; simpl.
  - now rewrite app_nil_r.
  - rewrite IH, Hg. now rewrite app_assoc.
Qed.

Lemma flat_map_filter_map {A B} (p : A -> bool) (h : A -> B) (l : list A) :
  flat_map (fun x => if p x then [h x] else []) l = map h (filter p l).
Proof.
  induction l as [|x l IH]; simpl; [reflexivity|].
  destruct (p x); simpl; now rewrite IH.
Qed.

Lemma map_flat_map {A B C} (h : B -> C) (f : A -> list B) (l : list A) :
  map h (flat_map f l) = flat_map (fun x => map h (f x)) l.
Proof.
  induction l as [|x l IH]; simpl; [reflexivity|].
  now rewrite map_app, IH.
Qed.

(* ================================================================== *)
(** * Pending reviews *)

Lemma pending_loop_is_comprehension st uid u :
  u_id u = uid ->
  fold_left (pending_visit_class st uid) (User_enrolled_classes st u) [] =
  map (entry_of st) (pending_triples st uid).
Proof.
  intros Hid.
  pose (keep := fun s => (negb (s_student_id s =? uid) &&
                          negb (has_reviewed st uid (s_id s)))%bool).
  assert (Hsub : forall c a acc s,
    pending_visit_submission st uid c a acc s =
    acc ++ (if keep s then [pending_entry st c a s] else [])).
  { intros c a acc s. unfold pending_visit_submission, keep.
    rewrite find_review_has_reviewed.
    destruct (s_student_id s =? uid); simpl; [now rewrite app_nil_r|].
    destruct (find_review st uid (s_id s)); simpl; [now rewrite app_nil_r|reflexivity]. }
  assert (Hasg : forall c acc a,
    pending_visit_assignment st uid c acc a =
    acc ++ map (pending_entry st c a) (filter keep (Assignment_submissions st a))).
  { intros c acc a. unfold pending_visit_assignment.
    rewrite (fold_left_append _ _ (Hsub c a)). now rewrite flat_map_filter_map. }
  assert (Hcls : forall acc c,
    pending_visit_class st uid acc c =
    acc ++ flat_map (fun a => map (pending_entry st c a)
                                  (filter keep (Assignment_submissions st a)))
                    (Class_assignments st c)).
  { intros acc c. unfold pending_visit_class.
    now rewrite (fold_left_append _ _ (Hasg c)). }
  rewrite (fold_left_append _ _ Hcls). simpl.
  unfold pending_triples, User_enrolled_classes. rewrite Hid.
  rewrite map_flat_map. apply flat_map_ext. intros c.
  rewrite map_flat_map. apply flat_map_ext. intros a.
  rewrite map_map. reflexivity.
Qed.

Lemma pending_triples_In st uid c a s :
  In (c, a, s) (pending_triples st uid) <->
  In c (classes st) /\ is_enrolled st uid (c_id c) = true /\
  In a (assignments st) /\ a_class_id a = c_id c /\
  In s (submissions st) /\ s_assignment_id s = a_id a /\
  s_student_id s <> uid /\
  ~ (exists r, In r (peer_reviews st) /\
               r_reviewer_id r = uid /\ r_submission_id r = s_id s).
Proof.
  unfold pending_triples. rewrite in_flat_map. split.
  - intros (c' & Hc & H). apply filter_In in Hc as [Hc Hen].
    apply in_flat_map in H as (a' & Ha & H). apply filter_In in Ha as [Ha Hac].
    apply in_map_iff in H as (s' & Heq & Hs). inversion Heq; subst c' a' s'.
    apply filter_In in Hs as [Hs Hk]. apply filter_In in Hs as [Hs Hsa].
    apply andb_true_iff in Hk as [Hk1 Hk2].
    apply negb_true_iff in Hk1, Hk2.
    repeat split; try assumption; try lia.
    rewrite <- has_reviewed_true. congruence.
  - intros (Hc & Hen & Ha & Hac & Hs & Hsa & Hne & Hnr).
    exists c. split; [apply filter_In; now split|].
    apply in_flat_map. exists a. split; [apply filter_In; split; [assumption|lia]|].
    apply in_map_iff. exists s. split; [reflexivity|].
    apply filter_In. split; [apply filter_In; split; [assumption|lia]|].
    apply andb_true_iff. split; apply negb_true_iff.
    + lia.
    + destruct (has_reviewed st uid (s_id s)) eqn:E; [|reflexivity].
      exfalso. apply Hnr. now apply has_reviewed_true.
Qed.

(** C1. For a student [student_id], [get_pending_reviews] answers 200 with
    exactly the comprehension [pending_triples], rendered entry by entry and
    in traversal order (classes, then assignments, then submissions): a
    triple is listed if and only if the class is one the student is
    enrolled in, the assignment belongs to the class, the submission belongs
    to the assignment, it is not authored by the student and no review of it
    by the student exists.  The database is returned unchanged. *)
Theorem pending_reviews_exact :
  forall st student_id user,
    get_User st student_id = Some user ->
    u_role user = "student" ->
    get_pending_reviews st (Some student_id) =
      (st, (JObj [("pending",
                   JList (map (entry_of st) (pending_triples st student_id)))], 200))
    /\ (forall c a s,
          In (c, a, s) (pending_triples st student_id) <->
          In c (classes st) /\ is_enrolled st student_id (c_id c) = true /\
          In a (assignments st) /\ a_class_id a = c_id c /\
          In s (submissions st) /\ s_assignment_id s = a_id a /\
          s_student_id s <> student_id /\
          ~ (exists r, In r (peer_reviews st) /\
                       r_reviewer_id r = student_id /\ r_submission_id r = s_id s)).
Proof.
  intros st uid u Hu Hrole. split.
  - unfold get_pending_reviews, student_required. rewrite Hu, Hrole. simpl.
    rewrite (pending_loop_is_comprehension st uid u (proj2 (get_User_some _ _ _ Hu))).
    reflexivity.
  - intros c a s. apply pending_triples_In.
Qed.

(** The run behind this evaluation: student 3 of [classroom_db] is offered
    the submission of student 2. *)
Lemma pending_reviews_exact_witness :
  get_pending_reviews classroom_db (Some 3) =
    (classroom_db,
     (JObj [("pending",
             JList (map (entry_of classroom_db) (pending_triples classroom_db 3)))], 200))
  /\ List.length (pending_triples classroom_db 3) = 1%nat.
Proof.
  assert (Hu : get_User classroom_db 3
               = Some (mkUser 3 "B" "b@test.com" "bcrypt$Student1" "student" 12))
    by (vm_compute; reflexivity).
  split.
  - exact (proj1 (pending_reviews_exact classroom_db 3 _ Hu eq_refl)).
  - vm_compute; reflexivity.
Defined.

(* ================================================================== *)
(** * The decorators on well-formed requests *)

Lemma dict_has_nonempty data k : dict_has data k = true -> data <> [].
Proof. intros H ->. discriminate H. Qed.

Lemma validate_json_pass st required data f :
  forallb (dict_has data) required = true ->
  data <> [] ->
  validate_json st required (Some data) f = f data.
Proof.
  intros Hall Hne. unfold validate_json.
  destruct data as [|kv data]; [congruence|].
  replace (filter (fun field => negb (dict_has (kv :: data) field)) required)
    with (@nil string); [reflexivity|].
  symmetry. induction required as [|k r IH]; [reflexivity|].
  simpl in Hall. apply andb_true_iff in Hall as [Hk Hr].
  cbn [filter]. rewrite Hk. simpl. now apply IH.
Qed.

Lemma dict_item_get data k v : dict_get data k = Some v -> dict_item data k = Ret v.
Proof. unfold dict_item. now intros ->. Qed.

Lemma dict_get_has data k v : dict_get data k = Some v -> dict_has data k = true.
Proof. unfold dict_has. now intros ->. Qed.

Lemma student_required_pass st uid user fn :
  get_User st uid = Some user -> u_role user = "student" ->
  student_required st (Some uid) fn = fn uid.
Proof. intros Hu Hr. unfold student_required. now rewrite Hu, Hr. Qed.

Lemma teacher_required_pass st uid user fn :
  get_User st uid = Some user -> u_role user = "teacher" ->
  teacher_required st (Some uid) fn = fn uid.
Proof. intros Hu Hr. unfold teacher_required. now rewrite Hu, Hr. Qed.

Lemma submission_in_chain_found st cid aid sid s a :
  get_Submission st sid = Some s ->
  s_assignment_id s = aid ->
  get_Assignment st aid = Some a ->
  a_class_id a = cid ->
  submission_in_chain st cid aid sid = Ret (Some s).
Proof.
  intros Hs Hsa Ha Hac. unfold submission_in_chain, Submission_assignment.
  rewrite Hs, Hsa, Z.eqb_refl. simpl. rewrite Ha, Hac, Z.eqb_refl. reflexivity.
Qed.

(* ================================================================== *)
(** * Self-review *)

(** C2 does not hold for an author who is no longer enrolled.  In the
    state reached by the run [classroom_requests] followed by student 2
    leaving class 1, student 2 is the author of submission 1, and the
    request of student 2 to review it is answered 403, not 400. *)
Lemma self_review_after_leaving_403 :
  reachable (K := demo_collaborators) after_leave_db /\
  option_map s_student_id (get_Submission after_leave_db 1) = Some 2 /\
  snd (create_peer_review after_leave_db (Some 2) 1 1 1
         (Some [("content", VStr "nice")]) 20)
  = err "Not enrolled in this class" 403 /\
  status (create_peer_review after_leave_db (Some 2) 1 1 1
            (Some [("content", VStr "nice")]) 20) <> 400.
Proof.
  split; [|split; [|split]].
  - exists (map Api (classroom_requests ++ [LeaveClass (Some 2) 1])). reflexivity.
  - vm_compute. reflexivity.
  - vm_compute. reflexivity.
  - vm_compute. discriminate.
Qed.

(** C2, in the order of the guards.  The role gate and the enrolment
    check come first: a caller who is not a student gets 403, and so does
    a student who is not enrolled in the class, author or not.  For an
    enrolled student, a JSON
    body with [content] and a submission in the class and assignment chain,
    reviewing the own submission fails with 400 and writes nothing. *)
Theorem self_review_rejected :
  forall st uid user cid aid sid data now,
    get_User st uid = Some user ->
    (u_role user <> "student" ->
       forall body,
       create_peer_review st (Some uid) cid aid sid body now
       = (st, err "Student access required" 403))
    /\
    (u_role user = "student" ->
     dict_has data "content" = true ->
     forall cls, get_Class st cid = Some cls ->
       (is_enrolled st uid cid = false ->
          create_peer_review st (Some uid) cid aid sid (Some data) now
          = (st, err "Not enrolled in this class" 403))
       /\
       (is_enrolled st uid cid = true ->
        forall s a,
          get_Submission st sid = Some s ->
          s_assignment_id s = aid ->
          get_Assignment st aid = Some a ->
          a_class_id a = cid ->
          s_student_id s = uid ->
          create_peer_review st (Some uid) cid aid sid (Some data) now
          = (st, err "Cannot review your own submission" 400))).
Proof.
  intros st uid user cid aid sid data now Hu. split.
  - intros Hrole body. unfold create_peer_review, student_required. rewrite Hu.
    destruct (String.eqb (u_role user) "student") eqn:E; [|reflexivity].
    apply String.eqb_eq in E. contradiction.
  - intros Hrole Hc cls Hcls.
    destruct (get_Class_some _ _ _ Hcls) as [_ Hcid].
    unfold create_peer_review.
    rewrite (student_required_pass st uid user _ Hu Hrole).
    rewrite validate_json_pass;
      [|simpl; now rewrite Hc|now apply dict_has_nonempty with "content"].
    cbv zeta. rewrite Hcls, Hu, (user_in_students_enrolled st uid user cls Hu), Hcid.
    split.
    + intros ->. reflexivity.
    + intros -> s a Hs Hsa Ha Hac Hauth.
      rewrite (submission_in_chain_found st cid aid sid s a Hs Hsa Ha Hac).
      simpl. rewrite Hauth, Z.eqb_refl. reflexivity.
Qed.

Lemma self_review_rejected_witness :
  create_peer_review classroom_db (Some 2) 1 1 1 (Some [("content", VStr "nice")]) 20
  = (classroom_db, err "Cannot review your own submission" 400).
Proof.
  assert (Hu : get_User classroom_db 2
               = Some (mkUser 2 "A" "a@test.com" "bcrypt$Student1" "student" 11))
    by (vm_compute; reflexivity).
  assert (Hc : get_Class classroom_db 1
               = Some (mkClass 1 "Bio" "Biology" None None "ABC123" 1 13))
    by (vm_compute; reflexivity).
  assert (He : is_enrolled classroom_db 2 1 = true) by (vm_compute; reflexivity).
  assert (Hs : get_Submission classroom_db 1
               = Some (mkSubmission 1 (Some "My report") VNull VNull 2 1 17
                                    None None None))
    by (vm_compute; reflexivity).
  assert (Ha : get_Assignment classroom_db 1
               = Some (mkAssignment 1 "Lab Report" None None 1 16))
    by (vm_compute; reflexivity).
  exact (proj2 (proj2 (self_review_rejected classroom_db 2 _ 1 1 1
                         [("content", VStr "nice")] 20 Hu)
                  eq_refl eq_refl _ Hc)
               He _ _ Hs eq_refl Ha eq_refl eq_refl).
Defined.

(* ================================================================== *)
(** * Deletions and their cascades *)

Lemma filter_true {A} (l : list A) : filter (fun _ => true) l = l.
Proof. induction l as [|x l IH]; simpl; congruence. Qed.

Lemma filter_filter {A} (p q : A -> bool) (l : list A) :
  filter q (filter p l) = filter (fun x => p x && q x)%bool l.
Proof.
  induction l as [|x l IH]; simpl; [reflexivity|].
  destruct (p x); simpl; [destruct (q x)|]; now rewrite IH.
Qed.

Lemma filtered_refl {A} (l : list A) : filtered l l.
Proof. exists (fun _ => true). symmetry. apply filter_true. Qed.

Lemma filtered_filter {A} (p : A -> bool) (l : list A) : filtered l (filter p l).
Proof. now exists p. Qed.

Lemma filtered_trans {A} (l1 l2 l3 : list A) :
  filtered l1 l2 -> filtered l2 l3 -> filtered l1 l3.
Proof.
  intros [p ->] [q ->]. exists (fun x => p x && q x)%bool. apply filter_filter.
Qed.

Lemma filtered_incl {A} (l l' : list A) : filtered l l' -> incl l' l.
Proof. intros [p ->] x Hx. now apply filter_In in Hx. Qed.

Lemma NoDup_map_filter {A B} (f : A -> B) (p : A -> bool) (l : list A) :
  NoDup (map f l) -> NoDup (map f (filter p l)).
Proof.
  induction l as [|x l IH]; simpl; intros H; [constructor|].
  inversion H as [|? ? Hnin Hnd]; subst.
  destruct (p x); simpl; [|now apply IH].
  constructor; [|now apply IH].
  intros Hin. apply Hnin. apply in_map_iff in Hin as (y & Hy & Hin).
  apply in_map_iff. exists y. split; [assumption|].
  now apply filter_In in Hin.
Qed.

Lemma filtered_NoDup_map {A B} (f : A -> B) (l l' : list A) :
  filtered l l' -> NoDup (map f l) -> NoDup (map f l').
Proof. intros [p ->]. apply NoDup_map_filter. Qed.

Lemma shrinks_refl st : shrinks st st.
Proof. repeat split; apply filtered_refl. Qed.

Lemma shrinks_trans st1 st2 st3 : shrinks st1 st2 -> shrinks st2 st3 -> shrinks st1 st3.
Proof.
  intros (U1 & C1 & E1 & A1 & S1 & R1) (U2 & C2 & E2 & A2 & S2 & R2).
  repeat split; [congruence|eapply filtered_trans; eassumption ..].
Qed.

Lemma shrinks_rows_from st st' : shrinks st st' -> rows_from st st'.
Proof.
  intros (U & C & E & A & S & R).
  repeat split; [rewrite U; apply incl_refl|now apply filtered_incl ..].
Qed.

Lemma cascades_refl st : cascades st st.
Proof.
  split; [apply shrinks_refl|].
  split; [|split]; intros x Hx; now left.
Qed.

Lemma cascades_trans st1 st2 st3 :
  cascades st1 st2 -> cascades st2 st3 -> cascades st1 st3.
Proof.
  intros (S12 & R12 & B12 & A12) (S23 & R23 & B23 & A23).
  pose proof S23 as (_ & _ & _ & FA & FS & FR).
  split; [eapply shrinks_trans; eassumption|]. split; [|split].
  - intros s Hs. destruct (R12 s Hs) as [Hin|Hgone]; [now apply R23|].
    right. intros r Hr. apply Hgone. eapply filtered_incl; eassumption.
  - intros a Ha. destruct (B12 a Ha) as [Hin|Hgone]; [now apply B23|].
    right. intros s Hs. apply Hgone. eapply filtered_incl; eassumption.
  - intros c Hc. destruct (A12 c Hc) as [Hin|Hgone]; [now apply A23|].
    right. intros a Ha. apply Hgone. eapply filtered_incl; eassumption.
Qed.

Lemma cascades_shrinks st st' : cascades st st' -> shrinks st st'.
Proof. now intros [H _]. Qed.

Lemma cascades_incl_assignments st st' :
  cascades st st' -> incl (assignments st') (assignments st).
Proof. intros ((_ & _ & _ & A & _ & _) & _). now apply filtered_incl. Qed.

Lemma cascades_incl_submissions st st' :
  cascades st st' -> incl (submissions st') (submissions st).
Proof. intros ((_ & _ & _ & _ & S & _) & _). now apply filtered_incl. Qed.

Lemma cascades_incl_reviews st st' :
  cascades st st' -> incl (peer_reviews st') (peer_reviews st).
Proof. intros ((_ & _ & _ & _ & _ & R) & _). now apply filtered_incl. Qed.

Lemma fold_left_cascades {X} (f : DB -> X -> DB) :
  (forall st x, cascades st (f st x)) ->
  forall l st, cascades st (fold_left f l st).
Proof.
  intros Hf. induction l as [|x l IH]; intros st; simpl.
  - apply cascades_refl.
  - eapply cascades_trans; [apply Hf|apply IH].
Qed.

(** What a cascade establishes for each deleted member survives the rest
    of the loop. *)
Lemma fold_left_post {X} (f : DB -> X -> DB) (Post : X -> DB -> DB -> Prop) :
  (forall st x, cascades st (f st x)) ->
  (forall st x, Post x st (f st x)) ->
  (forall x st0 st st' st'',
     cascades st0 st -> cascades st st' -> Post x st st' -> cascades st' st'' ->
     Post x st0 st'') ->
  forall l st0 x, In x l -> Post x st0 (fold_left f l st0).
Proof.
  intros Hc Hp Hmono l st0 x Hx.
  enough (G : forall st, cascades st0 st -> Post x st0 (fold_left f l st))
    by (apply G, cascades_refl).
  induction l as [|y l IH]; intros st Hst; [contradiction|].
  simpl. destruct Hx as [->|Hx].
  - eapply Hmono; [exact Hst|apply Hc|apply Hp|apply fold_left_cascades, Hc].
  - apply IH; [assumption|]. eapply cascades_trans; [exact Hst|apply Hc].
Qed.

(** A loop that leaves a table alone. *)
Lemma fold_left_preserves {X T} (f : DB -> X -> DB) (table : DB -> T) :
  (forall st x, table (f st x) = table st) ->
  forall l st, table (fold_left f l st) = table st.
Proof.
  intros Hf. induction l as [|x l IH]; intros st; simpl; [reflexivity|].
  now rewrite IH.
Qed.

(** *** Reviews *)

Lemma session_delete_PeerReview_cascades st r :
  cascades st (session_delete_PeerReview st r).
Proof.
  split.
  - unfold session_delete_PeerReview, shrinks; simpl.
    repeat split; try apply filtered_refl. apply filtered_filter.
  - split; [|split]; intros x Hx; now left.
Qed.

Lemma session_delete_PeerReview_gone st r x :
  In x (peer_reviews (session_delete_PeerReview st r)) -> r_id x <> r_id r.
Proof.
  unfold session_delete_PeerReview; simpl. intros H.
  apply filter_In in H as [_ H]. apply negb_true_iff in H. lia.
Qed.

Lemma delete_reviews_cascades l st :
  cascades st (fold_left session_delete_PeerReview l st).
Proof. apply fold_left_cascades, session_delete_PeerReview_cascades. Qed.

Lemma delete_reviews_gone st l r :
  In r l ->
  forall x, In x (peer_reviews (fold_left session_delete_PeerReview l st)) ->
            r_id x <> r_id r.
Proof.
  intros Hr.
  apply (fold_left_post session_delete_PeerReview
           (fun r0 _ st' => forall x, In x (peer_reviews st') -> r_id x <> r_id r0)
           session_delete_PeerReview_cascades
           session_delete_PeerReview_gone); [|assumption].
  intros r0 st0 st1 st2 st3 _ _ H12 C23 x Hx.
  apply H12. now apply (cascades_incl_reviews _ _ C23).
Qed.

(** *** Submissions *)

Lemma submissions_after_delete st s :
  submissions (session_delete_Submission st s)
  = filter (fun x => negb (s_id x =? s_id s)) (submissions st).
Proof.
  unfold session_delete_Submission; simpl.
  now rewrite (fold_left_preserves session_delete_PeerReview submissions).
Qed.

Lemma assignments_after_delete_submission st s :
  assignments (session_delete_Submission st s) = assignments st.
Proof.
  unfold session_delete_Submission; simpl.
  now rewrite (fold_left_preserves session_delete_PeerReview assignments).
Qed.

Lemma classes_after_delete_submission st s :
  classes (session_delete_Submission st s) = classes st.
Proof.
  unfold session_delete_Submission; simpl.
  now rewrite (fold_left_preserves session_delete_PeerReview classes).
Qed.

Lemma session_delete_Submission_shrinks st s :
  shrinks st (session_delete_Submission st s).
Proof.
  unfold session_delete_Submission.
  pose proof (cascades_shrinks _ _
                (delete_reviews_cascades (Submission_peer_reviews st s) st))
    as (U & C & E & A & S & R).
  unfold shrinks; simpl. repeat split; try assumption.
  eapply filtered_trans; [exact S|apply filtered_filter].
Qed.

Lemma session_delete_Submission_gone st s :
  submission_gone s (session_delete_Submission st s).
Proof.
  split.
  - intros x Hx. rewrite submissions_after_delete in Hx.
    apply filter_In in Hx as [_ Hx]. apply negb_true_iff in Hx. lia.
  - unfold session_delete_Submission; simpl. intros r Hr Heq.
    assert (Hin : In r (Submission_peer_reviews st s)).
    { apply filter_In. split; [|lia].
      now apply (cascades_incl_reviews _ _
                   (delete_reviews_cascades (Submission_peer_reviews st s) st)). }
    now apply (delete_reviews_gone st _ r Hin r Hr).
Qed.

Lemma session_delete_Submission_cascades st s :
  cascades st (session_delete_Submission st s).
Proof.
  split; [apply session_delete_Submission_shrinks|]. split; [|split].
  - intros x Hx. destruct (Z.eq_dec (s_id x) (s_id s)) as [E|E].
    + right. intros r Hr. rewrite E.
      now apply (proj2 (session_delete_Submission_gone st s)).
    + left. rewrite submissions_after_delete.
      apply filter_In. split; [assumption|]. apply negb_true_iff. lia.
  - intros a Ha. left. now rewrite assignments_after_delete_submission.
  - intros c Hc. left. now rewrite classes_after_delete_submission.
Qed.

Lemma submission_gone_stable s st st' :
  cascades st st' -> submission_gone s st -> submission_gone s st'.
Proof.
  intros C [G1 G2]. split.
  - intros x Hx. apply G1. now apply (cascades_incl_submissions _ _ C).
  - intros r Hr. apply G2. now apply (cascades_incl_reviews _ _ C).
Qed.

Lemma delete_submissions_cascades l st :
  cascades st (fold_left session_delete_Submission l st).
Proof. apply fold_left_cascades, session_delete_Submission_cascades. Qed.

Lemma delete_submissions_gone st l s :
  In s l -> submission_gone s (fold_left session_delete_Submission l st).
Proof.
  intros Hs.
  apply (fold_left_post session_delete_Submission
           (fun x _ st' => submission_gone x st')
           session_delete_Submission_cascades
           session_delete_Submission_gone); [|assumption].
  intros x st0 st1 st2 st3 _ _ G C. eapply submission_gone_stable; eassumption.
Qed.

(** *** Assignments *)

Lemma assignments_after_delete st a :
  assignments (session_delete_Assignment st a)
  = filter (fun x => negb (a_id x =? a_id a)) (assignments st).
Proof.
  unfold session_delete_Assignment; simpl.
  now rewrite (fold_left_preserves session_delete_Submission assignments
                 assignments_after_delete_submission).
Qed.

Lemma classes_after_delete_assignment st a :
  classes (session_delete_Assignment st a) = classes st.
Proof.
  unfold session_delete_Assignment; simpl.
  now rewrite (fold_left_preserves session_delete_Submission classes
                 classes_after_delete_submission).
Qed.

Lemma session_delete_Assignment_gone st a :
  assignment_gone a st (session_delete_Assignment st a).
Proof.
  pose proof (delete_submissions_cascades (Assignment_submissions st a) st) as C.
  split; [|split].
  - intros y Hy. rewrite assignments_after_delete in Hy.
    apply filter_In in Hy as [_ Hy]. apply negb_true_iff in Hy. lia.
  - unfold session_delete_Assignment; simpl. intros y Hy Heq.
    assert (Hin : In y (Assignment_submissions st a)).
    { apply filter_In. split; [|lia]. now apply (cascades_incl_submissions _ _ C). }
    now apply (proj1 (delete_submissions_gone st _ y Hin) y Hy).
  - unfold session_delete_Assignment; simpl. intros s Hs Heq.
    assert (Hin : In s (Assignment_submissions st a)).
    { apply filter_In. split; [assumption|lia]. }
    apply (proj2 (delete_submissions_gone st _ s Hin)).
Qed.

Lemma session_delete_Assignment_cascades st a :
  cascades st (session_delete_Assignment st a).
Proof.
  pose proof (delete_submissions_cascades (Assignment_submissions st a) st)
    as ((U & C & E & A & S & R) & RF & _ & _).
  split; [|split; [|split]].
  - unfold session_delete_Assignment, shrinks; simpl. repeat split; try assumption.
    eapply filtered_trans; [exact A|apply filtered_filter].
  - exact RF.
  - intros x Hx. destruct (Z.eq_dec (a_id x) (a_id a)) as [Eq|Ne].
    + right. intros s Hs. rewrite Eq.
      now apply (proj1 (proj2 (session_delete_Assignment_gone st a))).
    + left. rewrite assignments_after_delete.
      apply filter_In. split; [assumption|]. apply negb_true_iff. lia.
  - intros c Hc. left. now rewrite classes_after_delete_assignment.
Qed.

Lemma assignment_gone_stable a st0 st st' st'' :
  cascades st0 st -> cascades st st' -> assignment_gone a st st' ->
  cascades st' st'' -> assignment_gone a st0 st''.
Proof.
  intros (_ & F0 & _) C1 (G1 & G2 & G3) C2.
  split; [|split].
  - intros y Hy. apply G1. now apply (cascades_incl_assignments _ _ C2).
  - intros y Hy. apply G2. now apply (cascades_incl_submissions _ _ C2).
  - intros s Hs Heq r Hr.
    assert (Hr' : In r (peer_reviews st')) by now apply (cascades_incl_reviews _ _ C2).
    destruct (F0 s Hs) as [Hin|Hgone].
    + now apply (G3 s Hin Heq).
    + apply Hgone. now apply (cascades_incl_reviews _ _ C1).
Qed.

Lemma delete_assignments_cascades l st :
  cascades st (fold_left session_delete_Assignment l st).
Proof. apply fold_left_cascades, session_delete_Assignment_cascades. Qed.

Lemma delete_assignments_gone st l a :
  In a l -> assignment_gone a st (fold_left session_delete_Assignment l st).
Proof.
  apply (fold_left_post session_delete_Assignment assignment_gone
           session_delete_Assignment_cascades
           session_delete_Assignment_gone assignment_gone_stable).
Qed.

(** *** Classes *)

Lemma classes_after_delete st c :
  classes (session_delete_Class st c)
  = filter (fun x => negb (c_id x =? c_id c)) (classes st).
Proof.
  unfold session_delete_Class; simpl.
  now rewrite (fold_left_preserves session_delete_Assignment classes
                 classes_after_delete_assignment).
Qed.

Lemma session_delete_Class_shrinks st c :
  shrinks st (session_delete_Class st c).
Proof.
  unfold session_delete_Class.
  pose proof (cascades_shrinks _ _
                (delete_assignments_cascades (Class_assignments st c) st))
    as (U & C & E & A & S & R).
  unfold shrinks; simpl. repeat split; try assumption.
  - eapply filtered_trans; [exact C|apply filtered_filter].
  - eapply filtered_trans; [exact E|apply filtered_filter].
Qed.

(** After [db.session.delete(cls)] nothing of the class remains: not the
    class, no membership row, no assignment, no submission under such an
    assignment and no review under such a submission. *)
Lemma session_delete_Class_gone st c :
  let st' := session_delete_Class st c in
  (forall y, In y (classes st') -> c_id y <> c_id c) /\
  (forall e, In e (class_students st') -> e_class_id e <> c_id c) /\
  (forall a, In a (assignments st') -> ~ assignment_under (c_id c) a) /\
  (forall s, In s (submissions st') -> ~ submission_under st (c_id c) s) /\
  (forall r, In r (peer_reviews st') -> ~ review_under st (c_id c) r).
Proof.
  pose proof (delete_assignments_cascades (Class_assignments st c) st) as C.
  assert (Hin : forall a, In a (assignments st) -> a_class_id a = c_id c ->
                          In a (Class_assignments st c)).
  { intros a Ha Hc. apply filter_In. split; [assumption|lia]. }
  unfold session_delete_Class; simpl. repeat split.
  - intros y Hy. apply filter_In in Hy as [_ Hy]. apply negb_true_iff in Hy. lia.
  - intros e He. apply filter_In in He as [_ He]. apply negb_true_iff in He. lia.
  - intros a Ha Hu. unfold assignment_under in Hu.
    assert (Ha0 : In a (assignments st)) by now apply (cascades_incl_assignments _ _ C).
    now apply (proj1 (delete_assignments_gone st _ a (Hin a Ha0 Hu)) a Ha).
  - intros s Hs (a & Ha & Hu & Heq).
    now apply (proj1 (proj2 (delete_assignments_gone st _ a (Hin a Ha Hu))) s Hs).
  - intros r Hr (s & Hs & (a & Ha & Hu & Heq) & Hrs).
    now apply (proj2 (proj2 (delete_assignments_gone st _ a (Hin a Ha Hu)))
                 s Hs Heq r Hr).
Qed.

Lemma session_delete_Class_cascades st c :
  cascades st (session_delete_Class st c).
Proof.
  pose proof (delete_assignments_cascades (Class_assignments st c) st)
    as (_ & RF & SF & _).
  split; [apply session_delete_Class_shrinks|]. split; [|split].
  - exact RF.
  - exact SF.
  - intros x Hx. destruct (Z.eq_dec (c_id x) (c_id c)) as [Eq|Ne].
    + right. intros a Ha Hc.
      apply (proj1 (proj2 (proj2 (session_delete_Class_gone st c))) a Ha).
      unfold assignment_under. congruence.
    + left. rewrite classes_after_delete.
      apply filter_In. split; [assumption|]. apply negb_true_iff. lia.
Qed.

(** A cascading deletion leaves no orphan behind. *)
Lemma cascades_no_orphans st st' :
  cascades st st' -> no_orphans st -> no_orphans st'.
Proof.
  intros (Sh & RF & SF & AF) (OA & OS & OR).
  pose proof Sh as (_ & _ & _ & FA & FS & FR).
  split; [|split].
  - intros a Ha. destruct (OA a) as (c & Hc & Hid);
      [eapply filtered_incl; eassumption|].
    destruct (AF c Hc) as [Hin|Hgone]; [now exists c|].
    exfalso. now apply (Hgone a Ha).
  - intros s Hs. destruct (OS s) as (a & Ha & Hid);
      [eapply filtered_incl; eassumption|].
    destruct (SF a Ha) as [Hin|Hgone]; [now exists a|].
    exfalso. now apply (Hgone s Hs).
  - intros r Hr. destruct (OR r) as (s & Hs & Hid);
      [eapply filtered_incl; eassumption|].
    destruct (RF s Hs) as [Hin|Hgone]; [now exists s|].
    exfalso. now apply (Hgone r Hr).
Qed.

Lemma find_filter_none {A} (p q : A -> bool) (l : list A) :
  (forall x, p x = true -> q x = false) -> find p (filter q l) = None.
Proof.
  intros H. apply find_none_iff. intros x Hx. apply filter_In in Hx as [_ Hq].
  destruct (p x) eqn:E; [|reflexivity]. rewrite (H x E) in Hq. discriminate.
Qed.

(* ================================================================== *)
(** * One submission per student and assignment *)

Lemma next_id_fresh ids i : In i ids -> i < next_id ids.
Proof.
  unfold next_id. induction ids as [|x ids IH]; cbn [fold_right In]; [contradiction|].
  intros [->|H]; [lia|]. specialize (IH H). lia.
Qed.

Lemma NoDup_map_inj {A B} (f : A -> B) (l : list A) x y :
  NoDup (map f l) -> In x l -> In y l -> f x = f y -> x = y.
Proof.
  induction l as [|z l IH]; simpl; [contradiction|].
  intros H Hx Hy E. inversion H as [|? ? Hnin Hnd]; subst.
  destruct Hx as [->|Hx], Hy as [->|Hy]; try reflexivity.
  - exfalso. apply Hnin. rewrite E. now apply in_map.
  - exfalso. apply Hnin. rewrite <- E. now apply in_map.
  - now apply IH.
Qed.

Lemma NoDup_map_snoc {A B} (f : A -> B) (l : list A) x :
  NoDup (map f l) -> ~ In (f x) (map f l) -> NoDup (map f (l ++ [x])).
Proof.
  intros Hl Hx. rewrite map_app. simpl.
  apply NoDup_app; [assumption|constructor; [intros []|constructor]|].
  intros y Hy [<-|[]]. contradiction.
Qed.

Lemma submissions_wf_same st st' :
  submissions st' = submissions st -> submissions_wf st -> submissions_wf st'.
Proof. unfold submissions_wf, submission_ids_unique, one_submission_per_pair. now intros ->. Qed.

Lemma submissions_wf_shrinks st st' :
  shrinks st st' -> submissions_wf st -> submissions_wf st'.
Proof.
  intros (_ & _ & _ & _ & S & _) [I P].
  split; eapply filtered_NoDup_map; eassumption.
Qed.

Lemma submissions_wf_replace st sid s s' :
  submissions_wf st ->
  get_Submission st sid = Some s ->
  s_id s' = s_id s ->
  submission_key s' = submission_key s ->
  submissions_wf (replace_submission st s').
Proof.
  intros [I P] Hs Hid Hkey. apply get_Submission_some in Hs as [Hin _].
  unfold submissions_wf, submission_ids_unique, one_submission_per_pair,
    replace_submission in *; simpl.
  rewrite !map_map.
  assert (E1 : map (fun x => s_id (if s_id x =? s_id s' then s' else x)) (submissions st)
               = map s_id (submissions st)).
  { apply map_ext. intros x. destruct (Z.eqb_spec (s_id x) (s_id s')); congruence. }
  assert (E2 : map (fun x => submission_key (if s_id x =? s_id s' then s' else x))
                   (submissions st)
               = map submission_key (submissions st)).
  { apply map_ext_in. intros x Hx. destruct (Z.eqb_spec (s_id x) (s_id s')); [|reflexivity].
    assert (x = s) by (apply (NoDup_map_inj s_id (submissions st)); congruence).
    congruence. }
  rewrite E1, E2. now split.
Qed.

Lemma find_submission_none st uid aid :
  find_submission st uid aid = None <->
  ~ In (uid, aid) (map submission_key (submissions st)).
Proof.
  unfold find_submission. rewrite find_none_iff. split.
  - intros H Hin. apply in_map_iff in Hin as (s & Hk & Hs).
    specialize (H s Hs). unfold submission_key in Hk. inversion Hk; subst.
    rewrite !Z.eqb_refl in H. discriminate.
  - intros H s Hs. apply not_true_is_false. intros E.
    apply andb_true_iff in E as [E1 E2]. apply H. apply in_map_iff.
    exists s. split; [|assumption]. unfold submission_key. f_equal; lia.
Qed.

Lemma submissions_wf_add st s :
  submissions_wf st ->
  s_id s = next_id (map s_id (submissions st)) ->
  find_submission st (s_student_id s) (s_assignment_id s) = None ->
  submissions_wf (set_submissions st (submissions st ++ [s])).
Proof.
  intros [I P] Hid Hnone.
  unfold submissions_wf, submission_ids_unique, one_submission_per_pair; simpl.
  split; apply NoDup_map_snoc; try assumption.
  - intros Hin. apply next_id_fresh in Hin. lia.
  - now apply find_submission_none.
Qed.

Lemma shrinks_users st st' : shrinks st st' -> users st' = users st.
Proof. now intros [U _]. Qed.

Create HintDb cascade.
#[export] Hint Resolve
  session_delete_Class_cascades session_delete_Assignment_cascades
  session_delete_Submission_cascades cascades_shrinks shrinks_users : cascade.

(** *** Referential integrity along a run *)

Lemma no_orphans_same st st' :
  classes st' = classes st -> assignments st' = assignments st ->
  submissions st' = submissions st -> peer_reviews st' = peer_reviews st ->
  no_orphans st -> no_orphans st'.
Proof. unfold no_orphans. intros -> -> -> ->. auto. Qed.

Lemma no_orphans_add_class st c :
  no_orphans st -> no_orphans (set_classes st (classes st ++ [c])).
Proof.
  intros (OA & OS & OR). split; [|split]; [|assumption ..].
  intros a Ha. destruct (OA a Ha) as (c' & Hc & Hid). exists c'.
  split; [|assumption]. simpl. apply in_or_app. now left.
Qed.

Lemma no_orphans_add_assignment st cls a :
  get_Class st (a_class_id a) = Some cls ->
  no_orphans st -> no_orphans (set_assignments st (assignments st ++ [a])).
Proof.
  intros Hc (OA & OS & OR). apply get_Class_some in Hc as [Hin Hcid].
  split; [|split]; simpl.
  - intros x Hx. apply in_app_or in Hx as [Hx|[<-|[]]]; [now apply OA|].
    now exists cls.
  - intros s Hs. destruct (OS s Hs) as (a' & Ha' & E). exists a'.
    split; [apply in_or_app; now left|assumption].
  - assumption.
Qed.

Lemma no_orphans_seeded st us c es a :
  no_orphans st -> a_class_id a = c_id c ->
  no_orphans (mkDB us (classes st ++ [c]) es (assignments st ++ [a])
                   (submissions st) (peer_reviews st)).
Proof.
  intros (OA & OS & OR) Hac. split; [|split]; simpl.
  - intros x Hx. apply in_app_or in Hx as [Hx|[<-|[]]].
    + destruct (OA x Hx) as (c' & Hc & E). exists c'.
      split; [apply in_or_app; now left|assumption].
    + exists c. split; [apply in_or_app; right; now left|now symmetry].
  - intros s Hs. destruct (OS s Hs) as (a' & Ha' & E). exists a'.
    split; [apply in_or_app; now left|assumption].
  - assumption.
Qed.

Lemma in_map_kept {A} (f : A -> bool) (y : A) (l : list A) x :
  In x l -> f x = false -> In x (map (fun z => if f z then y else z) l).
Proof. intros Hin Hf. apply in_map_iff. exists x. now rewrite Hf. Qed.

Lemma in_map_replaced {A} (f : A -> bool) (y : A) (l : list A) x :
  In x l -> f x = true -> In y (map (fun z => if f z then y else z) l).
Proof. intros Hin Hf. apply in_map_iff. exists x. now rewrite Hf. Qed.

Lemma no_orphans_replace_assignment st aid a a' :
  get_Assignment st aid = Some a ->
  a_id a' = a_id a -> a_class_id a' = a_class_id a ->
  no_orphans st -> no_orphans (replace_assignment st a').
Proof.
  intros Ha Hid Hcl (OA & OS & OR). apply get_Assignment_some in Ha as [Hin _].
  unfold replace_assignment. split; [|split]; simpl.
  - intros x Hx. apply in_map_iff in Hx as (y & Hy & Hyin).
    destruct (a_id y =? a_id a'); subst x; [rewrite Hcl|]; now apply OA.
  - intros s Hs. destruct (OS s Hs) as (x & Hx & E).
    destruct (a_id x =? a_id a') eqn:Eq.
    + exists a'. split; [eapply in_map_replaced; eassumption|]. lia.
    + exists x. split; [now apply in_map_kept|assumption].
  - assumption.
Qed.

Lemma no_orphans_add_submission st a s :
  get_Assignment st (s_assignment_id s) = Some a ->
  no_orphans st -> no_orphans (set_submissions st (submissions st ++ [s])).
Proof.
  intros Ha (OA & OS & OR). apply get_Assignment_some in Ha as [Hin Haid].
  split; [|split]; simpl.
  - assumption.
  - intros x Hx. apply in_app_or in Hx as [Hx|[<-|[]]]; [now apply OS|].
    now exists a.
  - intros r Hr. destruct (OR r Hr) as (x & Hx & E). exists x.
    split; [apply in_or_app; now left|assumption].
Qed.

Lemma no_orphans_replace_submission st sid s s' :
  get_Submission st sid = Some s ->
  s_id s' = s_id s -> s_assignment_id s' = s_assignment_id s ->
  no_orphans st -> no_orphans (replace_submission st s').
Proof.
  intros Hs Hid Has (OA & OS & OR). apply get_Submission_some in Hs as [Hin _].
  unfold replace_submission. split; [|split]; simpl.
  - assumption.
  - intros x Hx. apply in_map_iff in Hx as (y & Hy & Hyin).
    destruct (s_id y =? s_id s'); subst x; [rewrite Has|]; now apply OS.
  - intros r Hr. destruct (OR r Hr) as (x & Hx & E).
    destruct (s_id x =? s_id s') eqn:Eq.
    + exists s'. split; [eapply in_map_replaced; eassumption|]. lia.
    + exists x. split; [now apply in_map_kept|assumption].
Qed.

Lemma no_orphans_add_review st s r :
  get_Submission st (r_submission_id r) = Some s ->
  no_orphans st -> no_orphans (set_peer_reviews st (peer_reviews st ++ [r])).
Proof.
  intros Hs (OA & OS & OR). apply get_Submission_some in Hs as [Hin Hsid].
  split; [|split]; [assumption ..|]. simpl.
  intros x Hx. apply in_app_or in Hx as [Hx|[<-|[]]]; [now apply OR|].
  now exists s.
Qed.

(** Unfolding a request down to its guards, and splitting on each of them
    from the inside out. *)
Ltac unfold_handlers :=
  cbv beta iota zeta delta
    [handle register login get_session create_class list_classes get_class
     delete_class join_class leave_class create_assignment update_assignment
     delete_assignment create_submission update_submission delete_submission
     grade_submission create_peer_review get_pending_reviews
     jwt_required teacher_required student_required validate_json
     handle_db_errors internal_error bind dict_item get_stripped_or_None
     py_strip password_str bcrypt_check get_Class_by submission_in_chain
     get_json_or_empty].

Ltac split_handler :=
  repeat match goal with
  | |- context [match ?x with _ => _ end] =>
      lazymatch x with
      | context [match _ with _ => _ end] => fail
      | _ => destruct x eqn:?
      end
  end.

Section Invariants.

Context {K : Collaborators}.

(** A property kept by every event holds along every run. *)
Lemma run_invariant (P : DB -> Prop) :
  (forall st ev, P st -> P (step st ev)) ->
  forall evs st, P st -> P (run st evs).
Proof.
  intros Hstep. induction evs as [|ev evs IH]; intros st Hst; [exact Hst|].
  apply IH, Hstep, Hst.
Qed.

Lemma reachable_invariant (P : DB -> Prop) :
  P empty_db ->
  (forall st ev, P st -> P (step st ev)) ->
  forall st, reachable st -> P st.
Proof.
  intros H0 Hstep st [evs <-]. now apply run_invariant.
Qed.

Lemma reachable_run st evs : reachable st -> reachable (run st evs).
Proof.
  intros [evs0 <-]. exists (evs0 ++ evs). unfold run. now rewrite fold_left_app.
Qed.

(** The seeding script writes when the user table is empty only. *)
Lemma seed_cases (P : DB -> Prop) st s1 s2 pc now :
  P st ->
  (users st = [] ->
   P (_seed_data (set_users st []) s1 s2 pc now)) ->
  P (_seed_data st s1 s2 pc now).
Proof.
  intros Hst Hseed. destruct (users st) as [|u l] eqn:E.
  - replace st with (set_users st []) at 1; [now apply Hseed|].
    destruct st; simpl in *. now subst.
  - unfold _seed_data. now rewrite E.
Qed.

Lemma handle_submissions_wf st rq :
  submissions_wf st -> submissions_wf (fst (handle st rq)).
Proof.
  intros Inv. destruct rq; unfold_handlers.
  all: split_handler.
  all: cbn [fst]; try assumption.
  all: try solve [apply (submissions_wf_same st); [reflexivity|assumption]].
  all: try solve [apply submissions_wf_shrinks with st; auto with cascade].
  all: try solve [apply submissions_wf_add; [assumption|reflexivity|assumption]].
  all: try solve [eapply submissions_wf_replace;
                    [assumption|eassumption|reflexivity|reflexivity]].
Qed.

Lemma step_submissions_wf st ev : submissions_wf st -> submissions_wf (step st ev).
Proof.
  intros Inv. destruct ev as [rq|s1 s2 pc now]; [now apply handle_submissions_wf|].
  simpl. apply seed_cases; [assumption|]. intros _.
  apply (submissions_wf_same st); [reflexivity|assumption].
Qed.

Lemma find_submission_some_iff st uid aid :
  (exists s, find_submission st uid aid = Some s) <->
  (exists s, In s (submissions st) /\ s_student_id s = uid /\ s_assignment_id s = aid).
Proof.
  split.
  - intros [s Hs]. apply find_some in Hs as [Hin Hb].
    apply andb_true_iff in Hb as [H1 H2]. exists s. repeat split; [assumption|lia|lia].
  - intros (s & Hin & H1 & H2).
    destruct (find_submission st uid aid) as [s'|] eqn:E; [now exists s'|].
    exfalso. unfold find_submission in E.
    pose proof (find_none _ _ E s Hin) as Hb. cbv beta in Hb.
    rewrite H1, H2, !Z.eqb_refl in Hb. discriminate.
Qed.

(** C3. Every reachable state has at most one submission per
    (student, assignment) pair (the list of pairs has no duplicate), and
    every request (and the seeding script) keeps that, so no operation
    creates a second submission for a pair.  [create_submission] by an
    enrolled student for an assignment of the class, with a body whose
    [content] is absent or a string: when a submission of that student for that assignment exists
    the answer is 409 and the database is unchanged; otherwise the answer
    is 201 and exactly one submission, of that student for that assignment,
    is appended, every other table being unchanged. *)
Theorem one_submission_per_student_and_assignment :
  (forall st, reachable st -> one_submission_per_pair st) /\
  (forall st ev, submissions_wf st -> submissions_wf (step st ev)) /\
  (forall st uid user cid aid cls a body now content,
     get_User st uid = Some user -> u_role user = "student" ->
     get_Class st cid = Some cls -> is_enrolled st uid cid = true ->
     get_Assignment st aid = Some a -> a_class_id a = cid ->
     get_stripped_or_None (get_json_or_empty body) "content" = Ret content ->
     let r := create_submission st (Some uid) cid aid body now in
     ((exists s, In s (submissions st) /\
                 s_student_id s = uid /\ s_assignment_id s = aid) ->
      r = (st, err "Already submitted. Use PUT to edit." 409))
     /\
     (~ (exists s, In s (submissions st) /\
                   s_student_id s = uid /\ s_assignment_id s = aid) ->
      status r = 201 /\
      exists s, fst r = set_submissions st (submissions st ++ [s]) /\
                s_student_id s = uid /\ s_assignment_id s = aid)).
Proof.
  split; [|split].
  - intros st Hr.
    apply (reachable_invariant submissions_wf); [|apply step_submissions_wf|exact Hr].
    split; constructor.
  - apply step_submissions_wf.
  - intros st uid user cid aid cls a body now content Hu Hrole Hc Hen Ha Hac Hcontent r.
    destruct (get_Class_some _ _ _ Hc) as [_ Hcid].
    assert (E : r =
      match find_submission st uid aid with
      | Some _ => (st, err "Already submitted. Use PUT to edit." 409)
      | None =>
          let submission :=
            mkSubmission (next_id (map s_id (submissions st))) content
              (dict_get_or_null (get_json_or_empty body) "fileName")
              (dict_get_or_null (get_json_or_empty body) "fileSize")
              uid aid now None None None in
          let st' := set_submissions st (submissions st ++ [submission]) in
          (st', (JObj [("message", JStr "Submission created");
                       ("submission", Submission_to_dict st' false submission)], 201))
      end).
    { subst r. unfold create_submission.
      rewrite (student_required_pass st uid user _ Hu Hrole). cbv zeta.
      rewrite Hc, Hu, (user_in_students_enrolled st uid user cls Hu), Hcid, Hen.
      cbn [negb]. rewrite Ha, Hac, Z.eqb_refl. cbn [negb].
      destruct (find_submission st uid aid); [reflexivity|].
      rewrite Hcontent. reflexivity. }
    rewrite E. split.
    + intros Hex. apply find_submission_some_iff in Hex as [s ->]. reflexivity.
    + intros Hnex. destruct (find_submission st uid aid) as [s|] eqn:F.
      * exfalso. apply Hnex. apply find_submission_some_iff. now exists s.
      * split; [reflexivity|]. eexists. split; [reflexivity|]. now split.
Qed.

Lemma handle_no_orphans st rq : no_orphans st -> no_orphans (fst (handle st rq)).
Proof.
  intros Inv. destruct rq; unfold_handlers.
  all: split_handler.
  all: cbn [fst]; try assumption.
  all: try solve [apply (no_orphans_same st); [reflexivity ..|assumption]].
  all: try solve [apply cascades_no_orphans with st; auto with cascade].
  all: try solve [apply no_orphans_add_class; assumption].
  all: try solve [eapply no_orphans_add_assignment; [eassumption|assumption]].
  all: try solve [eapply no_orphans_replace_assignment;
                    [eassumption|reflexivity|reflexivity|assumption]].
  all: try solve [eapply no_orphans_add_submission; [eassumption|assumption]].
  all: try solve [eapply no_orphans_replace_submission;
                    [eassumption|reflexivity|reflexivity|assumption]].
  all: try solve [eapply no_orphans_add_review; [eassumption|assumption]].
Qed.

Lemma step_no_orphans st ev : no_orphans st -> no_orphans (step st ev).
Proof.
  intros Inv. destruct ev as [rq|s1 s2 pc now]; [now apply handle_no_orphans|].
  simpl. apply seed_cases; [assumption|]. intros _.
  cbv beta iota zeta delta
    [_seed_data set_users set_classes set_class_students set_assignments
     users classes class_students assignments submissions peer_reviews].
  apply no_orphans_seeded; [assumption|reflexivity].
Qed.

(** No reachable state has an orphaned child row. *)
Lemma reachable_no_orphans st : reachable st -> no_orphans st.
Proof.
  apply (reachable_invariant no_orphans); [|apply step_no_orphans].
  split; [|split]; intros x [].
Qed.

End Invariants.

(* ================================================================== *)
(** * Deleting a class *)

(** C4. [delete_class] by a teacher: an absent class gives 404, a class
    owned by somebody else gives 403, both without any write.  For the
    owner the answer is 200 and in the new state the class is no longer
    found, and no assignment of the class, no submission under such an
    assignment and no peer review under such a submission remains; rows
    are only removed, never added or changed, and a state without orphaned
    child rows stays without them.  A 200 is only ever given to the
    owner.  Whatever the caller and the class, the state after a
    [delete_class] request in a reachable state has no orphaned child
    row. *)
Theorem delete_class_cascade :
  forall st uid user cid,
    get_User st uid = Some user ->
    u_role user = "teacher" ->
    (get_Class st cid = None ->
       delete_class st (Some uid) cid = (st, err "Class not found" 404))
    /\
    (forall cls, get_Class st cid = Some cls -> c_owner_id cls <> uid ->
       delete_class st (Some uid) cid
       = (st, err "Only the class owner can delete it" 403))
    /\
    (forall cls, get_Class st cid = Some cls -> c_owner_id cls = uid ->
       let st' := fst (delete_class st (Some uid) cid) in
       snd (delete_class st (Some uid) cid)
       = (JObj [("message", JStr "Class deleted successfully")], 200) /\
       get_Class st' cid = None /\
       (forall a, In a (assignments st') -> ~ assignment_under cid a) /\
       (forall s, In s (submissions st') -> ~ submission_under st cid s) /\
       (forall r, In r (peer_reviews st') -> ~ review_under st cid r) /\
       rows_from st st' /\
       (no_orphans st -> no_orphans st'))
    /\
    (forall ident, status (delete_class st ident cid) = 200 ->
       exists cls, get_Class st cid = Some cls /\ ident = Some (c_owner_id cls))
    /\
    (forall (K : Collaborators) ident,
       reachable st -> no_orphans (fst (delete_class st ident cid))).
Proof.
  intros st uid user cid Hu Hrole.
  split; [|split; [|split; [|split]]].
  - intros Hc. unfold delete_class.
    rewrite (teacher_required_pass st uid user _ Hu Hrole), Hc. reflexivity.
  - intros cls Hc Hne. unfold delete_class.
    rewrite (teacher_required_pass st uid user _ Hu Hrole), Hc.
    destruct (Z.eqb_spec (c_owner_id cls) uid); [contradiction|reflexivity].
  - intros cls Hc Hown.
    assert (E : delete_class st (Some uid) cid
                = (session_delete_Class st cls,
                   (JObj [("message", JStr "Class deleted successfully")], 200))).
    { unfold delete_class.
      rewrite (teacher_required_pass st uid user _ Hu Hrole), Hc.
      rewrite Hown, Z.eqb_refl. reflexivity. }
    rewrite E. cbn [fst snd].
    destruct (get_Class_some _ _ _ Hc) as [_ Hid].
    destruct (session_delete_Class_gone st cls) as (G1 & _ & G3 & G4 & G5).
    rewrite Hid in G3, G4, G5.
    split; [reflexivity|]. split; [|split; [exact G3|split; [exact G4|split; [exact G5|]]]].
    + unfold get_Class. rewrite classes_after_delete.
      apply find_filter_none. intros x Hx. apply negb_false_iff. lia.
    + split; [apply shrinks_rows_from, session_delete_Class_shrinks|].
      apply cascades_no_orphans, session_delete_Class_cascades.
  - intros ident. unfold delete_class, teacher_required, status.
    destruct ident as [i|]; [|discriminate].
    destruct (get_User st i) as [u'|]; [|discriminate].
    destruct (negb (String.eqb (u_role u') "teacher")); [discriminate|].
    destruct (get_Class st cid) as [cls|]; [|discriminate].
    simpl. destruct (Z.eqb_spec (c_owner_id cls) i); [|discriminate].
    intros _. exists cls. split; congruence.
  - intros K ident Hr.
    apply (handle_no_orphans st (DeleteClass ident cid)).
    now apply reachable_no_orphans.
Qed.

Lemma delete_class_cascade_witness :
  let st' := fst (delete_class classroom_db (Some 1) 1) in
  get_Class st' 1 = None /\
  (forall a, In a (assignments st') -> ~ assignment_under 1 a) /\
  (forall s, In s (submissions st') -> ~ submission_under classroom_db 1 s) /\
  (forall r, In r (peer_reviews st') -> ~ review_under classroom_db 1 r).
Proof.
  assert (Hu : get_User classroom_db 1
               = Some (mkUser 1 "T" "teacher@test.com" "bcrypt$Teacher1" "teacher" 10))
    by (vm_compute; reflexivity).
  assert (Hc : get_Class classroom_db 1
               = Some (mkClass 1 "Bio" "Biology" None None "ABC123" 1 13))
    by (vm_compute; reflexivity).
  pose proof (proj1 (proj2 (proj2
                (delete_class_cascade classroom_db 1 _ 1 Hu eq_refl))) _ Hc eq_refl)
    as (_ & G1 & G2 & G3 & G4 & _).
  exact (conj G1 (conj G2 (conj G3 G4))).
Defined.

(* ================================================================== *)
(** * Joining, reading and leaving a class *)

Lemma is_enrolled_app st uid cid e :
  is_enrolled (set_class_students st (class_students st ++ [e])) uid cid
  = (is_enrolled st uid cid || ((e_class_id e =? cid) && (e_user_id e =? uid)))%bool.
Proof.
  unfold is_enrolled; simpl. rewrite existsb_app. simpl. now rewrite orb_false_r.
Qed.

(** C5. [join_class] by a student with a body holding an integer [classId]
    and a string [passcode]: 404 when the class is absent; 401 when the
    passcode, compared as the handler compares it (after [strip]), is not
    the class's passcode; 409 when the passcode is right and the student is
    already enrolled; all three without any write.  Otherwise the answer is
    200, one membership row (class, student) is appended, and the student
    is enrolled and on the roster of the class in the new state. *)
Theorem join_class_spec :
  forall st uid user data cid passcode now,
    get_User st uid = Some user ->
    u_role user = "student" ->
    dict_get data "classId" = Some (VInt cid) ->
    dict_get data "passcode" = Some (VStr passcode) ->
    let r := join_class st (Some uid) (Some data) now in
    (get_Class st cid = None -> r = (st, err "Class not found" 404)) /\
    (forall cls, get_Class st cid = Some cls ->
       (strip passcode <> c_passcode cls ->
          r = (st, err "Invalid passcode" 401)) /\
       (strip passcode = c_passcode cls -> is_enrolled st uid cid = true ->
          r = (st, err "Already enrolled in this class" 409)) /\
       (strip passcode = c_passcode cls -> is_enrolled st uid cid = false ->
          status r = 200 /\
          fst r = set_class_students st
                    (class_students st ++ [mkEnrollment cid uid now]) /\
          is_enrolled (fst r) uid cid = true /\
          In user (Class_students (fst r) cls))).
Proof.
  intros st uid user data cid passcode now Hu Hrole Hk Hp r.
  assert (E : r = handle_db_errors st (
    match get_Class st cid with
    | None => Ret (st, err "Class not found" 404)
    | Some cls =>
        if negb (String.eqb (c_passcode cls) (strip passcode))
        then Ret (st, err "Invalid passcode" 401)
        else if is_enrolled st uid (c_id cls)
        then Ret (st, err "Already enrolled in this class" 409)
        else
          let st' := set_class_students st
                       (class_students st ++ [mkEnrollment (c_id cls) uid now]) in
          Ret (st', (JObj [("message", JStr "Joined class successfully");
                           ("class", Class_to_dict st' false false false cls)], 200))
    end)).
  { subst r. unfold join_class.
    rewrite (student_required_pass st uid user _ Hu Hrole).
    rewrite validate_json_pass;
      [|simpl; now rewrite (dict_get_has _ _ _ Hk), (dict_get_has _ _ _ Hp)
       |now apply dict_has_nonempty with "classId", (dict_get_has _ _ _ Hk)].
    cbv zeta. rewrite (dict_item_get _ _ _ Hk). simpl.
    destruct (get_Class st cid) as [cls|]; [|reflexivity].
    rewrite (dict_item_get _ _ _ Hp). simpl.
    rewrite Hu, (user_in_students_enrolled st uid user cls Hu). reflexivity. }
  rewrite E. clear E. split.
  - intros ->. reflexivity.
  - intros cls Hc. rewrite Hc. destruct (get_Class_some _ _ _ Hc) as [_ Hcid].
    rewrite Hcid. split; [|split].
    + intros Hne. destruct (String.eqb_spec (c_passcode cls) (strip passcode));
        [congruence|reflexivity].
    + intros Heq Hen. rewrite Heq, String.eqb_refl, Hen. reflexivity.
    + intros Heq Hen. rewrite Heq, String.eqb_refl, Hen. cbn.
      split; [reflexivity|]. split; [reflexivity|].
      assert (Hen' : is_enrolled
                       (set_class_students st
                          (class_students st ++ [mkEnrollment cid uid now])) uid cid
                     = true).
      { rewrite is_enrolled_app. simpl. rewrite !Z.eqb_refl. apply orb_true_r. }
      split; [exact Hen'|].
      unfold Class_students. apply filter_In. simpl.
      destruct (get_User_some _ _ _ Hu) as [Hin Hid]. split; [assumption|].
      rewrite Hid, Hcid. exact Hen'.
Qed.

Lemma obj_has_passcode st o1 o2 o3 c :
  obj_has (Class_to_dict st o1 o2 o3 c) "passcode" = o1.
Proof. destruct o1, o2, o3; reflexivity. Qed.

Lemma obj_has_students st o1 o2 o3 c :
  obj_has (Class_to_dict st o1 o2 o3 c) "students" = o2.
Proof. destruct o1, o2, o3; reflexivity. Qed.

(** C6. [get_class] for an authenticated caller never writes.  It answers
    404 when the class is absent and 403 when the caller is neither the
    owner nor an enrolled student.  Otherwise it answers 200 with the class
    under the key [class], and that object has the field [passcode], and
    the field [students], exactly when the caller is the owner; for the
    owner they hold the passcode and the whole roster. *)
Theorem get_class_spec :
  forall st uid cid,
    let r := get_class st (Some uid) cid in
    fst r = st /\
    (get_Class st cid = None -> snd r = err "Class not found" 404) /\
    (forall cls, get_Class st cid = Some cls ->
       let is_owner := c_owner_id cls =? uid in
       let is_student := user_in_students st (get_User st uid) cls in
       (is_owner = false -> is_student = false -> snd r = err "Access denied" 403) /\
       (is_owner = true \/ is_student = true ->
          status r = 200 /\
          payload_field_has r "class" "passcode" = is_owner /\
          payload_field_has r "class" "students" = is_owner /\
          (is_owner = true ->
             exists fields,
               payload r = JObj [("class", JObj fields)] /\
               obj_get fields "passcode" = Some (JStr (c_passcode cls)) /\
               obj_get fields "students"
               = Some (JList (map User_to_dict (Class_students st cls)))))).
Proof.
  intros st uid cid r. subst r. unfold get_class, jwt_required. cbv zeta.
  destruct (get_Class st cid) as [cls|] eqn:Hc.
  - split; [|split; [discriminate|]].
    + destruct (negb (c_owner_id cls =? uid) &&
                negb (user_in_students st (get_User st uid) cls))%bool; reflexivity.
    + intros c Heq. inversion Heq; subst c. split.
      * intros -> ->. reflexivity.
      * intros Hor.
        assert (Hg : (negb (c_owner_id cls =? uid) &&
                      negb (user_in_students st (get_User st uid) cls))%bool = false).
        { destruct Hor as [-> | ->]; [reflexivity|apply andb_false_r]. }
        rewrite Hg. unfold status, payload_field_has, payload. cbn [fst snd obj_get].
        cbn [String.eqb Ascii.eqb Bool.eqb].
        rewrite obj_has_passcode, obj_has_students.
        split; [reflexivity|]. split; [reflexivity|]. split; [reflexivity|].
        intros ->. eexists. split; [reflexivity|]. split; reflexivity.
  - split; [reflexivity|]. split; [reflexivity|]. intros cls Heq. discriminate.
Qed.

(** C8. [leave_class] by a student: 404 when the class is absent and 400
    when the student is not enrolled, without any write.  Otherwise the
    answer is 200 and the new state differs only in the association table,
    from which exactly the rows of this (class, student) pair are removed:
    users, classes, assignments, submissions and peer reviews are the same
    lists, the student is no longer enrolled and every other membership is
    as before. *)
Theorem leave_class_frame :
  forall st uid user cid,
    get_User st uid = Some user ->
    u_role user = "student" ->
    let r := leave_class st (Some uid) cid in
    (get_Class st cid = None -> r = (st, err "Class not found" 404)) /\
    (forall cls, get_Class st cid = Some cls ->
       (is_enrolled st uid cid = false ->
          r = (st, err "Not enrolled in this class" 400)) /\
       (is_enrolled st uid cid = true ->
          status r = 200 /\
          users (fst r) = users st /\
          classes (fst r) = classes st /\
          assignments (fst r) = assignments st /\
          submissions (fst r) = submissions st /\
          peer_reviews (fst r) = peer_reviews st /\
          class_students (fst r)
          = filter (fun e => negb ((e_class_id e =? cid) && (e_user_id e =? uid)))
                   (class_students st) /\
          is_enrolled (fst r) uid cid = false /\
          (forall uid' cid', (uid', cid') <> (uid, cid) ->
             is_enrolled (fst r) uid' cid' = is_enrolled st uid' cid'))).
Proof.
  intros st uid user cid Hu Hrole r. subst r. unfold leave_class.
  rewrite (student_required_pass st uid user _ Hu Hrole). cbv zeta. split.
  - intros ->. reflexivity.
  - intros cls Hc. rewrite Hc, Hu, (user_in_students_enrolled st uid user cls Hu).
    destruct (get_Class_some _ _ _ Hc) as [_ Hcid]. rewrite Hcid. split.
    + intros ->. reflexivity.
    + intros ->. cbn. repeat (split; [reflexivity|]). split.
      * unfold is_enrolled; simpl. apply not_true_is_false. intros H.
        apply existsb_exists in H as (e & He & Hb).
        apply filter_In in He as [_ Hn]. rewrite Hb in Hn. discriminate.
      * intros uid' cid' Hne. unfold is_enrolled; simpl.
        induction (class_students st) as [|e l IH]; [reflexivity|]. simpl.
        destruct ((e_class_id e =? cid) && (e_user_id e =? uid))%bool eqn:Eb; simpl.
        -- rewrite IH. apply andb_true_iff in Eb as [E1 E2].
           apply Z.eqb_eq in E1, E2.
           destruct ((e_class_id e =? cid') && (e_user_id e =? uid'))%bool eqn:Eb';
             [|reflexivity].
           apply andb_true_iff in Eb' as [E3 E4]. apply Z.eqb_eq in E3, E4.
           exfalso. apply Hne. congruence.
        -- now rewrite IH.
Qed.

(* ================================================================== *)
(** * Grading *)

Lemma get_Submission_replace st s0 s :
  get_Submission st (s_id s) = Some s0 ->
  get_Submission (replace_submission st s) (s_id s) = Some s.
Proof.
  unfold get_Submission, replace_submission; simpl.
  induction (submissions st) as [|x l IH]; simpl; [discriminate|].
  destruct (Z.eqb_spec (s_id x) (s_id s)) as [E|E].
  - intros _. now rewrite Z.eqb_refl.
  - destruct (Z.eqb_spec (s_id x) (s_id s)); [contradiction|]. exact IH.
Qed.

Lemma replace_submission_twice st x y :
  s_id x = s_id y ->
  replace_submission (replace_submission st x) y = replace_submission st y.
Proof.
  intros E. unfold replace_submission, set_submissions; simpl. f_equal.
  rewrite map_map. apply map_ext. intros z. rewrite E.
  destruct (Z.eqb_spec (s_id z) (s_id y)) as [H|H].
  - now rewrite E, Z.eqb_refl.
  - destruct (Z.eqb_spec (s_id z) (s_id y)); [contradiction|reflexivity].
Qed.

Lemma grade_submission_ok st uid user cid aid sid s a data g fb now :
  get_User st uid = Some user -> u_role user = "teacher" ->
  owned_class st cid uid = true ->
  get_Submission st sid = Some s -> s_assignment_id s = aid ->
  get_Assignment st aid = Some a -> a_class_id a = cid ->
  dict_get data "grade" = Some g ->
  get_stripped_or_None data "feedback" = Ret fb ->
  grade_submission st (Some uid) cid aid sid (Some data) now
  = (let s' := graded s (strip (py_str g)) fb now in
     let st' := replace_submission st s' in
     (st', (JObj [("message", JStr "Submission graded");
                  ("submission", Submission_to_dict st' false s')], 200))).
Proof.
  intros Hu Hrole Hown Hs Hsa Ha Hac Hg Hfb. unfold grade_submission.
  rewrite (teacher_required_pass st uid user _ Hu Hrole).
  rewrite validate_json_pass;
    [|simpl; now rewrite (dict_get_has _ _ _ Hg)
     |now apply dict_has_nonempty with "grade", (dict_get_has _ _ _ Hg)].
  rewrite Hown. cbn [negb].
  rewrite (submission_in_chain_found st cid aid sid s a Hs Hsa Ha Hac).
  cbn [bind]. rewrite (dict_item_get _ _ _ Hg). cbn [bind]. rewrite Hfb.
  reflexivity.
Qed.

(** C7. [grade_submission] by a teacher, with a body holding [grade] and a
    [feedback] that is absent or a string.  If the teacher does not own the
    class the answer is 403 and nothing is written.  If the teacher owns
    the class and the submission lies in the class and assignment chain,
    the answer is 200 and the submission carries the grade, the feedback
    and the clock value as [graded_at], its other fields untouched.
    Grading again overwrites: the result of the second request, state and
    response, is the result of sending that request alone, so the same
    inputs give the same grade and feedback (and, at the same clock value,
    the same state). *)
Theorem grade_submission_idempotent :
  forall st uid user cid aid sid data g fb now,
    get_User st uid = Some user -> u_role user = "teacher" ->
    dict_get data "grade" = Some g ->
    get_stripped_or_None data "feedback" = Ret fb ->
    let r1 := grade_submission st (Some uid) cid aid sid (Some data) now in
    (owned_class st cid uid = false -> r1 = (st, err "Access denied" 403)) /\
    (owned_class st cid uid = true ->
     forall s a,
       get_Submission st sid = Some s -> s_assignment_id s = aid ->
       get_Assignment st aid = Some a -> a_class_id a = cid ->
       status r1 = 200 /\
       fst r1 = replace_submission st (graded s (strip (py_str g)) fb now) /\
       get_Submission (fst r1) sid = Some (graded s (strip (py_str g)) fb now) /\
       forall data' g' fb' now',
         dict_get data' "grade" = Some g' ->
         get_stripped_or_None data' "feedback" = Ret fb' ->
         let r2 := grade_submission (fst r1) (Some uid) cid aid sid (Some data') now' in
         r2 = grade_submission st (Some uid) cid aid sid (Some data') now' /\
         status r2 = 200 /\
         get_Submission (fst r2) sid = Some (graded s (strip (py_str g')) fb' now')).
Proof.
  intros st uid user cid aid sid data g fb now Hu Hrole Hg Hfb r1. split.
  - intros Hown. subst r1. unfold grade_submission.
    rewrite (teacher_required_pass st uid user _ Hu Hrole).
    rewrite validate_json_pass;
      [|simpl; now rewrite (dict_get_has _ _ _ Hg)
       |now apply dict_has_nonempty with "grade", (dict_get_has _ _ _ Hg)].
    rewrite Hown. reflexivity.
  - intros Hown s a Hs Hsa Ha Hac.
    destruct (get_Submission_some _ _ _ Hs) as [_ Hsid].
    assert (Hs1 : forall g0 fb0 t,
              get_Submission (replace_submission st (graded s g0 fb0 t)) sid
              = Some (graded s g0 fb0 t)).
    { intros g0 fb0 t. rewrite <- Hsid.
      apply (get_Submission_replace st s (graded s g0 fb0 t)).
      simpl. now rewrite Hsid. }
    subst r1.
    rewrite (grade_submission_ok st uid user cid aid sid s a data g fb now
               Hu Hrole Hown Hs Hsa Ha Hac Hg Hfb).
    cbn [fst snd status]. split; [reflexivity|]. split; [reflexivity|].
    split; [apply Hs1|].
    intros data' g' fb' now' Hg' Hfb'.
    set (s1 := graded s (strip (py_str g)) fb now).
    rewrite (grade_submission_ok (replace_submission st s1) uid user cid aid sid
               s1 a data' g' fb' now' Hu Hrole Hown (Hs1 _ _ _) Hsa Ha Hac Hg' Hfb').
    rewrite (grade_submission_ok st uid user cid aid sid s a data' g' fb' now'
               Hu Hrole Hown Hs Hsa Ha Hac Hg' Hfb').
    cbv zeta.
    replace (graded s1 (strip (py_str g')) fb' now')
      with (graded s (strip (py_str g')) fb' now') by reflexivity.
    rewrite (replace_submission_twice st s1 (graded s (strip (py_str g')) fb' now')
               eq_refl).
    split; [reflexivity|]. split; [reflexivity|]. apply Hs1.
Qed.

(* ================================================================== *)
(** * Emails and authentication *)

Lemma lower_char_not_upper c : is_upper (lower_char c) = false.
Proof. destruct c as [[] [] [] [] [] [] [] []]; reflexivity. Qed.

Lemma lower_char_idem c : lower_char (lower_char c) = lower_char c.
Proof. destruct c as [[] [] [] [] [] [] [] []]; reflexivity. Qed.

Lemma is_space_lower_char c : is_space (lower_char c) = is_space c.
Proof. destruct c as [[] [] [] [] [] [] [] []]; reflexivity. Qed.

Lemma lower_no_uppercase s : no_uppercase (lower s).
Proof.
  unfold no_uppercase. induction s as [|c s IH]; [reflexivity|].
  cbn [lower string_existsb]. now rewrite lower_char_not_upper, IH.
Qed.

Lemma lower_idem s : lower (lower s) = lower s.
Proof.
  induction s as [|c s IH]; [reflexivity|].
  cbn [lower]. now rewrite lower_char_idem, IH.
Qed.

Lemma lstrip_lower s : lstrip (lower s) = lower (lstrip s).
Proof.
  induction s as [|c s IH]; [reflexivity|].
  cbn [lower lstrip]. rewrite is_space_lower_char.
  destruct (is_space c); [exact IH|reflexivity].
Qed.

Lemma rstrip_lower s : rstrip (lower s) = lower (rstrip s).
Proof.
  induction s as [|c s IH]; [reflexivity|].
  cbn [lower rstrip]. rewrite IH, is_space_lower_char.
  destruct (rstrip s); cbn [lower]; [destruct (is_space c)|]; reflexivity.
Qed.

Lemma strip_lower s : strip (lower s) = lower (strip s).
Proof. unfold strip. now rewrite lstrip_lower, rstrip_lower. Qed.

(** Two spellings that differ in letter case only are normalised to the
    same address. *)
Lemma same_casing_same_email e e' :
  lower e' = lower e -> lower (strip e') = lower (strip e).
Proof. intros H. now rewrite <- !strip_lower, H. Qed.

Lemma find_user_by_email_none st email :
  find_user_by_email st email = None <-> ~ In email (map u_email (users st)).
Proof.
  unfold find_user_by_email. rewrite find_none_iff. split.
  - intros H Hin. apply in_map_iff in Hin as (u & <- & Hu).
    specialize (H u Hu). cbv beta in H. rewrite String.eqb_refl in H. discriminate.
  - intros H u Hu. apply not_true_is_false. intros E. apply String.eqb_eq in E.
    apply H. rewrite <- E. now apply in_map.
Qed.

Lemma find_user_by_email_unique st u :
  NoDup (map u_email (users st)) -> In u (users st) ->
  find_user_by_email st (u_email u) = Some u.
Proof.
  intros Hnd Hin. destruct (find_user_by_email st (u_email u)) as [u'|] eqn:E.
  - unfold find_user_by_email in E. apply find_some in E as [Hin' Heq].
    apply String.eqb_eq in Heq. f_equal.
    now apply (NoDup_map_inj u_email (users st)).
  - apply find_user_by_email_none in E. exfalso. apply E. now apply in_map.
Qed.

Lemma users_wf_same st st' :
  users st' = users st -> users_wf st -> users_wf st'.
Proof. unfold users_wf. now intros ->. Qed.

Lemma users_wf_add st u :
  users_wf st -> lower (u_email u) = u_email u ->
  find_user_by_email st (u_email u) = None ->
  users_wf (set_users st (users st ++ [u])).
Proof.
  intros [L N] Hl Hnone. split; simpl.
  - intros x Hx. apply in_app_or in Hx as [Hx|[<-|[]]]; [now apply L|assumption].
  - apply NoDup_map_snoc; [assumption|]. now apply find_user_by_email_none.
Qed.

Section Authentication.

Context {K : Collaborators}.

Lemma handle_users_wf st rq : users_wf st -> users_wf (fst (handle st rq)).
Proof.
  intros Inv. destruct rq; unfold_handlers.
  all: split_handler.
  all: cbn [fst]; try assumption.
  all: try solve [apply (users_wf_same st); [reflexivity|assumption]].
  all: try solve [apply (users_wf_same st); auto with cascade].
  all: try solve [apply users_wf_add; [assumption|apply lower_idem|assumption]].
Qed.

(** Accounts are never removed or changed. *)
Lemma handle_users_grow st rq u :
  In u (users st) -> In u (users (fst (handle st rq))).
Proof.
  intros Hin. destruct rq; unfold_handlers.
  all: split_handler.
  all: cbn [fst]; try assumption.
  all: try solve [simpl; apply in_or_app; now left].
  all: try solve [
    match goal with
    | |- In _ (users ?st') =>
        replace (users st') with (users st); [assumption|symmetry; auto with cascade]
    end].
Qed.

Lemma step_users_wf st ev : users_wf st -> users_wf (step st ev).
Proof.
  intros Inv. destruct ev as [rq|s1 s2 pc now]; [now apply handle_users_wf|].
  simpl. apply seed_cases; [assumption|]. intros _.
  split.
  - intros u [<-|[<-|[]]]; reflexivity.
  - simpl. repeat constructor; simpl; [|tauto]. intros [H|[]]. discriminate H.
Qed.

Lemma step_users_grow st ev u : In u (users st) -> In u (users (step st ev)).
Proof.
  intros Hin. destruct ev as [rq|s1 s2 pc now]; [now apply handle_users_grow|].
  simpl. unfold _seed_data. revert Hin.
  destruct (users st) as [|u0 l] eqn:E; [intros []|].
  intros Hin. now rewrite E.
Qed.

Lemma run_users_grow evs st u : In u (users st) -> In u (users (run st evs)).
Proof.
  revert st. induction evs as [|ev evs IH]; intros st Hin; [exact Hin|].
  apply IH, step_users_grow, Hin.
Qed.

Lemma reachable_users_wf st : reachable st -> users_wf st.
Proof.
  apply (reachable_invariant users_wf); [|apply step_users_wf].
  split; [intros u []|constructor].
Qed.

(** What a successful registration has written. *)
Lemma register_success st data salt now e p :
  dict_get data "email" = Some (VStr e) ->
  dict_get data "password" = Some (VStr p) ->
  status (register st (Some data) salt now) = 201 ->
  exists u,
    fst (register st (Some data) salt now) = set_users st (users st ++ [u]) /\
    u_email u = lower (strip e) /\
    u_password_hash u = generate_password_hash salt p /\
    find_user_by_email st (lower (strip e)) = None.
Proof.
  intros He Hp. unfold register. unfold_handlers.
  split_handler.
  all: cbn [status fst snd]; try discriminate.
  intros _. eexists. split; [reflexivity|]. cbn [u_email u_password_hash].
  repeat split; congruence.
Qed.

Lemma login_rejects st data e p now :
  dict_get data "email" = Some (VStr e) ->
  dict_get data "password" = Some (VStr p) ->
  match find_user_by_email st (lower (strip e)) with
  | None => True
  | Some u => check_password_hash (u_password_hash u) p = false
  end ->
  login st (Some data) now = (st, err "Invalid email or password" 401).
Proof.
  intros He Hp Hbad. unfold login.
  rewrite validate_json_pass;
    [|simpl; now rewrite (dict_get_has _ _ _ He), (dict_get_has _ _ _ Hp)
     |now apply dict_has_nonempty with "email", (dict_get_has _ _ _ He)].
  rewrite (dict_item_get _ _ _ He). cbn [bind py_strip].
  rewrite (dict_item_get _ _ _ Hp). cbn [bind].
  destruct (find_user_by_email st (lower (strip e))) as [u|]; [|reflexivity].
  cbn [bcrypt_check bind]. rewrite Hbad. reflexivity.
Qed.

Lemma login_accepts st data e p now u :
  dict_get data "email" = Some (VStr e) ->
  dict_get data "password" = Some (VStr p) ->
  find_user_by_email st (lower (strip e)) = Some u ->
  check_password_hash (u_password_hash u) p = true ->
  login st (Some data) now
  = (st, (JObj [("message", JStr "Login successful");
                ("access_token", JStr (create_access_token now (u_id u)));
                ("refresh_token", JStr (create_refresh_token now (u_id u)));
                ("user", User_to_dict u)], 200)).
Proof.
  intros He Hp Hu Hok. unfold login.
  rewrite validate_json_pass;
    [|simpl; now rewrite (dict_get_has _ _ _ He), (dict_get_has _ _ _ Hp)
     |now apply dict_has_nonempty with "email", (dict_get_has _ _ _ He)].
  rewrite (dict_item_get _ _ _ He). cbn [bind py_strip].
  rewrite (dict_item_get _ _ _ Hp). cbn [bind]. rewrite Hu.
  cbn [bcrypt_check bind]. rewrite Hok. reflexivity.
Qed.

(** C9. Two failed logins, one with an email that is not registered and
    one with a registered email and a password the stored hash rejects,
    get the same response, [{"error": "Invalid email or password"}] with
    status 401, whatever the databases, the emails, the passwords and the
    clock; neither writes anything. *)
Theorem login_failure_indistinguishable :
  forall st1 st2 data1 data2 e1 p1 e2 p2 u now1 now2,
    dict_get data1 "email" = Some (VStr e1) ->
    dict_get data1 "password" = Some (VStr p1) ->
    dict_get data2 "email" = Some (VStr e2) ->
    dict_get data2 "password" = Some (VStr p2) ->
    find_user_by_email st1 (lower (strip e1)) = None ->
    find_user_by_email st2 (lower (strip e2)) = Some u ->
    check_password_hash (u_password_hash u) p2 = false ->
    snd (login st1 (Some data1) now1) = snd (login st2 (Some data2) now2) /\
    snd (login st1 (Some data1) now1) = err "Invalid email or password" 401 /\
    fst (login st1 (Some data1) now1) = st1 /\
    fst (login st2 (Some data2) now2) = st2.
Proof.
  intros st1 st2 data1 data2 e1 p1 e2 p2 u now1 now2 He1 Hp1 He2 Hp2 H1 H2 Hbad.
  rewrite (login_rejects st1 data1 e1 p1 now1 He1 Hp1) by now rewrite H1.
  rewrite (login_rejects st2 data2 e2 p2 now2 He2 Hp2) by now rewrite H2.
  repeat split.
Qed.

(** C10. (1) A registration answered 201 has appended one user whose
    stored email is the given one stripped and lowercased, and no user had
    that normalised email before; (2) when a user with the normalised email
    exists, registration is not answered 201 and writes nothing; (3) in
    every reachable state no stored email contains an uppercase letter and
    no two users have emails equal up to letter case; (4) login looks the
    user up by the given email stripped and lowercased; (5) if the hashing
    library accepts the password it hashed, then after a successful
    registration with email [e] and password [p], and after any further
    events, a login with [p] and any spelling [e'] of the email that
    differs from [e] in letter case only is answered 200 with that user. *)
Theorem email_normalisation :
  (forall st data salt now e p,
     dict_get data "email" = Some (VStr e) ->
     dict_get data "password" = Some (VStr p) ->
     status (register st (Some data) salt now) = 201 ->
     exists u,
       fst (register st (Some data) salt now) = set_users st (users st ++ [u]) /\
       u_email u = lower (strip e) /\
       find_user_by_email st (lower (strip e)) = None)
  /\
  (forall st data salt now e p u,
     dict_get data "email" = Some (VStr e) ->
     dict_get data "password" = Some (VStr p) ->
     In u (users st) -> u_email u = lower (strip e) ->
     status (register st (Some data) salt now) <> 201 /\
     fst (register st (Some data) salt now) = st)
  /\
  (forall st, reachable st ->
     (forall u, In u (users st) -> no_uppercase (u_email u)) /\
     NoDup (map (fun u => lower (u_email u)) (users st)))
  /\
  (forall st data e p now u,
     dict_get data "email" = Some (VStr e) ->
     dict_get data "password" = Some (VStr p) ->
     find_user_by_email st (lower (strip e)) = Some u ->
     check_password_hash (u_password_hash u) p = true ->
     status (login st (Some data) now) = 200)
  /\
  ((forall salt p, check_password_hash (generate_password_hash salt p) p = true) ->
   forall st data salt now e p evs data' e' now',
     reachable st ->
     dict_get data "email" = Some (VStr e) ->
     dict_get data "password" = Some (VStr p) ->
     status (register st (Some data) salt now) = 201 ->
     lower e' = lower e ->
     dict_get data' "email" = Some (VStr e') ->
     dict_get data' "password" = Some (VStr p) ->
     let st' := run (fst (register st (Some data) salt now)) evs in
     exists u,
       u_email u = lower (strip e) /\
       login st' (Some data') now'
       = (st', (JObj [("message", JStr "Login successful");
                      ("access_token", JStr (create_access_token now' (u_id u)));
                      ("refresh_token", JStr (create_refresh_token now' (u_id u)));
                      ("user", User_to_dict u)], 200))).
Proof.
  split; [|split; [|split; [|split]]].
  - intros st data salt now e p He Hp H201.
    destruct (register_success st data salt now e p He Hp H201)
      as (u & E & Hmail & _ & Hnone).
    now exists u.
  - intros st data salt now e p u He Hp Hin Hmail.
    assert (N : status (register st (Some data) salt now) <> 201).
    { intros H201.
      destruct (register_success st data salt now e p He Hp H201)
        as (_ & _ & _ & _ & Hnone).
      apply find_user_by_email_none in Hnone. apply Hnone.
      rewrite <- Hmail. now apply in_map. }
    split; [exact N|].
    revert N. unfold register. unfold_handlers. split_handler.
    all: cbn [status fst snd]; try reflexivity.
    intros N. now contradiction N.
  - intros st Hr. destruct (reachable_users_wf st Hr) as [L N]. split.
    + intros u Hu. rewrite <- (L u Hu). apply lower_no_uppercase.
    + rewrite (map_ext_in _ u_email); [exact N|]. exact L.
  - intros st data e p now u He Hp Hu Hok.
    now rewrite (login_accepts st data e p now u He Hp Hu Hok).
  - intros Hbcrypt st data salt now e p evs data' e' now' Hr He Hp H201 Hcase He' Hp' st'.
    destruct (register_success st data salt now e p He Hp H201)
      as (u & E & Hmail & Hhash & _).
    exists u. split; [exact Hmail|].
    assert (Hr' : reachable st').
    { apply reachable_run.
      apply (reachable_run st [Api (Register (Some data) salt now)] Hr). }
    assert (Hin : In u (users st')).
    { apply run_users_grow. rewrite E. simpl. apply in_or_app. right. now left. }
    destruct (reachable_users_wf st' Hr') as [_ N].
    apply (login_accepts st' data' e' p now' u He' Hp').
    + rewrite (same_casing_same_email e e' Hcase), <- Hmail.
      now apply find_user_by_email_unique.
    + rewrite Hhash. apply Hbcrypt.
Qed.

End Authentication.

(* ================================================================== *)
(** * The theorems at work on the concrete run *)

Lemma classroom_db_reachable : reachable (K := demo_collaborators) classroom_db.
Proof. exists (map Api classroom_requests). reflexivity. Qed.

Lemma classroom_user_2 :
  get_User classroom_db 2
  = Some (mkUser 2 "A" "a@test.com" "bcrypt$Student1" "student" 11).
Proof. vm_compute. reflexivity. Qed.

Lemma classroom_user_1 :
  get_User classroom_db 1
  = Some (mkUser 1 "T" "teacher@test.com" "bcrypt$Teacher1" "teacher" 10).
Proof. vm_compute. reflexivity. Qed.

Lemma classroom_class_1 :
  get_Class classroom_db 1
  = Some (mkClass 1 "Bio" "Biology" None None "ABC123" 1 13).
Proof. vm_compute. reflexivity. Qed.

Lemma classroom_assignment_1 :
  get_Assignment classroom_db 1 = Some (mkAssignment 1 "Lab Report" None None 1 16).
Proof. vm_compute. reflexivity. Qed.

Lemma classroom_submission_1 :
  get_Submission classroom_db 1
  = Some (mkSubmission 1 (Some "My report") VNull VNull 2 1 17 None None None).
Proof. vm_compute. reflexivity. Qed.

(** Student 2 has submitted: a second submission is refused. *)
Lemma one_submission_witness :
  create_submission classroom_db (Some 2) 1 1 (Some [("content", VStr "Again")]) 20
  = (classroom_db, err "Already submitted. Use PUT to edit." 409).
Proof.
  refine (proj1 (proj2 (proj2 (one_submission_per_student_and_assignment
                                 (K := demo_collaborators)))
                   classroom_db 2 _ 1 1 _ _ (Some [("content", VStr "Again")]) 20
                   (Some "Again")
                   classroom_user_2 eq_refl classroom_class_1 _
                   classroom_assignment_1 eq_refl _) _).
  - vm_compute. reflexivity.
  - vm_compute. reflexivity.
  - exists (mkSubmission 1 (Some "My report") VNull VNull 2 1 17 None None None).
    split; [|split; reflexivity]. vm_compute. left. reflexivity.
Defined.

(** Student 2, having left, joins again; the passcode is sent with blanks
    around it. *)
Lemma join_class_witness :
  status (join_class after_leave_db (Some 2) (join_body 1 " ABC123 ") 30) = 200 /\
  is_enrolled (fst (join_class after_leave_db (Some 2) (join_body 1 " ABC123 ") 30)) 2 1
  = true.
Proof.
  assert (Hu : get_User after_leave_db 2
               = Some (mkUser 2 "A" "a@test.com" "bcrypt$Student1" "student" 11))
    by (vm_compute; reflexivity).
  assert (Hc : get_Class after_leave_db 1
               = Some (mkClass 1 "Bio" "Biology" None None "ABC123" 1 13))
    by (vm_compute; reflexivity).
  assert (Hs : strip " ABC123 " = "ABC123") by (vm_compute; reflexivity).
  assert (He : is_enrolled after_leave_db 2 1 = false) by (vm_compute; reflexivity).
  pose proof (proj2 (proj2 (proj2 (join_class_spec after_leave_db 2 _
                                     [("classId", VInt 1); ("passcode", VStr " ABC123 ")]
                                     1 " ABC123 " 30 Hu eq_refl eq_refl eq_refl)
                              _ Hc)) Hs He) as (H1 & _ & H3 & _).
  exact (conj H1 H3).
Defined.

(** Student 2 reads class 1: neither the passcode nor the roster is in
    the answer. *)
Lemma get_class_witness :
  status (get_class classroom_db (Some 2) 1) = 200 /\
  payload_field_has (get_class classroom_db (Some 2) 1) "class" "passcode" = false /\
  payload_field_has (get_class classroom_db (Some 2) 1) "class" "students" = false.
Proof.
  pose proof (proj2 (proj2 (proj2 (get_class_spec classroom_db 2 1))
                       _ classroom_class_1)) as H.
  cbv zeta in H.
  assert (Hst : user_in_students classroom_db (get_User classroom_db 2)
                  (mkClass 1 "Bio" "Biology" None None "ABC123" 1 13) = true)
    by (vm_compute; reflexivity).
  destruct (H (or_intror Hst)) as (H1 & H2 & H3 & _).
  exact (conj H1 (conj H2 H3)).
Defined.

(** The teacher grades submission 1 twice. *)
Lemma grade_submission_witness :
  let body := Some [("grade", VStr "A"); ("feedback", VStr "Great work!")] in
  let r1 := grade_submission classroom_db (Some 1) 1 1 1 body 40 in
  grade_submission (fst r1) (Some 1) 1 1 1 body 41
  = grade_submission classroom_db (Some 1) 1 1 1 body 41.
Proof.
  assert (Hown : owned_class classroom_db 1 1 = true) by (vm_compute; reflexivity).
  assert (Hfb : get_stripped_or_None
                  [("grade", VStr "A"); ("feedback", VStr "Great work!")] "feedback"
                = Ret (Some "Great work!")) by (vm_compute; reflexivity).
  pose proof (proj2 (grade_submission_idempotent classroom_db 1 _ 1 1 1
                       [("grade", VStr "A"); ("feedback", VStr "Great work!")]
                       (VStr "A") (Some "Great work!") 40
                       classroom_user_1 eq_refl eq_refl Hfb)
                Hown _ _ classroom_submission_1 eq_refl classroom_assignment_1 eq_refl)
    as (_ & _ & _ & H).
  exact (proj1 (H [("grade", VStr "A"); ("feedback", VStr "Great work!")]
                  (VStr "A") (Some "Great work!") 41 eq_refl Hfb)).
Defined.

(** Student 2 leaves class 1: the submission stays. *)
Lemma leave_class_witness :
  status (leave_class classroom_db (Some 2) 1) = 200 /\
  submissions (fst (leave_class classroom_db (Some 2) 1)) = submissions classroom_db /\
  is_enrolled (fst (leave_class classroom_db (Some 2) 1)) 2 1 = false.
Proof.
  assert (He : is_enrolled classroom_db 2 1 = true) by (vm_compute; reflexivity).
  pose proof (proj2 (proj2 (leave_class_frame classroom_db 2 _ 1
                              classroom_user_2 eq_refl) _ classroom_class_1) He)
    as (H1 & _ & _ & _ & H5 & _ & _ & H8 & _).
  exact (conj H1 (conj H5 H8)).
Defined.

(** An unknown address and a wrong password for a known one. *)
Lemma login_failure_witness :
  snd (login (K := demo_collaborators) classroom_db
         (login_body "nobody@test.com" "Student1") 50)
  = snd (login (K := demo_collaborators) classroom_db
           (login_body "a@test.com" "Wrong123") 51).
Proof.
  assert (H1 : find_user_by_email classroom_db (lower (strip "nobody@test.com")) = None)
    by (vm_compute; reflexivity).
  assert (H2 : find_user_by_email classroom_db (lower (strip "a@test.com"))
               = Some (mkUser 2 "A" "a@test.com" "bcrypt$Student1" "student" 11))
    by (vm_compute; reflexivity).
  assert (H3 : check_password_hash (Collaborators := demo_collaborators)
                 "bcrypt$Student1" "Wrong123" = false)
    by (vm_compute; reflexivity).
  exact (proj1 (login_failure_indistinguishable (K := demo_collaborators)
                  classroom_db classroom_db
                  [("email", VStr "nobody@test.com"); ("password", VStr "Student1")]
                  [("email", VStr "a@test.com"); ("password", VStr "Wrong123")]
                  "nobody@test.com" "Student1" "a@test.com" "Wrong123" _ 50 51
                  eq_refl eq_refl eq_refl eq_refl H1 H2 H3)).
Defined.

Lemma demo_hash_accepted salt p : demo_check (demo_hash salt p) p = true.
Proof. unfold demo_check, demo_hash. apply String.eqb_refl. Qed.

(** Registered as Teacher@Test.com, logging in as TEACHER@TEST.COM after
    the whole run. *)
Lemma email_normalisation_witness :
  let st' := run (K := demo_collaborators)
               (fst (register (K := demo_collaborators) empty_db
                       (register_body "T" "Teacher@Test.com" "Teacher1" "teacher")
                       "s1" 10))
               (map Api (tl classroom_requests)) in
  exists u,
    u_email u = "teacher@test.com" /\
    status (login (K := demo_collaborators) st'
              (login_body "TEACHER@TEST.COM" "Teacher1") 60) = 200.
Proof.
  cbv zeta. unfold register_body, login_body.
  assert (H201 : status (register (K := demo_collaborators) empty_db
                           (Some [("name", VStr "T"); ("email", VStr "Teacher@Test.com");
                                  ("password", VStr "Teacher1"); ("role", VStr "teacher")])
                           "s1" 10) = 201)
    by (vm_compute; reflexivity).
  assert (Hcase : lower "TEACHER@TEST.COM" = lower "Teacher@Test.com")
    by (vm_compute; reflexivity).
  assert (Hr : reachable (K := demo_collaborators) empty_db) by (now exists []).
  destruct (proj2 (proj2 (proj2 (proj2 (email_normalisation (K := demo_collaborators))))) 
              demo_hash_accepted empty_db
              [("name", VStr "T"); ("email", VStr "Teacher@Test.com");
               ("password", VStr "Teacher1"); ("role", VStr "teacher")]
              "s1" 10 "Teacher@Test.com" "Teacher1" (map Api (tl classroom_requests))
              [("email", VStr "TEACHER@TEST.COM"); ("password", VStr "Teacher1")]
              "TEACHER@TEST.COM" 60 Hr eq_refl eq_refl H201 Hcase eq_refl eq_refl)
    as (u & Hmail & Hlogin).
  exists u. split; [exact Hmail|].
  exact (f_equal status Hlogin).
Defined.

(* ================================================================== *)
(** * Atomicity and access control *)

Section AccessControl.
Context {K : Collaborators}.

(** X1. Requests are atomic, and reading routes only read.  A request that
    is not answered 200 or 201, whatever the handler and whatever went
    wrong (validation, access control, a missing row, an exception rolled
    back by [handle_db_errors] or answered by the error handler of the
    application), leaves the database exactly as it was; and so does every
    request to [login], [get_session], [list_classes], [get_class] and
    [get_pending_reviews], whatever it is answered. *)
Theorem only_success_writes :
  forall st rq,
    read_only rq = true \/
    (status (handle st rq) <> 200 /\ status (handle st rq) <> 201) ->
    fst (handle st rq) = st.
Proof.
  intros st rq [Hread|[H200 H201]].
  - destruct rq; try discriminate; unfold_handlers.
    all: split_handler; reflexivity.
  - revert H200 H201. destruct rq; unfold_handlers.
    all: split_handler.
    all: cbn [status fst snd]; intros H200 H201; try reflexivity.
    all: first [now contradiction H200 | now contradiction H201].
Qed.

(** X2. Access control.  Every route but [register] and [login] needs a
    token: without a verified identity each of the other sixteen handlers
    answers 401 before looking at the database or at the body.  On a route
    under [teacher_required] or [student_required] a caller whose identity
    has no account, or an account of the other role, is answered 403 with
    the decorator's message before the handler runs.  Neither writes
    anything.  So a 200 or 201 from a route under a role decorator is only
    ever given to an existing account of the required role. *)
Theorem access_control :
  forall st rq ident,
    token_of rq = Some ident ->
    (ident = None -> handle st rq = (st, jwt_unauthorized)) /\
    (forall role uid,
       required_role rq = Some role -> ident = Some uid ->
       match get_User st uid with
       | Some user => u_role user <> role
       | None => True
       end ->
       handle st rq = (st, role_denied role)) /\
    (forall role,
       required_role rq = Some role ->
       status (handle st rq) = 200 \/ status (handle st rq) = 201 ->
       exists uid user,
         ident = Some uid /\ get_User st uid = Some user /\ u_role user = role).
Proof.
  intros st rq ident Ht. split; [|split].
  - intros ->. destruct rq; cbn [token_of] in Ht; inversion Ht; subst; reflexivity.
  - intros role uid Hr ->.
    destruct rq; cbn [token_of required_role] in *;
      inversion Ht; inversion Hr; subst; clear Ht Hr; intros Hu.
    all: cbn [handle]; unfold create_class, delete_class, join_class, leave_class,
           create_assignment, update_assignment, delete_assignment, create_submission,
           update_submission, delete_submission, grade_submission, create_peer_review,
           get_pending_reviews, teacher_required, student_required.
    all: destruct (get_User st uid) as [user|]; [|reflexivity].
    all: match goal with
         | |- context [String.eqb (u_role ?u) ?r] =>
             destruct (String.eqb_spec (u_role u) r); [contradiction|reflexivity]
         end.
  - intros role Hr.
    destruct rq; cbn [required_role] in Hr; inversion Hr; subst; clear Hr.
    all: cbn [token_of] in Ht; inversion Ht; subst; clear Ht.
    all: cbn [handle]; unfold create_class, delete_class, join_class,
           leave_class, create_assignment, update_assignment, delete_assignment,
           create_submission, update_submission, delete_submission, grade_submission,
           create_peer_review, get_pending_reviews, teacher_required, student_required.
    all: match goal with
         | |- context [match ?i with Some _ => _ | None => (_, jwt_unauthorized) end] =>
             destruct i as [uid|];
               [|cbn [status snd jwt_unauthorized]; intros [H|H]; discriminate H]
         end.
    all: destruct (get_User st uid) as [user|] eqn:Hu;
           [|cbn [status snd err]; intros [H|H]; discriminate H].
    all: match goal with
         | |- context [String.eqb (u_role ?u) ?r] =>
             destruct (String.eqb_spec (u_role u) r) as [E|E];
               [intros _; exists uid, u; split; [reflexivity|split; [exact Hu|exact E]]
               |cbn [negb status snd err]; intros [H|H]; discriminate H]
         end.
Qed.
End AccessControl.

(** * Accounts *)

Lemma chomp_newline_rstrip s : chomp_newline (rstrip s) = None.
Proof.
  induction s as [|c s IH]; [reflexivity|]. cbn [rstrip].
  destruct (rstrip s) as [|c' r'] eqn:E.
  - destruct (is_space c) eqn:Hc; [reflexivity|]. cbn [chomp_newline].
    destruct (Ascii.eqb_spec c "010"%char) as [->|]; [discriminate Hc|reflexivity].
  - cbn [chomp_newline]. cbn [chomp_newline] in IH.
    destruct r' as [|c'' r'']; [|now rewrite IH].
    destruct (Ascii.eqb c' "010"%char); [discriminate IH|reflexivity].
Qed.

Lemma validate_email_stripped e :
  validate_email (lower (strip e)) = true -> email_pattern (lower (strip e)) = true.
Proof.
  unfold validate_email. rewrite <- strip_lower. unfold strip at 2.
  rewrite chomp_newline_rstrip. now rewrite orb_false_r.
Qed.

Lemma users_valid_same st st' : users st' = users st -> users_valid st -> users_valid st'.
Proof. unfold users_valid. now intros ->. Qed.

Lemma users_valid_add st u :
  users_valid st ->
  u_id u = next_id (map u_id (users st)) ->
  u_role u = "teacher" \/ u_role u = "student" ->
  email_pattern (u_email u) = true ->
  users_valid (set_users st (users st ++ [u])).
Proof.
  intros [N V] Hid Hr He. split; simpl.
  - apply NoDup_map_snoc; [assumption|]. intros H. apply next_id_fresh in H. lia.
  - intros x Hx. apply in_app_or in Hx as [Hx|[<-|[]]]; [now apply V|now split].
Qed.

Lemma get_User_append st uid u new :
  get_User st uid = Some u ->
  find (fun x => u_id x =? uid) (users st ++ new) = Some u.
Proof. unfold get_User. intros H. now rewrite find_append, H. Qed.

Section Accounts.
Context {K : Collaborators}.

Lemma handle_users_valid st rq : users_valid st -> users_valid (fst (handle st rq)).
Proof.
  intros Inv. destruct rq; unfold_handlers.
  all: split_handler.
  all: cbn [fst]; try assumption.
  all: try solve [apply (users_valid_same st); auto with cascade].
  apply users_valid_add; [assumption|reflexivity| |]; cbn [u_role u_email].
  - match goal with H : negb (_ || _) = false |- _ =>
      apply negb_false_iff, orb_true_iff in H; destruct H as [H|H];
      apply String.eqb_eq in H; auto end.
  - match goal with H : negb (validate_email _) = false |- _ =>
      apply negb_false_iff in H; now apply validate_email_stripped end.
Qed.

Lemma step_users_valid st ev : users_valid st -> users_valid (step st ev).
Proof.
  intros Inv. destruct ev as [rq|s1 s2 pc now]; [now apply handle_users_valid|].
  simpl. apply seed_cases; [assumption|]. intros _. split.
  - simpl. repeat constructor; simpl; [|tauto]. intros [H|[]]. discriminate H.
  - intros u [<-|[<-|[]]]; split; auto.
Qed.

Lemma handle_users_prefix st rq :
  exists new, users (fst (handle st rq)) = users st ++ new.
Proof.
  destruct rq; unfold_handlers.
  all: split_handler.
  all: cbn [fst].
  all: try solve [exists []; now rewrite app_nil_r].
  all: try solve [eexists; simpl; reflexivity].
  all: try solve [exists []; rewrite app_nil_r; auto with cascade].
Qed.

Lemma step_users_prefix st ev : exists new, users (step st ev) = users st ++ new.
Proof.
  destruct ev as [rq|s1 s2 pc now]; [apply handle_users_prefix|].
  simpl. unfold _seed_data. destruct (users st) as [|u l] eqn:E.
  - eexists. simpl. reflexivity.
  - exists []. now rewrite E, app_nil_r.
Qed.

Lemma step_get_User st ev uid u :
  get_User st uid = Some u -> get_User (step st ev) uid = Some u.
Proof.
  intros H. destruct (step_users_prefix st ev) as [new E].
  unfold get_User at 1. rewrite E. now apply get_User_append.
Qed.

Lemma run_get_User evs st uid u :
  get_User st uid = Some u -> get_User (run st evs) uid = Some u.
Proof.
  revert st. induction evs as [|ev evs IH]; intros st H; [exact H|].
  apply IH, step_get_User, H.
Qed.

Lemma reachable_users_valid st : reachable st -> users_valid st.
Proof.
  apply (reachable_invariant users_valid); [|apply step_users_valid].
  split; [constructor|intros u []].
Qed.

(** X3. Accounts are permanent: no request and no run of the seeding
    script removes or changes a user.  Whatever events follow, an identity
    resolves to the same row, with the same name, email, password hash and
    role, so a token never comes to stand for another account. *)
Theorem accounts_are_permanent :
  forall st evs uid u,
    get_User st uid = Some u ->
    get_User (run st evs) uid = Some u /\ In u (users (run st evs)).
Proof.
  intros st evs uid u H. pose proof (run_get_User evs st uid u H) as H'.
  split; [exact H'|]. now apply get_User_some in H'.
Qed.

(** X4. In every reachable state user ids are pairwise distinct, every
    account has the role teacher or student, and every stored email
    matches the address pattern of [validate_email] up to its very end
    (the newline that [validate_email] tolerates never reaches the
    table). *)
Theorem account_integrity :
  forall st, reachable st ->
    NoDup (map u_id (users st)) /\
    forall u, In u (users st) ->
      (u_role u = "teacher" \/ u_role u = "student") /\
      email_pattern (u_email u) = true /\
      get_User st (u_id u) = Some u.
Proof.
  intros st Hr. destruct (reachable_users_valid st Hr) as [N V].
  split; [exact N|]. intros u Hu. destruct (V u Hu) as [Hrole Hmail].
  repeat split; try assumption.
  destruct (get_User st (u_id u)) as [u'|] eqn:E.
  - apply get_User_some in E as [Hin Hid]. f_equal.
    now apply (NoDup_map_inj u_id (users st)).
  - unfold get_User in E. apply (find_none _ _ E) in Hu.
    rewrite Z.eqb_refl in Hu. discriminate.
Qed.
End Accounts.

(** * Memberships *)

Lemma class_students_after_delete_submission st s :
  class_students (session_delete_Submission st s) = class_students st.
Proof.
  unfold session_delete_Submission; simpl.
  now rewrite (fold_left_preserves session_delete_PeerReview class_students).
Qed.

Lemma class_students_after_delete_assignment st a :
  class_students (session_delete_Assignment st a) = class_students st.
Proof.
  unfold session_delete_Assignment; simpl.
  now rewrite (fold_left_preserves session_delete_Submission class_students
                 class_students_after_delete_submission).
Qed.

Lemma class_students_after_delete st c :
  class_students (session_delete_Class st c)
  = filter (fun e => negb (e_class_id e =? c_id c)) (class_students st).
Proof.
  unfold session_delete_Class; simpl.
  now rewrite (fold_left_preserves session_delete_Assignment class_students
                 class_students_after_delete_assignment).
Qed.

Lemma memberships_wf_same st st' :
  users st' = users st -> classes st' = classes st ->
  class_students st' = class_students st ->
  memberships_wf st -> memberships_wf st'.
Proof.
  unfold memberships_wf, get_User. now intros -> -> ->.
Qed.

Lemma memberships_wf_users st new :
  memberships_wf st -> memberships_wf (set_users st (users st ++ new)).
Proof.
  intros (N & E & O). split; [exact N|]. split.
  - intros e He. destruct (E e He) as [Hc (u & Hu & Hr)]. split; [exact Hc|].
    exists u. split; [|exact Hr]. now apply get_User_append.
  - intros c Hc. destruct (O c Hc) as (u & Hu & Hr).
    exists u. split; [|exact Hr]. now apply get_User_append.
Qed.

Lemma memberships_wf_add_class st c u :
  memberships_wf st ->
  get_User st (c_owner_id c) = Some u -> u_role u = "teacher" ->
  memberships_wf (set_classes st (classes st ++ [c])).
Proof.
  intros (N & E & O) Hu Hr. split; [exact N|]. split.
  - intros e He. destruct (E e He) as [(c' & Hc' & Hid) Hs]. split; [|exact Hs].
    exists c'. split; [simpl; apply in_or_app; now left|exact Hid].
  - intros x Hx. simpl in Hx. apply in_app_or in Hx as [Hx|[<-|[]]]; [now apply O|].
    now exists u.
Qed.

Lemma memberships_wf_delete_class st c :
  memberships_wf st -> memberships_wf (session_delete_Class st c).
Proof.
  intros (N & E & O).
  assert (U : users (session_delete_Class st c) = users st)
    by apply shrinks_users, session_delete_Class_shrinks.
  unfold memberships_wf, get_User.
  rewrite U, class_students_after_delete, classes_after_delete.
  split; [now apply NoDup_map_filter|]. split.
  - intros e He. apply filter_In in He as [He Hne]. apply negb_true_iff in Hne.
    destruct (E e He) as [(c' & Hc' & Hid) Hs]. split; [|exact Hs].
    exists c'. split; [|exact Hid]. apply filter_In. split; [exact Hc'|].
    apply negb_true_iff. lia.
  - intros x Hx. apply filter_In in Hx as [Hx _]. now apply O.
Qed.

Lemma membership_absent st uid cid :
  is_enrolled st uid cid = false ->
  ~ In (cid, uid) (map membership_key (class_students st)).
Proof.
  intros H Hin. apply in_map_iff in Hin as (e & Hk & He).
  unfold membership_key in Hk. inversion Hk; subst.
  assert (is_enrolled st (e_user_id e) (e_class_id e) = true)
    by (apply is_enrolled_true; now exists e).
  congruence.
Qed.

Lemma memberships_wf_join st c u uid now :
  memberships_wf st ->
  get_Class st (c_id c) = Some c \/ In c (classes st) ->
  get_User st uid = Some u -> u_role u = "student" ->
  is_enrolled st uid (c_id c) = false ->
  memberships_wf (set_class_students st
                    (class_students st ++ [mkEnrollment (c_id c) uid now])).
Proof.
  intros (N & E & O) Hc Hu Hr Hen.
  assert (Hin : In c (classes st)).
  { destruct Hc as [Hc|Hc]; [|exact Hc]. now apply get_Class_some in Hc. }
  split; [|split; [|exact O]]; simpl.
  - apply NoDup_map_snoc; [exact N|]. now apply membership_absent.
  - intros e He. apply in_app_or in He as [He|[<-|[]]]; [now apply E|].
    split; [now exists c|now exists u].
Qed.

Lemma memberships_wf_leave st p :
  memberships_wf st ->
  memberships_wf (set_class_students st (filter p (class_students st))).
Proof.
  intros (N & E & O). split; [|split; [|exact O]]; simpl.
  - now apply NoDup_map_filter.
  - intros e He. apply filter_In in He as [He _]. now apply E.
Qed.

Lemma memberships_wf_empty st :
  memberships_wf st -> users st = [] -> classes st = [] /\ class_students st = [].
Proof.
  intros (N & E & O) Hu. split.
  - destruct (classes st) as [|c l]; [reflexivity|].
    destruct (O c (or_introl eq_refl)) as (u & H & _).
    unfold get_User in H. rewrite Hu in H. discriminate.
  - destruct (class_students st) as [|e l]; [reflexivity|].
    destruct (E e (or_introl eq_refl)) as (_ & u & H & _).
    unfold get_User in H. rewrite Hu in H. discriminate.
Qed.

Section Memberships.
Context {K : Collaborators}.

Lemma handle_memberships_wf st rq :
  memberships_wf st -> memberships_wf (fst (handle st rq)).
Proof.
  intros Inv. destruct rq; unfold_handlers.
  all: split_handler.
  all: cbn [fst]; try assumption.
  all: try solve [apply (memberships_wf_same st); [reflexivity ..|assumption]].
  all: try solve [apply (memberships_wf_users st); assumption].
  all: try solve [apply memberships_wf_delete_class; assumption].
  all: try solve [apply memberships_wf_leave; assumption].
  all: try solve [apply (memberships_wf_same st);
                    [auto with cascade
                    |first [apply classes_after_delete_assignment
                           |apply classes_after_delete_submission]
                    |first [apply class_students_after_delete_assignment
                           |apply class_students_after_delete_submission]
                    |assumption]].
  all: try solve [
    eapply memberships_wf_add_class; [assumption|cbn [c_owner_id]; eassumption|];
    match goal with H : negb (String.eqb _ "teacher") = false |- _ =>
      apply negb_false_iff in H; now apply String.eqb_eq in H end].
  all: try solve [
    match goal with
    | Hc : get_Class ?s _ = Some ?c, Hu : get_User ?s ?z = Some ?u,
      Hr : negb (String.eqb (u_role ?u) "student") = false,
      He : user_in_students ?s (Some ?u) ?c = false |- _ =>
        apply negb_false_iff in Hr; apply String.eqb_eq in Hr;
        rewrite (user_in_students_enrolled s z u c Hu) in He;
        pose proof (proj2 (get_Class_some _ _ _ Hc)) as Hid;
        apply (memberships_wf_join s c u z); auto;
        [left; now rewrite Hid]
    end].
Qed.

Lemma step_memberships_wf st ev : memberships_wf st -> memberships_wf (step st ev).
Proof.
  intros Inv. destruct ev as [rq|s1 s2 pc now]; [now apply handle_memberships_wf|].
  simpl. unfold _seed_data. destruct (users st) as [|u0 l] eqn:Hu; [|assumption].
  destruct (memberships_wf_empty st Inv Hu) as [Hc He].
  destruct st as [us cs es asg ss rs]. simpl in Hu, Hc, He. subst us cs es.
  unfold memberships_wf, get_User. cbn.
  split; [repeat constructor; intros []|]. split.
  - intros e [<-|[]]. cbn. split.
    + eexists. split; [left; reflexivity|reflexivity].
    + eexists. split; reflexivity.
  - intros c [<-|[]]. cbn. eexists. split; reflexivity.
Qed.

Lemma reachable_memberships_wf st : reachable st -> memberships_wf st.
Proof.
  apply (reachable_invariant memberships_wf); [|apply step_memberships_wf].
  split; [constructor|]. split; intros x [].
Qed.

(** X5. Memberships stay well formed: in every reachable state there is
    at most one membership row per class and user, every row is the
    membership of an existing account with the role student in an
    existing class, and every class is owned by an existing account with
    the role teacher. *)
Theorem enrolment_integrity :
  forall st, reachable st ->
    NoDup (map membership_key (class_students st)) /\
    (forall e, In e (class_students st) ->
       (exists c, get_Class st (e_class_id e) = Some c) /\
       (exists u, get_User st (e_user_id e) = Some u /\ u_role u = "student")) /\
    (forall c, In c (classes st) ->
       exists u, get_User st (c_owner_id c) = Some u /\ u_role u = "teacher").
Proof.
  intros st Hr. destruct (reachable_memberships_wf st Hr) as (N & E & O).
  split; [exact N|]. split; [|exact O].
  intros e He. destruct (E e He) as [(c & Hc & Hid) Hu]. split; [|exact Hu].
  destruct (get_Class st (e_class_id e)) as [c'|] eqn:Hg; [now exists c'|].
  unfold get_Class in Hg. apply (find_none _ _ Hg) in Hc.
  rewrite Hid, Z.eqb_refl in Hc. discriminate.
Qed.
End Memberships.

(** * Reviews *)







Section Reviews.
Context {K : Collaborators}.




End Reviews.

(** * Primary keys *)

Lemma NoDup_next_id {A} (f : A -> Z) (l : list A) x :
  NoDup (map f l) -> f x = next_id (map f l) -> NoDup (map f (l ++ [x])).
Proof.
  intros N E. apply NoDup_map_snoc; [exact N|].
  intros Hin. apply next_id_fresh in Hin. lia.
Qed.

Lemma keys_wf_same st st' :
  classes st' = classes st -> assignments st' = assignments st ->
  peer_reviews st' = peer_reviews st -> keys_wf st -> keys_wf st'.
Proof. unfold keys_wf. now intros -> -> ->. Qed.

Lemma keys_wf_shrinks st st' : shrinks st st' -> keys_wf st -> keys_wf st'.
Proof.
  intros (_ & C & _ & A & _ & R) (NC & NA & NR).
  repeat split; eapply filtered_NoDup_map; eassumption.
Qed.

Lemma keys_wf_replace_assignment st a' :
  keys_wf st -> keys_wf (replace_assignment st a').
Proof.
  intros (NC & NA & NR). split; [exact NC|]. split; [|exact NR].
  unfold replace_assignment; simpl. rewrite map_map.
  erewrite map_ext; [exact NA|].
  intros x. cbv beta. destruct (Z.eqb_spec (a_id x) (a_id a')); congruence.
Qed.

Section Keys.
Context {K : Collaborators}.

Lemma handle_keys_wf st rq : keys_wf st -> keys_wf (fst (handle st rq)).
Proof.
  intros Inv. destruct rq; unfold_handlers.
  all: split_handler.
  all: cbn [fst]; try assumption.
  all: try solve [apply (keys_wf_same st); [reflexivity ..|assumption]].
  all: try solve [apply keys_wf_shrinks with st; auto with cascade].
  all: try solve [apply keys_wf_replace_assignment; assumption].
  all: destruct Inv as (NC & NA & NR); repeat split; simpl; try assumption.
  all: apply NoDup_next_id; [assumption|reflexivity].
Qed.

Lemma step_keys_wf st ev : keys_wf st -> keys_wf (step st ev).
Proof.
  intros Inv. destruct ev as [rq|s1 s2 pc now]; [now apply handle_keys_wf|].
  simpl. apply seed_cases; [assumption|]. intros _.
  destruct Inv as (NC & NA & NR). repeat split; simpl; try assumption.
  all: apply NoDup_next_id; [assumption|reflexivity].
Qed.

Lemma reachable_keys_wf st : reachable st -> keys_wf st.
Proof.
  apply (reachable_invariant keys_wf); [|apply step_keys_wf].
  repeat split; constructor.
Qed.
End Keys.

(** * Writing a review *)

Lemma is_pending_iff st uid sid :
  is_pending st uid sid <->
  exists c a s,
    In c (classes st) /\ is_enrolled st uid (c_id c) = true /\
    In a (assignments st) /\ a_class_id a = c_id c /\
    In s (submissions st) /\ s_assignment_id s = a_id a /\ s_id s = sid /\
    s_student_id s <> uid /\ has_reviewed st uid sid = false.
Proof.
  unfold is_pending. split.
  - intros (c & a & s & Hin & <-). apply pending_triples_In in Hin
      as (Hc & He & Ha & Hac & Hs & Hsa & Hne & Hnr).
    exists c, a, s. repeat (split; [assumption || reflexivity|]).
    apply not_true_is_false. intros Hr. apply has_reviewed_true in Hr. now apply Hnr.
  - intros (c & a & s & Hc & He & Ha & Hac & Hs & Hsa & <- & Hne & Hnr).
    exists c, a, s. split; [|reflexivity]. apply pending_triples_In.
    repeat (split; [assumption|]). intros Hr. apply has_reviewed_true in Hr. congruence.
Qed.

Section ReviewOnce.
Context {K : Collaborators}.

(** What a 201 of [create_peer_review] tells about the request and the
    state. *)
Lemma create_peer_review_created st ident cid aid sid body now :
  status (create_peer_review st ident cid aid sid body now) = 201 ->
  exists uid user cls s a data content,
    ident = Some uid /\ body = Some data /\
    get_User st uid = Some user /\ u_role user = "student" /\
    get_Class st cid = Some cls /\ user_in_students st (Some user) cls = true /\
    get_Submission st sid = Some s /\ s_assignment_id s = aid /\
    get_Assignment st aid = Some a /\ a_class_id a = cid /\
    s_student_id s <> uid /\ find_review st uid sid = None /\
    dict_get data "content" = Some (VStr content) /\
    create_peer_review st ident cid aid sid body now
    = (set_peer_reviews st (peer_reviews st ++ [new_review st uid sid (strip content) now]),
       (JObj [("message", JStr "Peer review submitted");
              ("peerReview",
               PeerReview_to_dict
                 (set_peer_reviews st
                    (peer_reviews st ++ [new_review st uid sid (strip content) now]))
                 (new_review st uid sid (strip content) now))], 201)).
Proof.
  unfold_handlers. unfold Submission_assignment. split_handler.
  all: cbn [status fst snd]; intros H; try discriminate H.
  repeat match goal with
  | H : negb _ = false |- _ => apply negb_false_iff in H
  | H : (_ =? _) = true |- _ => apply Z.eqb_eq in H
  | H : (_ =? _) = false |- _ => apply Z.eqb_neq in H
  | H : String.eqb _ _ = true |- _ => apply String.eqb_eq in H
  end.
  subst. do 7 eexists.
  repeat (split; [first [reflexivity|eassumption]|]).
  reflexivity.
Qed.

(** When the checks before the insertion pass and a review by the caller
    exists, the answer is the 409. *)
Lemma create_peer_review_again st uid user cls s a r cid aid sid data now :
  get_User st uid = Some user -> u_role user = "student" ->
  get_Class st cid = Some cls -> user_in_students st (Some user) cls = true ->
  get_Submission st sid = Some s -> s_assignment_id s = aid ->
  get_Assignment st aid = Some a -> a_class_id a = cid ->
  s_student_id s <> uid -> find_review st uid sid = Some r ->
  dict_has data "content" = true ->
  create_peer_review st (Some uid) cid aid sid (Some data) now
  = (st, err "You have already reviewed this submission" 409).
Proof.
  intros Hu Hrole Hc Hen Hs Hsa Ha Hac Hne Hr Hd.
  unfold create_peer_review.
  rewrite (student_required_pass st uid user _ Hu Hrole).
  rewrite validate_json_pass
    by (first [now apply dict_has_nonempty with "content"
              |cbn [forallb]; now rewrite Hd]).
  cbv zeta. rewrite Hu, Hc, Hen.
  rewrite (submission_in_chain_found st cid aid sid s a Hs Hsa Ha Hac).
  cbn [negb bind handle_db_errors].
  apply Z.eqb_neq in Hne. now rewrite Hne, Hr.
Qed.
End ReviewOnce.

(** * Lookups by primary key *)

Lemma find_by_key {A} (f : A -> Z) (l : list A) x :
  NoDup (map f l) -> In x l -> find (fun y => f y =? f x) l = Some x.
Proof.
  intros N Hx. destruct (find (fun y => f y =? f x) l) as [y|] eqn:E.
  - apply find_some in E as [Hy Hk]. apply Z.eqb_eq in Hk.
    f_equal. now apply (NoDup_map_inj f l).
  - apply (find_none _ _ E) in Hx. rewrite Z.eqb_refl in Hx. discriminate.
Qed.

Section Reviewing.
Context {K : Collaborators}.

(** The checks of [create_peer_review] passed, no review yet. *)
Lemma create_peer_review_first st uid user cls s a cid aid sid data content now :
  get_User st uid = Some user -> u_role user = "student" ->
  get_Class st cid = Some cls -> user_in_students st (Some user) cls = true ->
  get_Submission st sid = Some s -> s_assignment_id s = aid ->
  get_Assignment st aid = Some a -> a_class_id a = cid ->
  s_student_id s <> uid -> find_review st uid sid = None ->
  dict_get data "content" = Some (VStr content) ->
  status (create_peer_review st (Some uid) cid aid sid (Some data) now) = 201.
Proof.
  intros Hu Hrole Hc Hen Hs Hsa Ha Hac Hne Hr Hd.
  pose proof (dict_get_has _ _ _ Hd) as Hh.
  unfold create_peer_review.
  rewrite (student_required_pass st uid user _ Hu Hrole).
  rewrite validate_json_pass
    by (first [now apply dict_has_nonempty with "content"
              |cbn [forallb]; now rewrite Hh]).
  cbv zeta. rewrite Hu, Hc, Hen.
  rewrite (submission_in_chain_found st cid aid sid s a Hs Hsa Ha Hac).
  cbn [negb bind handle_db_errors].
  apply Z.eqb_neq in Hne. rewrite Hne, Hr.
  rewrite (dict_item_get _ _ _ Hd). reflexivity.
Qed.

(** X7. A second review of the same submission by the same student is
    refused: once [create_peer_review] has answered 201, the same request
    with any body that has a [content] and at any time is answered 409 and
    writes nothing. *)
Theorem review_only_once :
  forall st ident cid aid sid body now,
    status (create_peer_review st ident cid aid sid body now) = 201 ->
    forall data' now', dict_has data' "content" = true ->
      create_peer_review (fst (create_peer_review st ident cid aid sid body now))
                         ident cid aid sid (Some data') now'
      = (fst (create_peer_review st ident cid aid sid body now),
         err "You have already reviewed this submission" 409).
Proof.
  intros st ident cid aid sid body now H data' now' Hd.
  destruct (create_peer_review_created _ _ _ _ _ _ _ H)
    as (uid & user & cls & s & a & data & content & -> & -> & Hu & Hrole & Hc & Hen
        & Hs & Hsa & Ha & Hac & Hne & Hr & Hcontent & ->).
  cbn [fst].
  eapply create_peer_review_again with (user := user) (cls := cls) (s := s) (a := a);
    try eassumption.
  unfold find_review in *. cbn [peer_reviews set_peer_reviews].
  rewrite find_append, Hr. cbn. rewrite !Z.eqb_refl. reflexivity.
Qed.

(** X8. Reviews are written from the pending list: a 201 of
    [create_peer_review] is only given for a submission that
    [get_pending_reviews] offers to the caller, and in the state after it
    the submission is no longer offered to the caller. *)
Theorem review_consumes_pending :
  forall st uid cid aid sid body now,
    status (create_peer_review st (Some uid) cid aid sid body now) = 201 ->
    is_pending st uid sid /\
    ~ is_pending (fst (create_peer_review st (Some uid) cid aid sid body now)) uid sid.
Proof.
  intros st uid0 cid aid sid body now H.
  destruct (create_peer_review_created _ _ _ _ _ _ _ H)
    as (uid & user & cls & s & a & data & content & Hi & -> & Hu & Hrole & Hc & Hen
        & Hs & Hsa & Ha & Hac & Hne & Hr & Hcontent & ->).
  inversion Hi; subst uid0. clear Hi. cbn [fst]. split.
  - apply is_pending_iff.
    rewrite (user_in_students_enrolled st uid user cls Hu) in Hen.
    apply get_Class_some in Hc as [Hc Hcid].
    apply get_Assignment_some in Ha as [Ha Haid].
    apply get_Submission_some in Hs as [Hs Hsid].
    exists cls, a, s. rewrite Hcid.
    repeat (split; [first [assumption|congruence]|]).
    rewrite find_review_has_reviewed. now rewrite Hr.
  - intros Hp. apply is_pending_iff in Hp
      as (c' & a' & s' & _ & _ & _ & _ & _ & _ & _ & _ & Hnr).
    assert (Hyes : has_reviewed
              (set_peer_reviews st
                 (peer_reviews st ++ [new_review st uid sid (strip content) now]))
              uid sid = true).
    { apply has_reviewed_true. exists (new_review st uid sid (strip content) now).
      split; [|split; reflexivity]. cbn. apply in_or_app. right. now left. }
    congruence.
Qed.

(** X9. Every entry of the pending list can be acted upon: in a reachable
    state a student who is offered a submission gets a 201 from
    [create_peer_review] on the class, assignment and submission of the
    entry, whatever the string sent as [content]. *)
Theorem pending_entry_reviewable :
  forall st uid user c a s data content now,
    reachable st ->
    get_User st uid = Some user -> u_role user = "student" ->
    In (c, a, s) (pending_triples st uid) ->
    dict_get data "content" = Some (VStr content) ->
    status (create_peer_review st (Some uid) (c_id c) (a_id a) (s_id s) (Some data) now)
    = 201.
Proof.
  intros st uid user c a s data content now Hreach Hu Hrole Hin Hd.
  destruct (reachable_keys_wf st Hreach) as (NC & NA & _).
  assert (NS : submissions_wf st).
  { apply (reachable_invariant submissions_wf);
      [split; constructor|apply step_submissions_wf|exact Hreach]. }
  destruct NS as [NS _].
  apply pending_triples_In in Hin as (Hc & He & Ha & Hac & Hs & Hsa & Hne & Hnr).
  eapply create_peer_review_first with (user := user) (cls := c) (s := s) (a := a);
    try eassumption.
  - now apply (find_by_key c_id).
  - now rewrite (user_in_students_enrolled st uid user c Hu).
  - now apply (find_by_key s_id).
  - unfold get_Assignment. now apply (find_by_key a_id).
  - destruct (find_review st uid (s_id s)) as [r|] eqn:E; [|reflexivity].
    exfalso. apply Hnr. apply has_reviewed_true.
    rewrite find_review_has_reviewed. now rewrite E.
Qed.
End Reviewing.

(** * Round trips *)

Lemma filter_all {A} (p : A -> bool) (l : list A) :
  (forall x, In x l -> p x = true) -> filter p l = l.
Proof.
  induction l as [|x l IH]; intros H; [reflexivity|]. simpl.
  rewrite (H x (or_introl eq_refl)). f_equal. apply IH. intros y Hy. apply H. now right.
Qed.

Lemma filter_nothing {A} (p : A -> bool) (l : list A) :
  (forall x, In x l -> p x = false) -> filter p l = [].
Proof.
  induction l as [|x l IH]; intros H; [reflexivity|]. simpl.
  rewrite (H x (or_introl eq_refl)). apply IH. intros y Hy. apply H. now right.
Qed.

Lemma set_class_students_back st l :
  set_class_students (set_class_students st l) (class_students st) = st.
Proof. now destruct st. Qed.

Lemma set_submissions_back st l :
  set_submissions (set_submissions st l) (submissions st) = st.
Proof. now destruct st. Qed.

Lemma get_Submission_fresh st s :
  s_id s = next_id (map s_id (submissions st)) ->
  get_Submission (set_submissions st (submissions st ++ [s])) (s_id s) = Some s.
Proof.
  intros Hid. unfold get_Submission. cbn [submissions set_submissions].
  rewrite find_append.
  destruct (find (fun x => s_id x =? s_id s) (submissions st)) as [y|] eqn:E.
  - apply find_some in E as [Hy Hk]. apply (in_map s_id) in Hy.
    apply next_id_fresh in Hy. lia.
  - cbn. now rewrite Z.eqb_refl.
Qed.

Section RoundTrips.
Context {K : Collaborators}.

(** What a 200 of [join_class] tells. *)
Lemma join_class_joined st ident body now :
  status (join_class st ident body now) = 200 ->
  exists uid user data cid cls,
    ident = Some uid /\ body = Some data /\
    get_User st uid = Some user /\ u_role user = "student" /\
    dict_get data "classId" = Some (VInt cid) /\
    get_Class st cid = Some cls /\
    user_in_students st (Some user) cls = false /\
    fst (join_class st ident body now)
    = set_class_students st (class_students st ++ [mkEnrollment (c_id cls) uid now]).
Proof.
  unfold_handlers. split_handler.
  all: cbn [status fst snd]; intros H; try discriminate H.
  repeat match goal with
  | H : negb _ = false |- _ => apply negb_false_iff in H
  | H : String.eqb (u_role _) _ = true |- _ => apply String.eqb_eq in H
  end.
  do 5 eexists.
  repeat (split; [first [reflexivity|eassumption]|]).
  reflexivity.
Qed.

(** X10. Leaving undoes joining: when [join_class] has answered 200, a
    [leave_class] of the same student on the same class is answered 200
    and gives back the database as it was before the student joined. *)
Theorem join_then_leave :
  forall st ident data cid now,
    status (join_class st ident (Some data) now) = 200 ->
    dict_get data "classId" = Some (VInt cid) ->
    leave_class (fst (join_class st ident (Some data) now)) ident cid
    = (st, (JObj [("message", JStr "Left class successfully")], 200)).
Proof.
  intros st ident data cid now H Hcid.
  destruct (join_class_joined _ _ _ _ H)
    as (uid & user & data' & cid' & cls & -> & Hb & Hu & Hrole & Hcid' & Hc & Hen & ->).
  inversion Hb; subst data'. rewrite Hcid in Hcid'. inversion Hcid'; subst cid'.
  pose proof (proj2 (get_Class_some _ _ _ Hc)) as Hid.
  set (e := mkEnrollment (c_id cls) uid now).
  set (st' := set_class_students st (class_students st ++ [e])).
  assert (Hu' : get_User st' uid = Some user) by exact Hu.
  assert (Hc' : get_Class st' cid = Some cls) by exact Hc.
  rewrite (user_in_students_enrolled st uid user cls Hu) in Hen.
  assert (Hen' : is_enrolled st' uid (c_id cls) = true).
  { unfold st'. rewrite is_enrolled_app. unfold e. cbn [e_class_id e_user_id].
    rewrite !Z.eqb_refl. apply orb_true_r. }
  unfold leave_class. rewrite (student_required_pass st' uid user _ Hu' Hrole).
  cbv zeta. rewrite Hu', Hc'.
  rewrite (user_in_students_enrolled st' uid user cls Hu'), Hen'.
  cbn [negb handle_db_errors].
  f_equal. unfold st', e. cbn [class_students set_class_students].
  rewrite filter_app. cbn [filter e_class_id e_user_id].
  rewrite !Z.eqb_refl. cbn [andb negb]. rewrite app_nil_r.
  rewrite filter_all; [apply set_class_students_back|].
  intros x Hx. apply negb_true_iff. apply not_true_is_false. intros Hb'.
  unfold is_enrolled in Hen.
  assert (existsb (fun e => (e_class_id e =? c_id cls) && (e_user_id e =? uid))%bool
                  (class_students st) = true); [|congruence].
  apply existsb_exists. exists x. split; [assumption|exact Hb'].
Qed.

(** What a 201 of [create_submission] tells. *)
Lemma create_submission_created st ident cid aid body now :
  status (create_submission st ident cid aid body now) = 201 ->
  exists uid user cls a content,
    ident = Some uid /\
    get_User st uid = Some user /\ u_role user = "student" /\
    get_Class st cid = Some cls /\ user_in_students st (Some user) cls = true /\
    get_Assignment st aid = Some a /\ a_class_id a = cid /\
    find_submission st uid aid = None /\
    fst (create_submission st ident cid aid body now)
    = set_submissions st (submissions st ++ [new_submission st uid aid body content now]).
Proof.
  unfold_handlers. split_handler.
  all: cbn [status fst snd]; intros H; try discriminate H.
  all: repeat match goal with
  | H : negb _ = false |- _ => apply negb_false_iff in H
  | H : (_ =? _) = true |- _ => apply Z.eqb_eq in H
  | H : String.eqb (u_role _) _ = true |- _ => apply String.eqb_eq in H
  end.
  all: do 5 eexists.
  all: repeat (split; [first [reflexivity|eassumption]|]).
  all: reflexivity.
Qed.

(** X11. Withdrawing undoes submitting: in a database without orphaned rows,
    when [create_submission] has answered 201, a [delete_submission] of
    the new submission by the same student is answered 200 and gives back
    the database as it was before. *)
Theorem submit_then_withdraw :
  forall st ident cid aid data now,
    no_orphans st ->
    status (create_submission st ident cid aid (Some data) now) = 201 ->
    delete_submission (fst (create_submission st ident cid aid (Some data) now))
                      ident cid aid (next_id (map s_id (submissions st)))
    = (st, (JObj [("message", JStr "Submission withdrawn")], 200)).
Proof.
  intros st ident cid aid data now (_ & _ & OR) H.
  set (body := Some data) in *.
  destruct (create_submission_created _ _ _ _ _ _ H)
    as (uid & user & cls & a & content & -> & Hu & Hrole & Hc & Hen & Ha & Hac & Hnone
        & ->).
  set (s := new_submission st uid aid body content now).
  assert (Hid : s_id s = next_id (map s_id (submissions st))) by reflexivity.
  assert (Hst : s_student_id s = uid) by reflexivity.
  assert (Hsa : s_assignment_id s = aid) by reflexivity.
  clearbody s.
  set (st' := set_submissions st (submissions st ++ [s])).
  assert (Hu' : get_User st' uid = Some user) by exact Hu.
  assert (Ha' : get_Assignment st' aid = Some a) by exact Ha.
  assert (Hs' : get_Submission st' (s_id s) = Some s) by now apply get_Submission_fresh.
  rewrite <- Hid.
  unfold delete_submission. rewrite (student_required_pass st' uid user _ Hu' Hrole).
  rewrite (submission_in_chain_found st' cid aid (s_id s) s a Hs' Hsa Ha' Hac).
  cbn [bind]. rewrite Hst, Z.eqb_refl. cbn [negb handle_db_errors]. f_equal.
  unfold session_delete_Submission, Submission_peer_reviews.
  rewrite (filter_nothing _ (peer_reviews st')).
  - cbn [fold_left]. unfold st'. cbn [submissions set_submissions].
    rewrite filter_app. cbn [filter]. rewrite Z.eqb_refl. cbn [negb]. rewrite app_nil_r.
    rewrite filter_all; [apply set_submissions_back|].
    intros x Hx. apply negb_true_iff, Z.eqb_neq.
    apply (in_map s_id) in Hx. apply next_id_fresh in Hx. lia.
  - intros r Hr. apply Z.eqb_neq. destruct (OR r Hr) as (y & Hy & Hyid).
    apply (in_map s_id) in Hy. apply next_id_fresh in Hy. lia.
Qed.
End RoundTrips.

(** * Withdrawing a submission, deleting an assignment *)

Lemma peer_reviews_after_delete_reviews l st :
  peer_reviews (fold_left session_delete_PeerReview l st)
  = filter (fun x => negb (existsb (fun r => r_id x =? r_id r) l)) (peer_reviews st).
Proof.
  revert st. induction l as [|r l IH]; intros st; cbn [fold_left existsb].
  - symmetry. apply filter_all. reflexivity.
  - rewrite IH. unfold session_delete_PeerReview. cbn [peer_reviews set_peer_reviews].
    rewrite filter_filter. apply filter_ext. intros x.
    now rewrite negb_orb.
Qed.

(** With review ids as keys, the reviews deleted with a submission are
    the reviews of that submission. *)
Lemma peer_reviews_after_delete_submission st s :
  NoDup (map r_id (peer_reviews st)) ->
  peer_reviews (session_delete_Submission st s)
  = filter (fun r => negb (r_submission_id r =? s_id s)) (peer_reviews st).
Proof.
  intros N. unfold session_delete_Submission. cbn [peer_reviews set_submissions].
  rewrite peer_reviews_after_delete_reviews. apply filter_ext_in. intros x Hx.
  f_equal. unfold Submission_peer_reviews.
  destruct (r_submission_id x =? s_id s) eqn:E.
  - apply existsb_exists. exists x. split; [|apply Z.eqb_refl].
    apply filter_In. now split.
  - apply not_true_is_false. intros Hex.
    apply existsb_exists in Hex as (r & Hr & Hk). apply filter_In in Hr as [Hr Hrs].
    apply Z.eqb_eq in Hk.
    assert (x = r) by now apply (NoDup_map_inj r_id (peer_reviews st)).
    subst r. congruence.
Qed.

Section Deleting.
Context {K : Collaborators}.

(** What a 200 of [delete_submission] tells. *)
Lemma delete_submission_deleted st ident cid aid sid :
  status (delete_submission st ident cid aid sid) = 200 ->
  exists s, get_Submission st sid = Some s /\ ident = Some (s_student_id s) /\
            fst (delete_submission st ident cid aid sid) = session_delete_Submission st s.
Proof.
  unfold_handlers. split_handler.
  all: cbn [status fst snd]; intros H; try discriminate H.
  eexists. split; [reflexivity|]. split; [|reflexivity].
  match goal with H : negb (_ =? _) = false |- _ =>
    apply negb_false_iff, Z.eqb_eq in H; now rewrite H end.
Qed.

(** X12. [delete_submission] by a student on a submission that lies in the
    class and assignment of the URL: any student but the author gets 403
    and nothing is written.  The author gets 200; the submission is removed
    together with the peer reviews written for it, and with them only:
    users, classes, memberships and assignments are the same, the other
    submissions are kept in their order and, review ids being keys, so are
    the reviews of other submissions.  An unknown submission id gives 404
    without a write, and a 200 is only ever given to the author. *)
Theorem delete_submission_spec :
  forall st uid user cid aid sid,
    get_User st uid = Some user -> u_role user = "student" ->
    (get_Submission st sid = None ->
       delete_submission st (Some uid) cid aid sid
       = (st, err "Submission not found" 404)) /\
    (forall s a,
       get_Submission st sid = Some s -> s_assignment_id s = aid ->
       get_Assignment st aid = Some a -> a_class_id a = cid ->
       (s_student_id s <> uid ->
          delete_submission st (Some uid) cid aid sid
          = (st, err "Cannot withdraw another student's submission" 403)) /\
       (s_student_id s = uid ->
          let st' := fst (delete_submission st (Some uid) cid aid sid) in
          snd (delete_submission st (Some uid) cid aid sid)
          = (JObj [("message", JStr "Submission withdrawn")], 200) /\
          users st' = users st /\ classes st' = classes st /\
          class_students st' = class_students st /\
          assignments st' = assignments st /\
          submissions st' = filter (fun x => negb (s_id x =? sid)) (submissions st) /\
          get_Submission st' sid = None /\
          (forall r, In r (peer_reviews st') -> r_submission_id r <> sid) /\
          incl (peer_reviews st') (peer_reviews st) /\
          (NoDup (map r_id (peer_reviews st)) ->
             peer_reviews st'
             = filter (fun r => negb (r_submission_id r =? sid)) (peer_reviews st)))) /\
    (forall ident, status (delete_submission st ident cid aid sid) = 200 ->
       exists s, get_Submission st sid = Some s /\ ident = Some (s_student_id s)).
Proof.
  intros st uid user cid aid sid Hu Hrole. split; [|split].
  - intros Hs. unfold delete_submission, submission_in_chain.
    rewrite (student_required_pass st uid user _ Hu Hrole), Hs. reflexivity.
  - intros s a Hs Hsa Ha Hac.
    pose proof (proj2 (get_Submission_some _ _ _ Hs)) as Hsid.
    unfold delete_submission.
    rewrite (student_required_pass st uid user _ Hu Hrole).
    rewrite (submission_in_chain_found st cid aid sid s a Hs Hsa Ha Hac).
    cbn [bind]. split.
    + intros Hne. apply Z.eqb_neq in Hne. now rewrite Hne.
    + intros He. rewrite He, Z.eqb_refl. cbn [negb handle_db_errors fst snd].
      split; [reflexivity|].
      split; [apply shrinks_users, session_delete_Submission_shrinks|].
      split; [apply classes_after_delete_submission|].
      split; [apply class_students_after_delete_submission|].
      split; [apply assignments_after_delete_submission|].
      rewrite <- Hsid.
      split; [apply submissions_after_delete|].
      split.
      { unfold get_Submission. rewrite submissions_after_delete.
        apply find_none_iff. intros x Hx. apply filter_In in Hx as [_ Hx].
        now apply negb_true_iff in Hx. }
      split; [apply (proj2 (session_delete_Submission_gone st s))|].
      split.
      { apply filtered_incl.
        now destruct (session_delete_Submission_shrinks st s) as (_ & _ & _ & _ & _ & R). }
      apply peer_reviews_after_delete_submission.
  - intros ident H. destruct (delete_submission_deleted _ _ _ _ _ H) as (s & Hs & Hi & _).
    now exists s.
Qed.

(** What a 200 of [delete_assignment] tells. *)
Lemma delete_assignment_deleted st ident cid aid :
  status (delete_assignment st ident cid aid) = 200 ->
  exists cls a, get_Class st cid = Some cls /\ ident = Some (c_owner_id cls) /\
                get_Assignment st aid = Some a /\ a_class_id a = cid.
Proof.
  unfold_handlers. unfold owned_class. split_handler.
  all: cbn [status fst snd]; intros H; try discriminate H.
  all: try match goal with H : negb false = false |- _ => discriminate H end.
  do 2 eexists. split; [reflexivity|].
  repeat match goal with
  | H : negb _ = false |- _ => apply negb_false_iff in H
  | H : (_ =? _) = true |- _ => apply Z.eqb_eq in H
  end.
  split; [congruence|]. split; [reflexivity|assumption].
Qed.

(** X13. [delete_assignment] by a teacher: 403 when the class of the URL is
    not the teacher's own, also when there is no such class; 404 when the
    assignment is unknown or belongs to another class; all without a
    write.  Otherwise the answer is 200: the assignment, its submissions
    and the reviews of those submissions are gone, rows are only removed,
    users, classes and memberships are the same, the other assignments
    are kept in their order, and a database without orphaned rows stays
    without them.  A 200 is only ever given to the owner of the class the
    assignment belongs to. *)
Theorem delete_assignment_spec :
  forall st uid user cid aid,
    get_User st uid = Some user -> u_role user = "teacher" ->
    (owned_class st cid uid = false ->
       delete_assignment st (Some uid) cid aid = (st, err "Access denied" 403)) /\
    (owned_class st cid uid = true ->
       (get_Assignment st aid = None ->
          delete_assignment st (Some uid) cid aid
          = (st, err "Assignment not found" 404)) /\
       (forall a, get_Assignment st aid = Some a ->
          (a_class_id a <> cid ->
             delete_assignment st (Some uid) cid aid
             = (st, err "Assignment not found" 404)) /\
          (a_class_id a = cid ->
             let st' := fst (delete_assignment st (Some uid) cid aid) in
             snd (delete_assignment st (Some uid) cid aid)
             = (JObj [("message", JStr "Assignment deleted")], 200) /\
             assignment_gone a st st' /\
             get_Assignment st' aid = None /\
             cascades st st' /\
             users st' = users st /\ classes st' = classes st /\
             class_students st' = class_students st /\
             assignments st' = filter (fun x => negb (a_id x =? aid)) (assignments st) /\
             (no_orphans st -> no_orphans st')))) /\
    (forall ident, status (delete_assignment st ident cid aid) = 200 ->
       exists cls a, get_Class st cid = Some cls /\ ident = Some (c_owner_id cls) /\
                     get_Assignment st aid = Some a /\ a_class_id a = cid).
Proof.
  intros st uid user cid aid Hu Hrole. split; [|split].
  - intros Hown. unfold delete_assignment.
    rewrite (teacher_required_pass st uid user _ Hu Hrole), Hown. reflexivity.
  - intros Hown. unfold delete_assignment.
    rewrite (teacher_required_pass st uid user _ Hu Hrole), Hown. cbn [negb]. split.
    + intros Ha. now rewrite Ha.
    + intros a Ha. rewrite Ha.
      pose proof (proj2 (get_Assignment_some _ _ _ Ha)) as Haid. split.
      * intros Hne. apply Z.eqb_neq in Hne. now rewrite Hne.
      * intros He. rewrite He, Z.eqb_refl. cbn [negb handle_db_errors fst snd].
        split; [reflexivity|].
        split; [apply session_delete_Assignment_gone|].
        rewrite <- Haid.
        split.
        { unfold get_Assignment. rewrite assignments_after_delete.
          apply find_none_iff. intros x Hx. apply filter_In in Hx as [_ Hx].
          now apply negb_true_iff in Hx. }
        split; [apply session_delete_Assignment_cascades|].
        split; [apply shrinks_users, cascades_shrinks,
                  session_delete_Assignment_cascades|].
        split; [apply classes_after_delete_assignment|].
        split; [apply class_students_after_delete_assignment|].
        split; [apply assignments_after_delete|].
        apply cascades_no_orphans, session_delete_Assignment_cascades.
  - intros ident. apply delete_assignment_deleted.
Qed.
End Deleting.

(** * Editing *)

Lemma get_Submission_replace_other st s sid :
  sid <> s_id s ->
  get_Submission (replace_submission st s) sid = get_Submission st sid.
Proof.
  intros Hne. unfold get_Submission, replace_submission; simpl.
  induction (submissions st) as [|x l IH]; simpl; [reflexivity|].
  destruct (Z.eqb_spec (s_id x) (s_id s)) as [E|E].
  - destruct (Z.eqb_spec (s_id s) sid); [congruence|].
    destruct (Z.eqb_spec (s_id x) sid); [congruence|]. exact IH.
  - destruct (Z.eqb_spec (s_id x) sid); [reflexivity|exact IH].
Qed.

Lemma get_Assignment_replace st a0 a :
  get_Assignment st (a_id a) = Some a0 ->
  get_Assignment (replace_assignment st a) (a_id a) = Some a.
Proof.
  unfold get_Assignment, replace_assignment; simpl.
  induction (assignments st) as [|x l IH]; simpl; [discriminate|].
  destruct (Z.eqb_spec (a_id x) (a_id a)) as [E|E].
  - intros _. now rewrite Z.eqb_refl.
  - destruct (Z.eqb_spec (a_id x) (a_id a)); [contradiction|]. exact IH.
Qed.

Lemma get_Assignment_replace_other st a aid :
  aid <> a_id a ->
  get_Assignment (replace_assignment st a) aid = get_Assignment st aid.
Proof.
  intros Hne. unfold get_Assignment, replace_assignment; simpl.
  induction (assignments st) as [|x l IH]; simpl; [reflexivity|].
  destruct (Z.eqb_spec (a_id x) (a_id a)) as [E|E].
  - destruct (Z.eqb_spec (a_id a) aid); [congruence|].
    destruct (Z.eqb_spec (a_id x) aid); [congruence|]. exact IH.
  - destruct (Z.eqb_spec (a_id x) aid); [reflexivity|exact IH].
Qed.

Lemma get_Submission_replaced st sid s s' :
  get_Submission st sid = Some s -> s_id s' = sid ->
  get_Submission (replace_submission st s') sid = Some s'.
Proof. intros Hs <-. eapply get_Submission_replace. exact Hs. Qed.

Lemma get_Assignment_replaced st aid a a' :
  get_Assignment st aid = Some a -> a_id a' = aid ->
  get_Assignment (replace_assignment st a') aid = Some a'.
Proof. intros Ha <-. eapply get_Assignment_replace. exact Ha. Qed.

(** Writing a row back unchanged changes nothing when ids are keys. *)
Lemma replace_assignment_same st a :
  NoDup (map a_id (assignments st)) -> In a (assignments st) ->
  replace_assignment st a = st.
Proof.
  intros N Hin. unfold replace_assignment.
  replace (map (fun x => if a_id x =? a_id a then a else x) (assignments st))
    with (assignments st); [now destruct st|].
  symmetry. rewrite <- (map_id (assignments st)) at 2.
  apply map_ext_in. intros x Hx.
  destruct (Z.eqb_spec (a_id x) (a_id a)) as [E|E]; [|reflexivity].
  symmetry. now apply (NoDup_map_inj a_id (assignments st)).
Qed.

Section Editing.
Context {K : Collaborators}.

(** What a 200 of [update_submission] tells. *)
Lemma update_submission_updated st ident cid aid sid body now :
  status (update_submission st ident cid aid sid body now) = 200 ->
  exists s, get_Submission st sid = Some s /\ ident = Some (s_student_id s).
Proof.
  unfold_handlers. split_handler.
  all: cbn [status fst snd]; intros H; try discriminate H.
  all: eexists; split; [reflexivity|].
  all: match goal with H : negb (_ =? _) = false |- _ =>
         apply negb_false_iff, Z.eqb_eq in H; now rewrite H end.
Qed.

(** X14. [update_submission] by a student on a submission that lies in the
    class and assignment of the URL, with a JSON body whose [content] is
    absent or a string.  Any student but the author gets 403 and nothing
    is written.  For the author the answer is 200 and the stored
    submission keeps its id, author, assignment, grade, feedback and
    grading time, also when it has been graded already; [submitted_at]
    becomes the clock value; [content], [fileName] and [fileSize] change
    only when their key is in the body.  Every other submission and every
    other table is as before, and a 200 is only ever given to the
    author. *)
Theorem update_submission_spec :
  forall st uid user cid aid sid s a data now,
    get_User st uid = Some user -> u_role user = "student" ->
    get_Submission st sid = Some s -> s_assignment_id s = aid ->
    get_Assignment st aid = Some a -> a_class_id a = cid ->
    absent_or_string data "content" = true ->
    let r := update_submission st (Some uid) cid aid sid (Some data) now in
    (s_student_id s <> uid ->
       r = (st, err "Cannot edit another student's submission" 403)) /\
    (s_student_id s = uid ->
       status r = 200 /\
       (exists s',
          get_Submission (fst r) sid = Some s' /\
          s_id s' = s_id s /\ s_student_id s' = s_student_id s /\
          s_assignment_id s' = s_assignment_id s /\
          s_grade s' = s_grade s /\ s_feedback s' = s_feedback s /\
          s_graded_at s' = s_graded_at s /\
          s_submitted_at s' = now /\
          s_content s' = updated data "content" stored_text (s_content s) /\
          s_file_name s' = updated data "fileName" (fun v => v) (s_file_name s) /\
          s_file_size s' = updated data "fileSize" (fun v => v) (s_file_size s)) /\
       (forall sid', sid' <> sid ->
          get_Submission (fst r) sid' = get_Submission st sid') /\
       List.length (submissions (fst r)) = List.length (submissions st) /\
       users (fst r) = users st /\ classes (fst r) = classes st /\
       class_students (fst r) = class_students st /\
       assignments (fst r) = assignments st /\
       peer_reviews (fst r) = peer_reviews st) /\
    (forall ident body,
       status (update_submission st ident cid aid sid body now) = 200 ->
       ident = Some (s_student_id s)).
Proof.
  intros st uid user cid aid sid s a data now Hu Hrole Hs Hsa Ha Hac Hcontent r.
  pose proof (proj2 (get_Submission_some _ _ _ Hs)) as Hsid.
  assert (Er : r = update_submission st (Some uid) cid aid sid (Some data) now)
    by reflexivity.
  unfold update_submission in Er.
  rewrite (student_required_pass st uid user _ Hu Hrole) in Er.
  rewrite (submission_in_chain_found st cid aid sid s a Hs Hsa Ha Hac) in Er.
  cbn [bind get_json_or_empty] in Er. split; [|split].
  - intros Hne. apply Z.eqb_neq in Hne. now rewrite Hne in Er.
  - intros He. rewrite He, Z.eqb_refl in Er. cbn [negb] in Er.
    unfold absent_or_string in Hcontent. unfold updated, stored_text.
    destruct (dict_get data "content") as [[| |c]|]; try discriminate;
      cbn [py_strip bind handle_db_errors] in Er; rewrite Er; cbn [fst snd status].
    all: split; [reflexivity|].
    all: split; [eexists; split;
                   [apply (get_Submission_replaced st sid s); [exact Hs|exact Hsid]
                   |repeat split; try reflexivity; symmetry; exact He]|].
    all: split; [intros sid' Hne; apply get_Submission_replace_other;
                 cbn [s_id]; congruence|].
    all: split; [unfold replace_submission; cbn; apply length_map|].
    all: repeat split; reflexivity.
  - intros ident body H.
    destruct (update_submission_updated _ _ _ _ _ _ _ H) as (s0 & Hs0 & ->).
    congruence.
Qed.

(** What a 200 of [update_assignment] tells. *)
Lemma update_assignment_updated st ident cid aid body :
  status (update_assignment st ident cid aid body) = 200 ->
  exists cls, get_Class st cid = Some cls /\ ident = Some (c_owner_id cls).
Proof.
  unfold_handlers. unfold owned_class. split_handler.
  all: cbn [status fst snd]; intros H; try discriminate H.
  all: try match goal with H : negb false = false |- _ => discriminate H end.
  all: eexists; split; [reflexivity|].
  all: match goal with H : negb (c_owner_id _ =? _) = false |- _ =>
         apply negb_false_iff, Z.eqb_eq in H; now rewrite H end.
Qed.

(** X15. [update_assignment] by the teacher who owns the class, on an
    assignment of that class, with a JSON body whose [title] and
    [description] are absent or strings: the answer is 200 and the stored
    assignment keeps its id, class and creation time; [title],
    [description] and [due_date] change only when their key is in the
    body.  Every other assignment and every other table is as before.
    When none of the three keys is in the body and assignment ids are
    keys, the database is not changed at all.  A teacher who does not own
    the class gets 403 without a write, and a 200 is only ever given to
    the owner of the class. *)
Theorem update_assignment_spec :
  forall st uid user cid aid a data,
    get_User st uid = Some user -> u_role user = "teacher" ->
    get_Assignment st aid = Some a -> a_class_id a = cid ->
    absent_or_string data "title" = true ->
    absent_or_string data "description" = true ->
    let r := update_assignment st (Some uid) cid aid (Some data) in
    (owned_class st cid uid = false -> r = (st, err "Access denied" 403)) /\
    (owned_class st cid uid = true ->
       status r = 200 /\
       (exists a',
          get_Assignment (fst r) aid = Some a' /\
          a_id a' = a_id a /\ a_class_id a' = a_class_id a /\
          a_created_at a' = a_created_at a /\
          a_title a' = updated data "title" stored_title (a_title a) /\
          a_description a' = updated data "description" stored_text (a_description a) /\
          a_due_date a' = updated data "dueDate" _parse_date (a_due_date a)) /\
       (forall aid', aid' <> aid ->
          get_Assignment (fst r) aid' = get_Assignment st aid') /\
       users (fst r) = users st /\ classes (fst r) = classes st /\
       class_students (fst r) = class_students st /\
       submissions (fst r) = submissions st /\
       peer_reviews (fst r) = peer_reviews st /\
       (NoDup (map a_id (assignments st)) ->
        dict_get data "title" = None -> dict_get data "description" = None ->
        dict_get data "dueDate" = None -> fst r = st)) /\
    (forall ident body,
       status (update_assignment st ident cid aid body) = 200 ->
       exists cls, get_Class st cid = Some cls /\ ident = Some (c_owner_id cls)).
Proof.
  intros st uid user cid aid a data Hu Hrole Ha Hac Htitle Hdesc r.
  destruct (get_Assignment_some _ _ _ Ha) as [Hin Haid].
  assert (Er : r = update_assignment st (Some uid) cid aid (Some data)) by reflexivity.
  unfold update_assignment in Er.
  rewrite (teacher_required_pass st uid user _ Hu Hrole) in Er. split; [|split].
  - intros Hown. now rewrite Hown in Er.
  - intros Hown. rewrite Hown, Ha, Hac, Z.eqb_refl in Er.
    cbn [negb get_json_or_empty] in Er.
    unfold absent_or_string in Htitle, Hdesc. unfold updated, stored_title, stored_text.
    destruct (dict_get data "title") as [[| |t]|]; try discriminate;
      destruct (dict_get data "description") as [[| |d]|]; try discriminate;
      cbn [py_strip bind handle_db_errors] in Er; rewrite Er; cbn [fst snd status].
    all: split; [reflexivity|].
    all: split; [eexists; split;
                   [apply (get_Assignment_replaced st aid a); [exact Ha|exact Haid]
                   |repeat split; first [reflexivity|symmetry; exact Hac]]|].
    all: split; [intros aid' Hne; apply get_Assignment_replace_other;
                 cbn [a_id]; congruence|].
    all: repeat (split; [reflexivity|]).
    all: intros N Ht Hd Hdue; try discriminate.
    rewrite Hdue. replace (mkAssignment _ _ _ _ _ _) with a
      by (destruct a; cbn in *; congruence).
    now apply replace_assignment_same.
  - intros ident body. apply update_assignment_updated.
Qed.
End Editing.

(** * Server errors *)

Lemma validate_json_present d req k :
  filter (fun field => negb (dict_has d field)) req = [] ->
  In k req -> dict_get d k <> None.
Proof.
  intros F Hin Hnone.
  assert (Hk : In k (filter (fun field => negb (dict_has d field)) req)).
  { apply filter_In. split; [exact Hin|]. unfold dict_has. now rewrite Hnone. }
  rewrite F in Hk. contradiction.
Qed.

Lemma no_orphans_assignment st sid s :
  no_orphans st -> get_Submission st sid = Some s ->
  Submission_assignment st s <> None.
Proof.
  intros (_ & OS & _) Hs Hnone. apply get_Submission_some in Hs as [Hin _].
  destruct (OS s Hin) as (a & Ha & Hid).
  unfold Submission_assignment, get_Assignment in Hnone.
  apply (find_none _ _ Hnone) in Ha. rewrite Hid, Z.eqb_refl in Ha. discriminate.
Qed.

Ltac ill_typed :=
  match goal with
  | E : dict_get ?d ?k = Some _, H : absent_or_string ?d ?k = true |- _ =>
      unfold absent_or_string in H; rewrite E in H; discriminate H
  | E : dict_get ?d "classId" = Some _,
    H : match dict_get ?d "classId" with _ => _ end = true |- _ =>
      rewrite E in H; discriminate H
  | F : filter _ _ = [], E : dict_get _ ?k = None |- _ =>
      apply (validate_json_present _ _ k F); [cbn [In]; auto 8|exact E]
  | O : no_orphans ?st, Hs : get_Submission ?st _ = Some ?s,
    E : get_Assignment ?st (s_assignment_id ?s) = None |- _ =>
      exact (no_orphans_assignment _ _ _ O Hs E)
  end.

Section ServerErrors.
Context {K : Collaborators}.

(** X16. The handlers raise nothing on well-typed requests.  In a database
    without orphaned rows, as every reachable one is, a request whose ids
    fit the integer columns and whose body holds strings where the
    handler expects text (an integer as [classId], an integer or null as
    [fileSize]) is never answered 500, whoever sends it: the exceptions
    of the handlers come from values of the wrong type and from a
    submission without its assignment only.  (The tables are taken to
    store every such value and the hashing library to accept every
    string.) *)
Theorem no_server_error :
  forall st rq,
    no_orphans st -> well_typed rq = true -> status (handle st rq) <> 500.
Proof.
  intros st rq O Hwt.
  destruct rq as [body ? ?|body ?| |? body ? ?| | | |? body ?| |? ? body ?|? ? ? body
                 | |? ? ? body ?|? ? ? ? body ?| |? ? ? ? body ?|? ? ? ? body ?|];
    try destruct body as [d|]; cbn [well_typed] in Hwt.
  all: repeat match goal with
       | H : (_ && _)%bool = true |- _ => apply andb_true_iff in H as [? ?]
       end.
  all: try discriminate.
  all: repeat match goal with
       | H : submission_body _ = true |- _ => unfold submission_body in H
       | H : strings_at _ _ = true |- _ => unfold strings_at in H; cbn [forallb] in H
       | H : (_ && _)%bool = true |- _ => apply andb_true_iff in H as [? ?]
       end.
  all: unfold_handlers; unfold Submission_assignment.
  all: split_handler.
  all: cbn [status fst snd]; try discriminate.
  all: intros _; ill_typed.
Qed.
End ServerErrors.

(** * Registration *)

Lemma get_User_fresh st u :
  u_id u = next_id (map u_id (users st)) ->
  get_User (set_users st (users st ++ [u])) (u_id u) = Some u.
Proof.
  intros Hid. unfold get_User. cbn [users set_users]. rewrite find_append.
  destruct (find (fun x => u_id x =? u_id u) (users st)) as [y|] eqn:E.
  - apply find_some in E as [Hy Hk]. apply (in_map u_id) in Hy.
    apply next_id_fresh in Hy. lia.
  - cbn. now rewrite Z.eqb_refl.
Qed.

Section Registration.
Context {K : Collaborators}.

Lemma register_strings st data salt now name e p r :
  dict_get data "name" = Some (VStr name) ->
  dict_get data "email" = Some (VStr e) ->
  dict_get data "password" = Some (VStr p) ->
  dict_get data "role" = Some (VStr r) ->
  register st (Some data) salt now
  = (let email := lower (strip e) in
     let role := lower (strip r) in
     if negb (String.eqb role "teacher" || String.eqb role "student")
     then (st, err "Role must be 'teacher' or 'student'" 400)
     else if negb (validate_email email) then (st, err "Invalid email format" 400)
     else if negb (fst (validate_password p)) then (st, err (snd (validate_password p)) 400)
     else match find_user_by_email st email with
     | Some _ => (st, err "Email already registered" 409)
     | None =>
         (set_users st (users st ++ [new_user st name e p r salt now]),
          (token_response "Registration successful" now (new_user st name e p r salt now),
           201))
     end).
Proof.
  intros Hn He Hp Hr. unfold register.
  rewrite validate_json_pass;
    [|cbn [forallb];
      now rewrite (dict_get_has _ _ _ Hn), (dict_get_has _ _ _ He),
        (dict_get_has _ _ _ Hp), (dict_get_has _ _ _ Hr)
     |now apply dict_has_nonempty with "name", (dict_get_has _ _ _ Hn)].
  rewrite (dict_item_get _ _ _ Hn), (dict_item_get _ _ _ He),
    (dict_item_get _ _ _ Hp), (dict_item_get _ _ _ Hr).
  cbn [bind py_strip password_str]. cbv zeta.
  destruct (negb _); [reflexivity|].
  destruct (negb _); [reflexivity|].
  destruct (validate_password p) as [ok msg]. cbn [fst snd].
  destruct (negb ok); [reflexivity|].
  destruct (find_user_by_email st (lower (strip e))); reflexivity.
Qed.

(** X17. [register] with the four fields given as strings checks, in this
    order, the role, the email, the password and the uniqueness of the
    email, each on the normalised value (role and email stripped and
    lowercased): the first check that fails decides the answer (400, 400,
    400 with the message of [validate_password], 409) and nothing is
    written.  When all pass the answer is 201 with a token pair for the
    new user, and exactly one row is appended: fresh id, stripped name,
    normalised email and role, and the hash, not the password. *)
Theorem register_outcome :
  forall st data salt now name e p r,
    dict_get data "name" = Some (VStr name) ->
    dict_get data "email" = Some (VStr e) ->
    dict_get data "password" = Some (VStr p) ->
    dict_get data "role" = Some (VStr r) ->
    let email := lower (strip e) in
    let role := lower (strip r) in
    let res := register st (Some data) salt now in
    (role <> "teacher" -> role <> "student" ->
       res = (st, err "Role must be 'teacher' or 'student'" 400)) /\
    (role = "teacher" \/ role = "student" ->
       (validate_email email = false -> res = (st, err "Invalid email format" 400)) /\
       (validate_email email = true ->
          (fst (validate_password p) = false ->
             res = (st, err (snd (validate_password p)) 400)) /\
          (fst (validate_password p) = true ->
             (forall u, find_user_by_email st email = Some u ->
                res = (st, err "Email already registered" 409)) /\
             (find_user_by_email st email = None ->
                let user := new_user st name e p r salt now in
                res = (set_users st (users st ++ [user]),
                       (token_response "Registration successful" now user, 201)) /\
                get_User (fst res) (u_id user) = Some user /\
                (forall uid, get_User st uid <> None -> uid <> u_id user))))).
Proof.
  intros st data salt now name e p r Hn He Hp Hr email role res.
  assert (E : res = register st (Some data) salt now) by reflexivity.
  rewrite (register_strings st data salt now name e p r Hn He Hp Hr) in E.
  cbv zeta in E. fold email role in E. split.
  - intros H1 H2. apply String.eqb_neq in H1, H2. now rewrite H1, H2 in E.
  - intros Hrole.
    assert (Hok : (String.eqb role "teacher" || String.eqb role "student")%bool = true).
    { apply orb_true_iff. destruct Hrole as [->| ->]; [left|right]; reflexivity. }
    rewrite Hok in E. cbn [negb] in E. split.
    + intros Hm. now rewrite Hm in E.
    + intros Hm. rewrite Hm in E. cbn [negb] in E. split.
      * intros Hpw. now rewrite Hpw in E.
      * intros Hpw. rewrite Hpw in E. cbn [negb] in E. split.
        -- intros u Hu. now rewrite Hu in E.
        -- intros Hnone user. rewrite Hnone in E. split; [exact E|]. split.
           ++ rewrite E. cbn [fst]. now apply get_User_fresh.
           ++ intros uid Hsome Heq. apply Hsome. unfold get_User.
              apply find_none_iff. intros x Hx. apply Z.eqb_neq.
              apply (in_map u_id) in Hx. apply next_id_fresh in Hx.
              subst uid. cbn [u_id user new_user]. unfold user, new_user. cbn [u_id]. lia.
Qed.

(** X18. A field of the wrong type is answered as a server error: when the
    four required keys of [register] are present and [name], [email] or
    [role] holds something that is not a string, the handler raises, the
    answer is a 500 and not a 400, and nothing is written. *)
Theorem register_ill_typed :
  forall st data salt now vn ve vp vr,
    dict_get data "name" = Some vn ->
    dict_get data "email" = Some ve ->
    dict_get data "password" = Some vp ->
    dict_get data "role" = Some vr ->
    (not_a_string vn || not_a_string ve || not_a_string vr)%bool = true ->
    status (register st (Some data) salt now) = 500 /\
    fst (register st (Some data) salt now) = st.
Proof.
  intros st data salt now vn ve vp vr Hn He Hp Hr Hbad. unfold register.
  rewrite validate_json_pass;
    [|cbn [forallb];
      now rewrite (dict_get_has _ _ _ Hn), (dict_get_has _ _ _ He),
        (dict_get_has _ _ _ Hp), (dict_get_has _ _ _ Hr)
     |now apply dict_has_nonempty with "name", (dict_get_has _ _ _ Hn)].
  rewrite (dict_item_get _ _ _ Hn), (dict_item_get _ _ _ He),
    (dict_item_get _ _ _ Hp), (dict_item_get _ _ _ Hr).
  destruct vn as [| |n]; try (split; reflexivity).
  destruct ve as [| |e]; try (split; reflexivity).
  destruct vr as [| |r]; try (split; reflexivity).
  discriminate Hbad.
Qed.

(** X19. The token of a registration restores the session for good: after a
    201 of [register] and whatever events follow, [get_session] with the
    new user's identity is answered 200 with that user, unchanged. *)
Theorem session_after_register :
  forall st data salt now name e p r evs,
    dict_get data "name" = Some (VStr name) ->
    dict_get data "email" = Some (VStr e) ->
    dict_get data "password" = Some (VStr p) ->
    dict_get data "role" = Some (VStr r) ->
    status (register st (Some data) salt now) = 201 ->
    let user := new_user st name e p r salt now in
    let st' := run (fst (register st (Some data) salt now)) evs in
    payload (register st (Some data) salt now)
    = token_response "Registration successful" now user /\
    get_session st' (Some (u_id user)) = (st', (JObj [("user", User_to_dict user)], 200)).
Proof.
  intros st data salt now name e p r evs Hn He Hp Hr H user st'.
  subst st'. revert H.
  rewrite (register_strings st data salt now name e p r Hn He Hp Hr). cbv zeta.
  destruct (negb _); [discriminate|].
  destruct (negb _); [discriminate|].
  destruct (negb _); [discriminate|].
  destruct (find_user_by_email st (lower (strip e))); [discriminate|].
  intros _. cbn [fst payload snd]. split; [reflexivity|].
  unfold get_session, jwt_required.
  rewrite (run_get_User evs _ (u_id user) user); [reflexivity|].
  now apply get_User_fresh.
Qed.
End Registration.

(** * Seeding *)

Section Seeding.
Context {K : Collaborators}.

Lemma seed_skips st s1 s2 pc now :
  users st <> [] -> _seed_data st s1 s2 pc now = st.
Proof. unfold _seed_data. now destruct (users st). Qed.

Lemma seed_users st s1 s2 pc now :
  users st = [] ->
  users (_seed_data st s1 s2 pc now)
  = [mkUser 1 "Demo Teacher" "teacher@reviewin.dev"
            (generate_password_hash s1 "Teacher1") "teacher" now;
     mkUser 2 "Demo Student" "student@reviewin.dev"
            (generate_password_hash s2 "Student1") "student" now].
Proof. unfold _seed_data. intros ->. reflexivity. Qed.

(** X20. The seeding script: on a database that has a user it changes
    nothing, so running it twice is running it once.  On a database
    without users it inserts exactly a teacher and a student, a class
    owned by the teacher with the drawn passcode, the student's
    membership of that class and one assignment of that class, all with
    fresh ids; submissions and reviews are untouched.  If the hashing
    library accepts the passwords it hashed, both demo accounts can then
    log in with the passwords of the script. *)
Theorem seed_data_spec :
  forall st s1 s2 pc now,
    let st' := _seed_data st s1 s2 pc now in
    (users st <> [] -> st' = st) /\
    (forall s1' s2' pc' now', _seed_data st' s1' s2' pc' now' = st') /\
    (users st = [] ->
       exists t s c a,
         users st' = [t; s] /\ u_role t = "teacher" /\ u_role s = "student" /\
         u_id t <> u_id s /\
         classes st' = classes st ++ [c] /\
         c_id c = next_id (map c_id (classes st)) /\
         c_owner_id c = u_id t /\ c_passcode c = pc /\
         class_students st' = class_students st ++ [mkEnrollment (c_id c) (u_id s) now] /\
         is_enrolled st' (u_id s) (c_id c) = true /\
         assignments st' = assignments st ++ [a] /\
         a_id a = next_id (map a_id (assignments st)) /\
         a_class_id a = c_id c /\
         submissions st' = submissions st /\ peer_reviews st' = peer_reviews st /\
         ((forall salt p, check_password_hash (generate_password_hash salt p) p = true) ->
          forall now',
            login st' (login_body "teacher@reviewin.dev" "Teacher1") now'
            = (st', (token_response "Login successful" now' t, 200)) /\
            login st' (login_body "  Student@ReviewIn.dev " "Student1") now'
            = (st', (token_response "Login successful" now' s, 200)))).
Proof.
  intros st s1 s2 pc now st'. split; [apply seed_skips|]. split.
  - intros s1' s2' pc' now'. apply seed_skips. unfold st', _seed_data.
    destruct (users st) as [|u l] eqn:E; [discriminate|]. now rewrite E.
  - intros Hu. subst st'. unfold _seed_data. rewrite Hu.
    do 4 eexists.
    repeat (split; [first [reflexivity|discriminate]|]).
    split.
    { unfold is_enrolled; cbn. rewrite existsb_app. cbn.
      rewrite !Z.eqb_refl. apply orb_true_r. }
    repeat (split; [reflexivity|]).
    intros Hbcrypt now'. split.
    + eapply login_accepts; [reflexivity|reflexivity|reflexivity|apply Hbcrypt].
    + eapply login_accepts; [reflexivity|reflexivity|reflexivity|apply Hbcrypt].
Qed.
End Seeding.

(** * Listing classes *)

Lemma insert_desc_perm c l : Permutation (insert_desc c l) (c :: l).
Proof.
  induction l as [|x r IH]; cbn [insert_desc]; [reflexivity|].
  destruct (c_created_at x <? c_created_at c); [reflexivity|].
  rewrite IH. apply perm_swap.
Qed.

Lemma insert_desc_sorted c l :
  StronglySorted newer_first l -> StronglySorted newer_first (insert_desc c l).
Proof.
  induction l as [|x r IH]; cbn [insert_desc]; intros S.
  - constructor; constructor.
  - inversion S as [|? ? Sr Fr]; subst.
    destruct (Z.ltb_spec (c_created_at x) (c_created_at c)) as [Hlt|Hge].
    + constructor; [exact S|]. constructor; [unfold newer_first; lia|].
      eapply Forall_impl; [|exact Fr]. unfold newer_first. intros y Hy. lia.
    + constructor; [now apply IH|].
      eapply Permutation_Forall; [symmetry; apply insert_desc_perm|].
      constructor; [exact Hge|exact Fr].
Qed.

Lemma order_by_perm l : Permutation (order_by_created_at_desc l) l.
Proof.
  induction l as [|c l IH]; cbn [order_by_created_at_desc fold_right]; [reflexivity|].
  fold (order_by_created_at_desc l). rewrite insert_desc_perm. now constructor.
Qed.

Lemma order_by_sorted l : StronglySorted newer_first (order_by_created_at_desc l).
Proof.
  induction l as [|c l IH]; cbn [order_by_created_at_desc fold_right]; [constructor|].
  now apply insert_desc_sorted.
Qed.

Section Listing.
Context {K : Collaborators}.

(** X21. [list_classes] by a logged-in user: the answer is 200 with one
    entry per selected class, newest first, and nothing is written.  In
    the teacher view the selected classes are the ones the caller owns and
    each entry carries passcode, students and assignments; in the other
    view they are the ones the caller is enrolled in and no entry carries
    a passcode or the students.  The view is the teacher's exactly when
    the query parameter [role], or in its absence the role of the account,
    is ["teacher"], so a passcode is only ever listed to the owner of the
    class.  An identity without an account is answered 404. *)
Theorem list_classes_spec :
  forall st uid role_arg,
    (get_User st uid = None ->
       list_classes st (Some uid) role_arg = (st, err "User not found" 404)) /\
    (forall user, get_User st uid = Some user ->
       let t := teacher_view user role_arg in
       exists cs,
         list_classes st (Some uid) role_arg
         = (st, (JObj [("classes", JList (map (Class_to_dict st t t true) cs))], 200)) /\
         Permutation cs (filter (listed st uid t) (classes st)) /\
         StronglySorted newer_first cs /\
         (forall c, In c cs <-> In c (classes st) /\ listed st uid t c = true) /\
         (forall c, In c cs ->
            obj_has (Class_to_dict st t t true c) "passcode" = true ->
            c_owner_id c = uid)).
Proof.
  intros st uid role_arg. split.
  - intros Hu. unfold list_classes, jwt_required. now rewrite Hu.
  - intros user Hu t.
    pose proof (proj2 (get_User_some _ _ _ Hu)) as Hid.
    exists (order_by_created_at_desc (filter (listed st uid t) (classes st))).
    assert (Hin : forall c,
              In c (order_by_created_at_desc (filter (listed st uid t) (classes st)))
              <-> In c (classes st) /\ listed st uid t c = true).
    { intros c. rewrite <- filter_In. split; apply Permutation_in;
        [|symmetry]; apply order_by_perm. }
    split; [|split; [apply order_by_perm|split; [apply order_by_sorted|split]]].
    + unfold list_classes, jwt_required. rewrite Hu. cbv zeta.
      unfold t, teacher_view, listed.
      destruct (String.eqb _ "teacher"); [reflexivity|].
      unfold User_enrolled_classes. now rewrite Hid.
    + exact Hin.
    + intros c Hc Hp. apply Hin in Hc as [_ Hl]. unfold listed in Hl.
      destruct t; [now apply Z.eqb_eq|]. discriminate Hp.
Qed.
End Listing.

(** * Passcodes *)

Lemma lstrip_no_space s :
  string_forallb (fun c => negb (is_space c)) s = true -> lstrip s = s.
Proof.
  destruct s as [|c r]; [reflexivity|]. cbn [string_forallb lstrip].
  intros H. apply andb_true_iff in H as [H _]. apply negb_true_iff in H. now rewrite H.
Qed.

Lemma rstrip_no_space s :
  string_forallb (fun c => negb (is_space c)) s = true -> rstrip s = s.
Proof.
  induction s as [|c r IH]; [reflexivity|]. cbn [string_forallb rstrip].
  intros H. apply andb_true_iff in H as [Hc Hr]. apply negb_true_iff in Hc.
  rewrite (IH Hr). destruct r; [now rewrite Hc|reflexivity].
Qed.

Lemma strip_no_space s :
  string_forallb (fun c => negb (is_space c)) s = true -> strip s = s.
Proof.
  intros H. unfold strip. rewrite (lstrip_no_space s H). now apply rstrip_no_space.
Qed.

Lemma string_forallb_of_list p l :
  string_forallb p (string_of_list_ascii l) = forallb p l.
Proof. induction l as [|c l IH]; [reflexivity|]. cbn. now rewrite IH. Qed.

Lemma passcode_chars pick :
  forallb (fun c => is_ascii_upper c || is_digit c)%bool
          (random_choices passcode_alphabet 6 pick) = true.
Proof.
  apply forallb_forall. intros c Hc.
  apply in_map_iff in Hc as (i & <- & Hi).
  assert (A : forallb (fun c => is_ascii_upper c || is_digit c)%bool passcode_alphabet
              = true) by reflexivity.
  rewrite forallb_forall in A. apply A. apply nth_In.
  apply Nat.mod_upper_bound. discriminate.
Qed.

Lemma upper_or_digit_no_space c :
  (is_ascii_upper c || is_digit c)%bool = true -> negb (is_space c) = true.
Proof.
  destruct c as [[] [] [] [] [] [] [] []]; intros H; try reflexivity; discriminate H.
Qed.

Lemma forallb_impl {A} (p q : A -> bool) (l : list A) :
  (forall x, p x = true -> q x = true) -> forallb p l = true -> forallb q l = true.
Proof.
  intros Hpq H. apply forallb_forall. intros x Hx. apply Hpq.
  rewrite forallb_forall in H. now apply H.
Qed.

Lemma generate_passcode_stripped pick :
  strip (_generate_passcode pick) = _generate_passcode pick.
Proof.
  apply strip_no_space. unfold _generate_passcode.
  rewrite string_forallb_of_list.
  eapply forallb_impl; [apply upper_or_digit_no_space|apply passcode_chars].
Qed.

Lemma length_string_of_list l :
  String.length (string_of_list_ascii l) = List.length l.
Proof. induction l as [|c l IH]; [reflexivity|]. cbn. now rewrite IH. Qed.

Section Passcodes.
Context {K : Collaborators}.

Lemma create_class_strings st uid user data name subject now passcode :
  get_User st uid = Some user -> u_role user = "teacher" ->
  dict_get data "name" = Some (VStr name) ->
  dict_get data "subject" = Some (VStr subject) ->
  absent_or_string data "grade" = true ->
  absent_or_string data "description" = true ->
  create_class st (Some uid) (Some data) passcode now
  = (let c := new_class st uid name subject data passcode now in
     let st' := set_classes st (classes st ++ [c]) in
     (st', (JObj [("message", JStr "Class created successfully");
                  ("class", Class_to_dict st' true false false c)], 201))).
Proof.
  intros Hu Hrole Hn Hs Hg Hd. unfold create_class.
  rewrite (teacher_required_pass st uid user _ Hu Hrole).
  rewrite validate_json_pass;
    [|cbn [forallb]; now rewrite (dict_get_has _ _ _ Hn), (dict_get_has _ _ _ Hs)
     |now apply dict_has_nonempty with "name", (dict_get_has _ _ _ Hn)].
  rewrite (dict_item_get _ _ _ Hn), (dict_item_get _ _ _ Hs).
  cbn [bind py_strip]. unfold new_class, updated, stored_text, get_stripped_or_None.
  unfold absent_or_string in Hg, Hd.
  destruct (dict_get data "grade") as [[| |g]|]; try discriminate Hg;
    destruct (dict_get data "description") as [[| |d]|]; try discriminate Hd;
    reflexivity.
Qed.

Lemma join_class_strings st uid user data cid passcode now :
  get_User st uid = Some user -> u_role user = "student" ->
  dict_get data "classId" = Some (VInt cid) ->
  dict_get data "passcode" = Some (VStr passcode) ->
  join_class st (Some uid) (Some data) now
  = match get_Class st cid with
    | None => (st, err "Class not found" 404)
    | Some cls =>
        if negb (String.eqb (c_passcode cls) (strip passcode))
        then (st, err "Invalid passcode" 401)
        else if is_enrolled st uid (c_id cls)
        then (st, err "Already enrolled in this class" 409)
        else
          let st' := set_class_students st
                       (class_students st ++ [mkEnrollment (c_id cls) uid now]) in
          (st', (JObj [("message", JStr "Joined class successfully");
                       ("class", Class_to_dict st' false false false cls)], 200))
    end.
Proof.
  intros Hu Hrole Hc Hp. unfold join_class.
  rewrite (student_required_pass st uid user _ Hu Hrole).
  rewrite validate_json_pass;
    [|cbn [forallb]; now rewrite (dict_get_has _ _ _ Hc), (dict_get_has _ _ _ Hp)
     |now apply dict_has_nonempty with "classId", (dict_get_has _ _ _ Hc)].
  cbv zeta. rewrite (dict_item_get _ _ _ Hc). cbn [bind get_Class_by].
  destruct (get_Class st cid) as [cls|]; [|reflexivity].
  rewrite (dict_item_get _ _ _ Hp). cbn [bind py_strip].
  rewrite Hu, (user_in_students_enrolled st uid user cls Hu).
  destruct (negb _); [reflexivity|].
  destruct (is_enrolled st uid (c_id cls)); reflexivity.
Qed.

(** X22. The passcode of a new class lets students in: whatever the
    generator draws, [_generate_passcode] makes six characters out of A-Z
    and 0-9, which [strip] leaves alone.
    When a teacher creates a class with such a passcode (name and subject
    strings, grade and description absent or strings) in a database whose
    memberships are well formed, as they are in every reachable state,
    the answer is 201,
    the class is stored under a fresh id with the teacher as owner, and
    the answer shows the passcode.  A student who then sends that id with
    a passcode that is the class's once stripped, as the passcode itself
    is, is answered 200 and is enrolled; with any other passcode the
    student is answered 401 and is not enrolled. *)
Theorem create_class_then_join :
  forall st tid teacher sid student data name subject pick now,
    get_User st tid = Some teacher -> u_role teacher = "teacher" ->
    get_User st sid = Some student -> u_role student = "student" ->
    dict_get data "name" = Some (VStr name) ->
    dict_get data "subject" = Some (VStr subject) ->
    absent_or_string data "grade" = true ->
    absent_or_string data "description" = true ->
    memberships_wf st ->
    let passcode := _generate_passcode pick in
    let r := create_class st (Some tid) (Some data) passcode now in
    let cid := next_id (map c_id (classes st)) in
    str_len passcode = 6 /\
    string_forallb (fun c => is_ascii_upper c || is_digit c)%bool passcode = true /\
    strip passcode = passcode /\
    status r = 201 /\
    payload_field_has r "class" "passcode" = true /\
    (exists c, get_Class (fst r) cid = Some c /\ c_owner_id c = tid /\
               c_passcode c = passcode /\ classes (fst r) = classes st ++ [c]) /\
    get_Class st cid = None /\
    forall given now',
      let r' := join_class (fst r) (Some sid) (join_body cid given) now' in
      (strip given = passcode ->
         status r' = 200 /\ is_enrolled (fst r') sid cid = true) /\
      (strip given <> passcode ->
         r' = (fst r, err "Invalid passcode" 401) /\
         is_enrolled (fst r') sid cid = false).
Proof.
  intros st tid teacher sid student data name subject pick now
         Ht Htr Hs Hsr Hn Hsub Hg Hd (_ & Hrows & _) passcode r cid.
  assert (Er : r = create_class st (Some tid) (Some data) passcode now) by reflexivity.
  rewrite (create_class_strings st tid teacher data name subject now passcode
             Ht Htr Hn Hsub Hg Hd) in Er. cbv zeta in Er.
  set (c := new_class st tid name subject data passcode now) in *.
  set (st' := set_classes st (classes st ++ [c])) in *.
  assert (Hfresh : get_Class st cid = None).
  { unfold get_Class. apply find_none_iff. intros x Hx. apply Z.eqb_neq.
    apply (in_map c_id) in Hx. apply next_id_fresh in Hx. unfold cid. lia. }
  assert (Hc : get_Class st' cid = Some c).
  { unfold get_Class, st'. cbn [classes set_classes]. rewrite find_append.
    unfold get_Class in Hfresh. rewrite Hfresh. cbn. now rewrite Z.eqb_refl. }
  assert (Hnot : is_enrolled st sid cid = false).
  { apply not_true_is_false. intros He.
    apply is_enrolled_true in He as (e & He & Hcid & _).
    destruct (Hrows e He) as [(c0 & Hc0 & Hid) _].
    apply (in_map c_id) in Hc0. apply next_id_fresh in Hc0. unfold cid in Hcid. lia. }
  split.
  { unfold passcode, _generate_passcode, str_len. rewrite length_string_of_list.
    unfold random_choices. rewrite length_map, length_seq. reflexivity. }
  split.
  { unfold passcode, _generate_passcode. rewrite string_forallb_of_list.
    apply passcode_chars. }
  split; [apply generate_passcode_stripped|].
  rewrite Er. cbn [fst snd status].
  split; [reflexivity|]. split; [reflexivity|].
  split; [exists c; split; [exact Hc|repeat split; reflexivity]|].
  split; [exact Hfresh|].
  intros given now'.
  set (r' := join_class _ (Some sid) _ now').
  pose proof (join_class_strings st' sid student
                [("classId", VInt cid); ("passcode", VStr given)] cid given now'
                Hs Hsr eq_refl eq_refl) as J.
  rewrite Hc in J.
  replace (c_passcode c) with passcode in J by reflexivity.
  replace (c_id c) with cid in J by reflexivity.
  replace (is_enrolled st' sid cid) with (is_enrolled st sid cid) in J by reflexivity.
  rewrite Hnot in J. split.
  - intros Hgiven. rewrite Hgiven, String.eqb_refl in J. cbn [negb] in J.
    match type of J with _ = ?X => assert (E2 : r' = X) by exact J end.
    rewrite E2. cbn [fst snd status]. split; [reflexivity|].
    rewrite is_enrolled_app. cbn [e_class_id e_user_id]. rewrite !Z.eqb_refl.
    apply orb_true_r.
  - intros Hgiven. apply not_eq_sym in Hgiven. apply String.eqb_neq in Hgiven.
    rewrite Hgiven in J. cbn [negb] in J.
    match type of J with _ = ?X => assert (E2 : r' = X) by exact J end.
    rewrite E2. cbn [fst]. split; [reflexivity|exact Hnot].
Qed.
End Passcodes.

(** * The pending list over time *)

Lemma has_reviewed_fresh st uid sid :
  no_orphans st -> (forall s, In s (submissions st) -> s_id s <> sid) ->
  has_reviewed st uid sid = false.
Proof.
  intros (_ & _ & OR) Hfresh. apply not_true_is_false. intros H.
  apply has_reviewed_true in H as (r & Hr & _ & Hsid).
  destruct (OR r Hr) as (s & Hs & Hid). apply (Hfresh s Hs). congruence.
Qed.

Section PendingOverTime.
Context {K : Collaborators}.

(** What a 200 of [leave_class] tells. *)
Lemma leave_class_left st ident cid :
  status (leave_class st ident cid) = 200 ->
  exists uid cls,
    ident = Some uid /\ get_Class st cid = Some cls /\
    fst (leave_class st ident cid)
    = set_class_students st
        (filter (fun e => negb ((e_class_id e =? c_id cls) && (e_user_id e =? uid)))
                (class_students st)).
Proof.
  unfold_handlers. split_handler.
  all: cbn [status fst snd]; intros H; try discriminate H.
  do 2 eexists. repeat split; reflexivity.
Qed.

(** X23. A new submission is offered to the classmates: in a database
    without orphaned rows, once [create_submission] has answered 201 the
    new submission is on the pending list of every other student enrolled
    in the class, and not on the list of its author. *)
Theorem new_submission_is_pending :
  forall st uid cid aid data now,
    no_orphans st ->
    status (create_submission st (Some uid) cid aid (Some data) now) = 201 ->
    let st' := fst (create_submission st (Some uid) cid aid (Some data) now) in
    let sid := next_id (map s_id (submissions st)) in
    (exists s, get_Submission st' sid = Some s /\ s_student_id s = uid /\
               s_assignment_id s = aid /\ s_grade s = None) /\
    (forall v, v <> uid -> is_enrolled st v cid = true -> is_pending st' v sid) /\
    ~ is_pending st' uid sid.
Proof.
  intros st uid0 cid aid data now O H st' sid.
  destruct (create_submission_created _ _ _ _ _ _ H)
    as (uid & user & cls & a & content & Hi & Hu & Hrole & Hc & Hen & Ha & Hac & Hnone & E).
  inversion Hi; subst uid0; clear Hi.
  set (s := new_submission st uid aid (Some data) content now) in *.
  assert (Est : st' = set_submissions st (submissions st ++ [s])) by exact E.
  clearbody st'. subst st'. clear E.
  assert (Hfresh : forall x, In x (submissions st) -> s_id x <> sid).
  { intros x Hx. apply (in_map s_id) in Hx. apply next_id_fresh in Hx. unfold sid. lia. }
  assert (Hs : get_Submission (set_submissions st (submissions st ++ [s])) sid = Some s)
    by (apply (get_Submission_fresh st s); reflexivity).
  split; [exists s; repeat split; exact Hs|]. split.
  - intros v Hv Hev. apply is_pending_iff.
    apply get_Class_some in Hc as [Hc Hcid].
    apply get_Assignment_some in Ha as [Ha Haid].
    exists cls, a, s. cbn [classes assignments submissions set_submissions].
    split; [exact Hc|]. split; [now rewrite Hcid|]. split; [exact Ha|].
    split; [congruence|]. split; [apply in_or_app; right; now left|].
    split; [now rewrite Haid|]. split; [reflexivity|].
    split; [cbn; congruence|].
    apply (has_reviewed_fresh st v sid O Hfresh).
  - intros Hp. apply is_pending_iff in Hp
      as (c' & a' & s' & _ & _ & _ & _ & Hs' & _ & Hid & Hne & _).
    cbn [submissions set_submissions] in Hs'.
    apply in_app_or in Hs' as [Hs'|[<-|[]]]; [now apply (Hfresh s')|].
    now apply Hne.
Qed.

(** X24. The pending list follows membership: after a 200 of [join_class]
    every submission of the class written by somebody else and not yet
    reviewed by the student is offered to the student, and after a 200 of
    [leave_class] no submission of that class is. *)
Theorem pending_follows_membership :
  forall st uid cid,
    (forall data now,
       dict_get data "classId" = Some (VInt cid) ->
       status (join_class st (Some uid) (Some data) now) = 200 ->
       forall c a s,
         In c (classes st) -> c_id c = cid ->
         In a (assignments st) -> a_class_id a = cid ->
         In s (submissions st) -> s_assignment_id s = a_id a ->
         s_student_id s <> uid -> has_reviewed st uid (s_id s) = false ->
         is_pending (fst (join_class st (Some uid) (Some data) now)) uid (s_id s)) /\
    (status (leave_class st (Some uid) cid) = 200 ->
     forall c a s,
       In (c, a, s) (pending_triples (fst (leave_class st (Some uid) cid)) uid) ->
       c_id c <> cid).
Proof.
  intros st uid cid. split.
  - intros data now Hcid H c a s Hc Hcc Ha Hac Hs Hsa Hne Hnr.
    destruct (join_class_joined _ _ _ _ H)
      as (uid' & user & data' & cid' & cls & Hi & Hb & Hu & Hrole & Hcid' & Hcls & Hen & ->).
    inversion Hi; subst uid'. inversion Hb; subst data'.
    rewrite Hcid in Hcid'. inversion Hcid'; subst cid'.
    pose proof (proj2 (get_Class_some _ _ _ Hcls)) as Hid.
    apply is_pending_iff. exists c, a, s.
    cbn [classes assignments submissions set_class_students].
    split; [exact Hc|]. split.
    { rewrite is_enrolled_app. cbn [e_class_id e_user_id].
      rewrite Hid, Hcc, !Z.eqb_refl. apply orb_true_r. }
    repeat (split; [first [assumption|congruence|reflexivity]|]).
    exact Hnr.
  - intros H c a s Hin.
    destruct (leave_class_left _ _ _ H) as (uid' & cls & Hi & Hcls & E).
    inversion Hi; subst uid'.
    pose proof (proj2 (get_Class_some _ _ _ Hcls)) as Hid.
    rewrite E in Hin. apply pending_triples_In in Hin as (_ & He & _).
    intros Hcc. apply is_enrolled_true in He as (e & He & H1 & H2).
    cbn [class_students set_class_students] in He.
    apply filter_In in He as [_ Hk]. apply negb_true_iff in Hk.
    apply andb_false_iff in Hk as [Hk|Hk]; apply Z.eqb_neq in Hk; congruence.
Qed.

Lemma create_submission_strings st uid user data cid aid now :
  get_User st uid = Some user -> u_role user = "student" ->
  absent_or_string data "content" = true ->
  create_submission st (Some uid) cid aid (Some data) now
  = match get_Class st cid with
    | None => (st, err "Class not found" 404)
    | Some cls =>
        if negb (is_enrolled st uid (c_id cls))
        then (st, err "Not enrolled in this class" 403)
        else match get_Assignment st aid with
        | None => (st, err "Assignment not found" 404)
        | Some a =>
            if negb (a_class_id a =? cid) then (st, err "Assignment not found" 404)
            else match find_submission st uid aid with
            | Some _ => (st, err "Already submitted. Use PUT to edit." 409)
            | None =>
                let s := new_submission st uid aid (Some data)
                           (updated data "content" stored_text None) now in
                let st' := set_submissions st (submissions st ++ [s]) in
                (st', (JObj [("message", JStr "Submission created");
                             ("submission", Submission_to_dict st' false s)], 201))
            end
        end
    end.
Proof.
  intros Hu Hrole Hcontent. unfold create_submission.
  rewrite (student_required_pass st uid user _ Hu Hrole). cbv zeta. rewrite Hu.
  destruct (get_Class st cid) as [cls|]; [|reflexivity].
  rewrite (user_in_students_enrolled st uid user cls Hu).
  destruct (negb (is_enrolled _ _ _)); [reflexivity|].
  destruct (get_Assignment st aid) as [a|]; [|reflexivity].
  destruct (negb (a_class_id a =? cid)); [reflexivity|].
  destruct (find_submission st uid aid); [reflexivity|].
  unfold new_submission, updated, stored_text, get_stripped_or_None.
  cbn [get_json_or_empty]. unfold absent_or_string in Hcontent.
  destruct (dict_get data "content") as [[| |c]|]; try discriminate Hcontent; reflexivity.
Qed.

(** X25. [create_assignment] by a teacher with a string as [title] (and a
    [description] that is absent or a string): 404 when the class is
    unknown and 403 when it is somebody else's, without a write.  For the
    owner the answer is 201 whatever is sent as [dueDate] (a value that is
    not an ISO date is stored as no date), and one assignment is appended
    with a fresh id, the class of the URL and the stripped title.  In a
    database without orphaned rows a student then gets 201 from [create_submission] on the class and
    the new assignment exactly when enrolled in the class, and 403
    otherwise. *)
Theorem create_assignment_spec :
  forall st uid user cid data title now,
    get_User st uid = Some user -> u_role user = "teacher" ->
    dict_get data "title" = Some (VStr title) ->
    absent_or_string data "description" = true ->
    let r := create_assignment st (Some uid) cid (Some data) now in
    (get_Class st cid = None -> r = (st, err "Class not found" 404)) /\
    (forall cls, get_Class st cid = Some cls ->
       (c_owner_id cls <> uid ->
          r = (st, err "Only the class owner can create assignments" 403)) /\
       (c_owner_id cls = uid ->
          let a := new_assignment st cid title data now in
          status r = 201 /\
          fst r = set_assignments st (assignments st ++ [a]) /\
          get_Assignment (fst r) (a_id a) = Some a /\
          get_Assignment st (a_id a) = None /\
          (no_orphans st ->
           forall sid student data' now',
             get_User st sid = Some student -> u_role student = "student" ->
             absent_or_string data' "content" = true ->
             let r' := create_submission (fst r) (Some sid) cid (a_id a) (Some data') now' in
             (is_enrolled st sid cid = true -> status r' = 201) /\
             (is_enrolled st sid cid = false ->
                r' = (fst r, err "Not enrolled in this class" 403))))).
Proof.
  intros st uid user cid data title now Hu Hrole Htitle Hdesc r.
  assert (Er : r = create_assignment st (Some uid) cid (Some data) now) by reflexivity.
  unfold create_assignment in Er.
  rewrite (teacher_required_pass st uid user _ Hu Hrole) in Er.
  rewrite validate_json_pass in Er;
    [|cbn [forallb]; now rewrite (dict_get_has _ _ _ Htitle)
     |now apply dict_has_nonempty with "title", (dict_get_has _ _ _ Htitle)].
  split.
  - intros Hc. now rewrite Hc in Er.
  - intros cls Hc. rewrite Hc in Er.
    pose proof (proj2 (get_Class_some _ _ _ Hc)) as Hcid. split.
    + intros Hne. apply Z.eqb_neq in Hne. now rewrite Hne in Er.
    + intros He a. rewrite He, Z.eqb_refl in Er. cbn [negb] in Er.
      rewrite (dict_item_get _ _ _ Htitle) in Er. cbn [bind py_strip] in Er.
      assert (Ed : get_stripped_or_None data "description"
                   = Ret (updated data "description" stored_text None)).
      { unfold get_stripped_or_None, updated, stored_text.
        unfold absent_or_string in Hdesc.
        destruct (dict_get data "description") as [[| |d]|];
          try discriminate Hdesc; reflexivity. }
      rewrite Ed in Er. cbn [bind handle_db_errors] in Er.
      fold (new_assignment st cid title data now) in Er. fold a in Er.
      assert (Hfresh : get_Assignment st (a_id a) = None).
      { unfold get_Assignment. apply find_none_iff. intros x Hx. apply Z.eqb_neq.
        apply (in_map a_id) in Hx. apply next_id_fresh in Hx. cbn [a_id a new_assignment].
        unfold a, new_assignment. cbn [a_id]. lia. }
      assert (Ha : get_Assignment (set_assignments st (assignments st ++ [a])) (a_id a)
                   = Some a).
      { unfold get_Assignment. cbn [assignments set_assignments]. rewrite find_append.
        unfold get_Assignment in Hfresh. rewrite Hfresh. cbn [find].
        now rewrite Z.eqb_refl. }
      rewrite Er. cbn [fst snd status].
      split; [reflexivity|]. split; [reflexivity|]. split; [exact Ha|].
      split; [exact Hfresh|].
      intros (_ & OS & _) sid student data' now' Hs Hsr Hcontent.
      set (st' := set_assignments st (assignments st ++ [a])) in *.
      pose proof (create_submission_strings st' sid student data' cid (a_id a) now'
                    Hs Hsr Hcontent) as J.
      replace (get_Class st' cid) with (Some cls) in J by (symmetry; exact Hc).
      replace (is_enrolled st' sid (c_id cls)) with (is_enrolled st sid cid) in J
        by (rewrite Hcid; reflexivity).
      split.
      * intros Hen. rewrite Hen, Ha in J. cbn [negb] in J.
        replace (a_class_id a) with cid in J by reflexivity.
        rewrite Z.eqb_refl in J. cbn [negb] in J.
        assert (Hnone : find_submission st' sid (a_id a) = None).
        { apply find_submission_none. intros Hin.
          apply in_map_iff in Hin as (x & Hk & Hx). cbn [submissions st' set_assignments] in Hx.
          destruct (OS x Hx) as (y & Hy & Hid).
          unfold submission_key in Hk. inversion Hk as [[H1 H2]].
          unfold get_Assignment in Hfresh. apply (find_none _ _ Hfresh) in Hy.
          rewrite Hid, H2, Z.eqb_refl in Hy. discriminate. }
        rewrite Hnone in J.
        match type of J with _ = ?X =>
          change (status (create_submission st' (Some sid) cid (a_id a) (Some data') now')
                  = 201);
          transitivity (status X); [now rewrite <- J|reflexivity]
        end.
      * intros Hen. rewrite Hen in J. cbn [negb] in J. exact J.
Qed.
End PendingOverTime.

(** * The address pattern *)

Lemma split_first_app sep s a b :
  split_first sep s = Some (a, b) -> s = (a ++ String sep b)%string.
Proof.
  revert a b. induction s as [|c r IH]; intros a b; cbn [split_first]; [discriminate|].
  destruct (Ascii.eqb_spec c sep) as [->|Hne].
  - intros H. inversion H; subst. reflexivity.
  - destruct (split_first sep r) as [[a' b']|]; [|discriminate].
    intros H. inversion H; subst. cbn. f_equal. now apply IH.
Qed.

Lemma split_first_found sep (p : ascii -> bool) a b :
  p sep = false -> string_forallb p a = true ->
  split_first sep (a ++ String sep b) = Some (a, b).
Proof.
  intros Hsep. induction a as [|c r IH]; cbn [append split_first string_forallb].
  - intros _. now rewrite Ascii.eqb_refl.
  - intros H. apply andb_true_iff in H as [Hc Hr].
    destruct (Ascii.eqb_spec c sep) as [->|_]; [congruence|]. now rewrite (IH Hr).
Qed.

Lemma split_last_app sep s a b :
  split_last sep s = Some (a, b) -> s = (a ++ String sep b)%string.
Proof.
  revert a b. induction s as [|c r IH]; intros a b; cbn [split_last]; [discriminate|].
  destruct (split_last sep r) as [[a' b']|].
  - intros H. inversion H; subst. cbn. f_equal. now apply IH.
  - destruct (Ascii.eqb_spec c sep) as [->|Hne]; [|discriminate].
    intros H. inversion H; subst. reflexivity.
Qed.

Lemma split_last_none sep (p : ascii -> bool) s :
  p sep = false -> string_forallb p s = true -> split_last sep s = None.
Proof.
  intros Hsep. induction s as [|c r IH]; cbn [split_last string_forallb]; [reflexivity|].
  intros H. apply andb_true_iff in H as [Hc Hr]. rewrite (IH Hr).
  destruct (Ascii.eqb_spec c sep) as [->|_]; [congruence|reflexivity].
Qed.

Lemma split_last_found sep (p : ascii -> bool) a b :
  p sep = false -> string_forallb p b = true ->
  split_last sep (a ++ String sep b) = Some (a, b).
Proof.
  intros Hsep Hb. induction a as [|c r IH]; cbn [append split_last].
  - rewrite (split_last_none sep p b Hsep Hb). now rewrite Ascii.eqb_refl.
  - now rewrite IH.
Qed.

Lemma nonempty_true s : nonempty s = true <-> s <> EmptyString.
Proof. destruct s; cbn; split; intros H; congruence. Qed.

Lemma chomp_newline_app e :
  chomp_newline (e ++ String "010" EmptyString) = Some e.
Proof.
  induction e as [|x e IH]; [reflexivity|].
  change (String x e ++ String "010" EmptyString)%string
    with (String x (e ++ String "010" EmptyString)).
  destruct (e ++ String "010" EmptyString)%string as [|c r] eqn:E.
  - destruct e; discriminate E.
  - change (chomp_newline (String x (String c r)))
      with (option_map (String x) (chomp_newline (String c r))).
    now rewrite IH.
Qed.

Lemma chomp_newline_inv s e :
  chomp_newline s = Some e -> s = (e ++ String "010" EmptyString)%string.
Proof.
  revert e. induction s as [|c r IH]; intros e; [discriminate|].
  destruct r as [|c' r'].
  - cbn [chomp_newline]. destruct (Ascii.eqb_spec c "010"%char) as [->|Hne];
      [|discriminate].
    intros H. inversion H. reflexivity.
  - change (chomp_newline (String c (String c' r')))
      with (option_map (String c) (chomp_newline (String c' r'))).
    destruct (chomp_newline (String c' r')) as [e'|]; [|discriminate].
    intros H. inversion H; subst. cbn [append]. f_equal. now apply IH.
Qed.

Lemma chomp_newline_some s e :
  chomp_newline s = Some e <-> s = (e ++ String "010" EmptyString)%string.
Proof.
  split; [apply chomp_newline_inv|]. intros ->. apply chomp_newline_app.
Qed.

Lemma email_pattern_shape s : email_pattern s = true <-> email_shape s.
Proof.
  unfold email_pattern, email_shape. split.
  - destruct (split_first "@" s) as [[loc rest]|] eqn:E1; [|discriminate].
    destruct (split_last "." rest) as [[dom tld]|] eqn:E2;
      [|rewrite andb_false_r; discriminate].
    intros H.
    repeat match goal with
    | H : (_ && _)%bool = true |- _ => apply andb_true_iff in H as [? ?]
    end.
    exists loc, dom, tld.
    apply split_first_app in E1. apply split_last_app in E2. subst.
    repeat match goal with
    | H : (_ <=? _) = true |- _ => apply Z.leb_le in H
    | H : nonempty _ = true |- _ => apply nonempty_true in H
    end.
    repeat split; first [assumption|reflexivity].
  - intros (loc & dom & tld & -> & Hl & Hlc & Hd & Hdc & Ht & Htc).
    change (loc ++ "@" ++ dom ++ "." ++ tld)%string
      with (loc ++ String "@" (dom ++ String "." tld))%string.
    rewrite (split_first_found "@" email_local_char loc _ eq_refl Hlc).
    rewrite (split_last_found "." is_ascii_letter dom tld eq_refl Htc).
    apply nonempty_true in Hl, Hd. apply Z.leb_le in Ht.
    rewrite Hl, Hlc, Hd, Hdc, Htc, Ht. reflexivity.
Qed.

(** X26. [validate_email] accepts exactly the strings [local@domain.tld]
    whose local part is a non-empty string over letters, digits and
    [._%+-], whose domain is a non-empty string over letters, digits, dots
    and hyphens, and whose last label has at least two letters and
    nothing else, and the same strings followed by one newline, which the
    [$] of the pattern lets through.  An accepted address without that
    newline has exactly one [@] and no space in it. *)
Theorem validate_email_spec :
  forall s,
    (validate_email s = true <->
     email_shape s \/ exists e, s = (e ++ String "010" EmptyString)%string /\ email_shape e) /\
    (email_shape s ->
     string_existsb is_space s = false /\
     exists loc rest, s = (loc ++ "@" ++ rest)%string /\
       string_existsb (Ascii.eqb "@") loc = false /\
       string_existsb (Ascii.eqb "@") rest = false).
Proof.
  intros s. split.
  - unfold validate_email. rewrite orb_true_iff, email_pattern_shape. split.
    + intros [H|H]; [now left|right].
      destruct (chomp_newline s) as [e|] eqn:E; [|discriminate].
      exists e. split; [now apply chomp_newline_some|now apply email_pattern_shape].
    + intros [H|(e & He & H)]; [now left|right].
      apply chomp_newline_some in He. rewrite He. now apply email_pattern_shape.
  - intros (loc & dom & tld & -> & Hl & Hlc & Hd & Hdc & Ht & Htc).
    assert (Hex : forall (p q : ascii -> bool) x,
              (forall c, p c = true -> q c = false) ->
              string_forallb p x = true -> string_existsb q x = false).
    { intros p q x Hpq. induction x as [|c r IH]; cbn; [reflexivity|].
      intros H. apply andb_true_iff in H as [Hc Hr]. now rewrite (Hpq c Hc), IH. }
    assert (Happ : forall q x y,
              string_existsb q (x ++ y) = (string_existsb q x || string_existsb q y)%bool).
    { intros q x y. induction x as [|c r IH]; cbn; [reflexivity|].
      now rewrite IH, orb_assoc. }
    assert (L1 : forall c, email_local_char c = true -> is_space c = false)
      by (intros [[] [] [] [] [] [] [] []]; cbn; intros H; congruence).
    assert (L2 : forall c, email_domain_char c = true -> is_space c = false)
      by (intros [[] [] [] [] [] [] [] []]; cbn; intros H; congruence).
    assert (L3 : forall c, is_ascii_letter c = true -> is_space c = false)
      by (intros [[] [] [] [] [] [] [] []]; cbn; intros H; congruence).
    assert (A1 : forall c, email_local_char c = true -> Ascii.eqb "@" c = false)
      by (intros [[] [] [] [] [] [] [] []]; cbn; intros H; congruence).
    assert (A2 : forall c, email_domain_char c = true -> Ascii.eqb "@" c = false)
      by (intros [[] [] [] [] [] [] [] []]; cbn; intros H; congruence).
    assert (A3 : forall c, is_ascii_letter c = true -> Ascii.eqb "@" c = false)
      by (intros [[] [] [] [] [] [] [] []]; cbn; intros H; congruence).
    split.
    + rewrite !Happ, (Hex _ _ loc L1 Hlc), (Hex _ _ dom L2 Hdc), (Hex _ _ tld L3 Htc).
      reflexivity.
    + exists loc, (dom ++ "." ++ tld)%string. split; [reflexivity|].
      split; [exact (Hex _ _ loc A1 Hlc)|].
      rewrite !Happ, (Hex _ _ dom A2 Hdc), (Hex _ _ tld A3 Htc). reflexivity.
Qed.

(** * Who can change what *)

Lemma get_Submission_kept st st' sid s s' :
  submission_ids_unique st -> incl (submissions st') (submissions st) ->
  get_Submission st sid = Some s -> get_Submission st' sid = Some s' -> s' = s.
Proof.
  intros U Hincl Hs Hs'.
  apply get_Submission_some in Hs as [Hin Hid].
  apply get_Submission_some in Hs' as [Hin' Hid'].
  apply (NoDup_map_inj s_id (submissions st)); [exact U|now apply Hincl|exact Hin|congruence].
Qed.

Lemma get_Submission_shrinks st st' sid s s' :
  submission_ids_unique st -> shrinks st st' ->
  get_Submission st sid = Some s -> get_Submission st' sid = Some s' -> s' = s.
Proof.
  intros U (_ & _ & _ & _ & S & _). apply get_Submission_kept; [exact U|].
  now apply filtered_incl.
Qed.

Lemma get_Submission_appended st new sid s s' :
  get_Submission st sid = Some s ->
  get_Submission (set_submissions st (submissions st ++ new)) sid = Some s' -> s' = s.
Proof.
  unfold get_Submission. cbn [submissions set_submissions]. rewrite find_append.
  intros ->. congruence.
Qed.

Lemma get_Submission_replaced_at st sub sub' sid s s' :
  get_Submission st (s_id sub') = Some sub ->
  get_Submission st sid = Some s ->
  get_Submission (replace_submission st sub') sid = Some s' ->
  s' <> s -> sid = s_id sub' /\ s = sub /\ s' = sub'.
Proof.
  intros Hsub Hs Hs' Hne. destruct (Z.eq_dec sid (s_id sub')) as [->|Hd].
  - rewrite (get_Submission_replace st sub sub' Hsub) in Hs'.
    repeat split; congruence.
  - rewrite (get_Submission_replace_other st sub' sid Hd) in Hs'. congruence.
Qed.

Section WhoCanChangeWhat.
Context {K : Collaborators}.

(** X27. Only the author changes the work and only the teacher changes the
    grade: in a reachable state, if an event leaves a submission in the
    table but changes it, then either the event is an [update_submission]
    request of the author of the submission, and id, author, assignment,
    grade, feedback and grading time are as before, or it is a
    [grade_submission] request of the owner of the class the submission's
    assignment belongs to, and id, author, assignment, content, file name,
    file size and submission time are as before. *)
Theorem submission_changed_only_by_author_or_teacher :
  forall st ev sid s s',
    reachable st ->
    get_Submission st sid = Some s ->
    get_Submission (step st ev) sid = Some s' ->
    s' <> s ->
    (exists cid aid body now,
       ev = Api (UpdateSubmission (Some (s_student_id s)) cid aid sid body now) /\
       same_but_work s s') \/
    (exists uid cid aid body now a,
       ev = Api (GradeSubmission (Some uid) cid aid sid body now) /\
       owned_class st cid uid = true /\
       get_Assignment st (s_assignment_id s) = Some a /\ a_class_id a = cid /\
       same_but_grading s s').
Proof.
  intros st ev sid s s' Hr Hs Hs' Hne.
  assert (U : submission_ids_unique st).
  { apply (reachable_invariant submissions_wf);
      [split; constructor|apply step_submissions_wf|exact Hr]. }
  destruct ev as [rq|s1 s2 pc now].
  - cbn [step] in Hs'. revert Hs'.
    destruct rq; unfold_handlers; unfold Submission_assignment.
    all: split_handler.
    all: cbn [fst]; intros Hs'.
    all: try solve [exfalso; apply Hne; congruence].
    all: try solve [exfalso; apply Hne;
                    eapply (get_Submission_shrinks st); [exact U| |exact Hs|exact Hs'];
                    auto with cascade].
    all: try solve [exfalso; apply Hne;
                    eapply (get_Submission_appended st); eassumption].
    all: try solve [exfalso; apply Hne;
                    eapply (get_Submission_kept st); [exact U| |exact Hs|exact Hs'];
                    intros x Hx; exact Hx].
    all: match goal with
         | Hsub : get_Submission ?st0 ?sid0 = Some ?sub,
           Hnew : get_Submission (replace_submission ?st0 ?sub') ?sid1 = Some ?s1,
           Hold : get_Submission ?st0 ?sid1 = Some ?s0,
           Hdiff : ?s1 <> ?s0 |- _ =>
             pose proof (proj2 (get_Submission_some _ _ _ Hsub)) as Hid0;
             destruct (get_Submission_replaced_at st0 sub sub' sid1 s0 s1)
               as (Hsid & Hsub_eq & Hs'_eq);
               [cbn [s_id]; rewrite Hid0; exact Hsub|exact Hold|exact Hnew|exact Hdiff|];
             cbn [s_id] in Hsid; rewrite Hid0 in Hsid;
             rewrite Hs'_eq, Hsub_eq, Hsid; clear Hs'_eq Hsub_eq Hsid
         end.
    all: repeat match goal with
         | H : negb _ = false |- _ => apply negb_false_iff in H
         | H : (_ =? _) = true |- _ => apply Z.eqb_eq in H
         end.
    all: try solve [left; do 4 eexists; split;
                    [match goal with H : s_student_id _ = _ |- _ => rewrite H end;
                     reflexivity
                    |repeat split]].
    all: try solve [right; do 6 eexists; split; [reflexivity|];
                    split; [eassumption|]; split; [eassumption|];
                    split; [assumption|repeat split]].
  - exfalso. apply Hne. cbn [step] in Hs'.
    eapply (get_Submission_kept st); [exact U| |exact Hs|exact Hs'].
    unfold _seed_data. destruct (users st); intros x Hx; exact Hx.
Qed.
End WhoCanChangeWhat.

(** * What a deletion keeps *)

Lemma child_keys_shrinks st st' : shrinks st st' -> child_keys st -> child_keys st'.
Proof.
  intros (_ & _ & _ & _ & S & R) [NS NR].
  split; eapply filtered_NoDup_map; eassumption.
Qed.

Lemma kept_submission_delete_submission st s x :
  In x (submissions st) -> s_id x <> s_id s ->
  In x (submissions (session_delete_Submission st s)).
Proof.
  intros Hx Hne. rewrite submissions_after_delete. apply filter_In.
  split; [exact Hx|]. now apply negb_true_iff, Z.eqb_neq.
Qed.

Lemma kept_review_delete_submission st s r :
  child_keys st -> In r (peer_reviews st) -> r_submission_id r <> s_id s ->
  In r (peer_reviews (session_delete_Submission st s)).
Proof.
  intros [_ NR] Hr Hne. rewrite (peer_reviews_after_delete_submission st s NR).
  apply filter_In. split; [exact Hr|]. now apply negb_true_iff, Z.eqb_neq.
Qed.

Lemma kept_fold_delete_submissions l :
  forall st, child_keys st ->
    (forall x, In x (submissions st) -> (forall s, In s l -> s_id x <> s_id s) ->
       In x (submissions (fold_left session_delete_Submission l st))) /\
    (forall r, In r (peer_reviews st) ->
       (forall s, In s l -> r_submission_id r <> s_id s) ->
       In r (peer_reviews (fold_left session_delete_Submission l st))).
Proof.
  induction l as [|s l IH]; intros st Hk; cbn [fold_left]; [now split|].
  destruct (IH (session_delete_Submission st s)
              (child_keys_shrinks _ _ (session_delete_Submission_shrinks st s) Hk))
    as [IHs IHr].
  split.
  - intros x Hx Hne. apply IHs.
    + apply kept_submission_delete_submission; [exact Hx|]. apply Hne. now left.
    + intros s' Hs'. apply Hne. now right.
  - intros r Hr Hne. apply IHr.
    + apply kept_review_delete_submission; [exact Hk|exact Hr|]. apply Hne. now left.
    + intros s' Hs'. apply Hne. now right.
Qed.

Lemma kept_by_delete_assignment st a :
  child_keys st ->
  (forall y, In y (assignments st) -> a_id y <> a_id a ->
     In y (assignments (session_delete_Assignment st a))) /\
  (forall x, In x (submissions st) -> s_assignment_id x <> a_id a ->
     In x (submissions (session_delete_Assignment st a))) /\
  (forall r, In r (peer_reviews st) ->
     (forall s, In s (submissions st) -> s_id s = r_submission_id r ->
        s_assignment_id s <> a_id a) ->
     In r (peer_reviews (session_delete_Assignment st a))).
Proof.
  intros Hk. pose proof Hk as [NS _].
  destruct (kept_fold_delete_submissions (Assignment_submissions st a) st Hk)
    as [Ks Kr].
  split; [|split].
  - intros y Hy Hne. rewrite assignments_after_delete. apply filter_In.
    split; [exact Hy|]. now apply negb_true_iff, Z.eqb_neq.
  - intros x Hx Hne. unfold session_delete_Assignment. cbn [submissions set_assignments].
    apply Ks; [exact Hx|]. intros s Hs Heq.
    apply filter_In in Hs as [Hs Hsa]. apply Z.eqb_eq in Hsa.
    assert (x = s) by now apply (NoDup_map_inj s_id (submissions st)).
    subst x. contradiction.
  - intros r Hr Hfree. unfold session_delete_Assignment.
    cbn [peer_reviews set_assignments].
    apply Kr; [exact Hr|]. intros s Hs Heq.
    apply filter_In in Hs as [Hs Hsa]. apply Z.eqb_eq in Hsa.
    now apply (Hfree s Hs).
Qed.

Lemma kept_fold_delete_assignments l :
  forall st, child_keys st ->
    (forall y, In y (assignments st) -> (forall a, In a l -> a_id y <> a_id a) ->
       In y (assignments (fold_left session_delete_Assignment l st))) /\
    (forall x, In x (submissions st) ->
       (forall a, In a l -> s_assignment_id x <> a_id a) ->
       In x (submissions (fold_left session_delete_Assignment l st))) /\
    (forall r, In r (peer_reviews st) ->
       (forall s, In s (submissions st) -> s_id s = r_submission_id r ->
          forall a, In a l -> s_assignment_id s <> a_id a) ->
       In r (peer_reviews (fold_left session_delete_Assignment l st))).
Proof.
  induction l as [|a l IH]; intros st Hk; cbn [fold_left]; [now repeat split|].
  pose proof (cascades_shrinks _ _ (session_delete_Assignment_cascades st a)) as Sh.
  destruct (IH (session_delete_Assignment st a) (child_keys_shrinks _ _ Sh Hk))
    as (IHa & IHs & IHr).
  destruct (kept_by_delete_assignment st a Hk) as (Ka & Ks & Kr).
  split; [|split].
  - intros y Hy Hne. apply IHa.
    + apply Ka; [exact Hy|]. apply Hne. now left.
    + intros a' Ha'. apply Hne. now right.
  - intros x Hx Hne. apply IHs.
    + apply Ks; [exact Hx|]. apply Hne. now left.
    + intros a' Ha'. apply Hne. now right.
  - intros r Hr Hfree. apply IHr.
    + apply Kr; [exact Hr|]. intros s Hs Heq. apply (Hfree s Hs Heq). now left.
    + intros s Hs Heq a' Ha'.
      destruct Sh as (_ & _ & _ & _ & S & _).
      apply (Hfree s); [now apply (filtered_incl _ _ S)|exact Heq|now right].
Qed.

(** Deleting a class keeps every row that is not under the class. *)
Lemma kept_by_delete_class st c :
  NoDup (map a_id (assignments st)) -> child_keys st ->
  users (session_delete_Class st c) = users st /\
  classes (session_delete_Class st c)
  = filter (fun x => negb (c_id x =? c_id c)) (classes st) /\
  class_students (session_delete_Class st c)
  = filter (fun e => negb (e_class_id e =? c_id c)) (class_students st) /\
  (forall a, In a (assignments st) -> ~ assignment_under (c_id c) a ->
     In a (assignments (session_delete_Class st c))) /\
  (forall s, In s (submissions st) -> ~ submission_under st (c_id c) s ->
     In s (submissions (session_delete_Class st c))) /\
  (forall r, In r (peer_reviews st) -> ~ review_under st (c_id c) r ->
     In r (peer_reviews (session_delete_Class st c))).
Proof.
  intros NA Hk.
  destruct (kept_fold_delete_assignments (Class_assignments st c) st Hk)
    as (Ka & Ks & Kr).
  split; [apply shrinks_users, session_delete_Class_shrinks|].
  split; [apply classes_after_delete|].
  split; [apply class_students_after_delete|].
  unfold session_delete_Class.
  cbn [assignments submissions peer_reviews set_classes set_class_students].
  split; [|split].
  - intros a Ha Hfree. apply Ka; [exact Ha|]. intros a' Ha' Heq.
    apply filter_In in Ha' as [Ha' Hc]. apply Z.eqb_eq in Hc.
    assert (a = a') by now apply (NoDup_map_inj a_id (assignments st)).
    subst a'. now apply Hfree.
  - intros s Hs Hfree. apply Ks; [exact Hs|]. intros a Ha Heq.
    apply filter_In in Ha as [Ha Hc]. apply Z.eqb_eq in Hc.
    apply Hfree. now exists a.
  - intros r Hr Hfree. apply Kr; [exact Hr|]. intros s Hs Heq a Ha Hsa.
    apply filter_In in Ha as [Ha Hc]. apply Z.eqb_eq in Hc.
    apply Hfree. exists s. split; [exact Hs|]. split; [now exists a|now symmetry].
Qed.

(** * The frame of [delete_class] *)

Section DeleteClassFrame.
Context {K : Collaborators}.

Lemma reachable_child_keys st :
  reachable st -> NoDup (map a_id (assignments st)) /\ child_keys st.
Proof.
  intros Hr. destruct (reachable_keys_wf st Hr) as (_ & NA & NR).
  assert (W : submissions_wf st).
  { apply (reachable_invariant submissions_wf);
      [split; constructor|apply step_submissions_wf|exact Hr]. }
  destruct W as [NS _]. now repeat split.
Qed.

(** What a 200 of [delete_class] tells. *)
Lemma delete_class_deleted st ident cid :
  status (delete_class st ident cid) = 200 ->
  exists cls, get_Class st cid = Some cls /\ ident = Some (c_owner_id cls) /\
              fst (delete_class st ident cid) = session_delete_Class st cls.
Proof.
  unfold_handlers. split_handler.
  all: cbn [status fst snd]; intros H; try discriminate H.
  eexists. split; [reflexivity|]. split; [|reflexivity].
  match goal with H : negb (_ =? _) = false |- _ =>
    apply negb_false_iff, Z.eqb_eq in H; now rewrite H end.
Qed.

(** X28. [delete_class] removes the class and what hangs under it, and
    nothing else.  In a reachable state, after a 200 of [delete_class]:
    users are untouched; the class table and the membership table have
    lost exactly the rows of that class id; and an assignment, submission
    or peer review of the old state is in the new state exactly when it
    is not under the class (an assignment of the class, a submission of
    such an assignment, a review of such a submission).  The rows that
    stay keep their order. *)
Theorem delete_class_frame :
  forall st ident cid,
    reachable st ->
    status (delete_class st ident cid) = 200 ->
    let st' := fst (delete_class st ident cid) in
    users st' = users st /\
    classes st' = filter (fun x => negb (c_id x =? cid)) (classes st) /\
    class_students st'
    = filter (fun e => negb (e_class_id e =? cid)) (class_students st) /\
    (forall a, In a (assignments st) ->
       (In a (assignments st') <-> ~ assignment_under cid a)) /\
    (forall s, In s (submissions st) ->
       (In s (submissions st') <-> ~ submission_under st cid s)) /\
    (forall r, In r (peer_reviews st) ->
       (In r (peer_reviews st') <-> ~ review_under st cid r)) /\
    shrinks st st'.
Proof.
  intros st ident cid Hr H.
  destruct (delete_class_deleted _ _ _ H) as (cls & Hc & _ & ->).
  pose proof (proj2 (get_Class_some _ _ _ Hc)) as Hid. subst cid.
  destruct (reachable_child_keys st Hr) as [NA Hk].
  destruct (kept_by_delete_class st cls NA Hk) as (KU & KC & KE & KA & KS & KR).
  destruct (session_delete_Class_gone st cls) as (_ & _ & GA & GS & GR).
  cbv zeta.
  split; [exact KU|]. split; [exact KC|]. split; [exact KE|].
  split; [intros a Ha; split; [apply GA|now apply KA]|].
  split; [intros s Hs; split; [apply GS|now apply KS]|].
  split; [intros r Hr'; split; [apply GR|now apply KR]|].
  apply session_delete_Class_shrinks.
Qed.
End DeleteClassFrame.

(** * Authors *)

Lemma authors_wf_same st st' :
  users st' = users st -> submissions st' = submissions st ->
  peer_reviews st' = peer_reviews st -> authors_wf st -> authors_wf st'.
Proof. unfold authors_wf, get_User. now intros -> -> ->. Qed.

Lemma authors_wf_shrinks st st' : shrinks st st' -> authors_wf st -> authors_wf st'.
Proof.
  intros (U & _ & _ & _ & S & R) [A B]. unfold authors_wf, get_User. rewrite U.
  split; intros x Hx; [apply A|apply B]; eapply filtered_incl; eassumption.
Qed.

Lemma authors_wf_users st new :
  authors_wf st -> authors_wf (set_users st (users st ++ new)).
Proof.
  intros [A B]. split; intros x Hx.
  - destruct (A x Hx) as (u & Hu & Hrole). exists u. split; [|exact Hrole].
    now apply get_User_append.
  - destruct (B x Hx) as (u & Hu & Hrole). exists u. split; [|exact Hrole].
    now apply get_User_append.
Qed.

Lemma authors_wf_add_submission st s u :
  authors_wf st -> get_User st (s_student_id s) = Some u -> u_role u = "student" ->
  authors_wf (set_submissions st (submissions st ++ [s])).
Proof.
  intros [A B] Hu Hrole. split; [|exact B].
  intros x Hx. cbn [submissions set_submissions] in Hx.
  apply in_app_or in Hx as [Hx|[<-|[]]]; [now apply A|]. now exists u.
Qed.

Lemma authors_wf_replace_submission st sid s s' :
  authors_wf st -> get_Submission st sid = Some s ->
  s_student_id s' = s_student_id s ->
  authors_wf (replace_submission st s').
Proof.
  intros [A B] Hs Hst. apply get_Submission_some in Hs as [Hin _].
  split; [|exact B]. intros x Hx. unfold replace_submission in Hx.
  cbn [submissions set_submissions] in Hx.
  apply in_map_iff in Hx as (y & <- & Hy).
  destruct (s_id y =? s_id s'); [rewrite Hst|]; now apply A.
Qed.

Lemma authors_wf_add_review st r u :
  authors_wf st -> get_User st (r_reviewer_id r) = Some u -> u_role u = "student" ->
  authors_wf (set_peer_reviews st (peer_reviews st ++ [r])).
Proof.
  intros [A B] Hu Hrole. split; [exact A|].
  intros x Hx. cbn [peer_reviews set_peer_reviews] in Hx.
  apply in_app_or in Hx as [Hx|[<-|[]]]; [now apply B|]. now exists u.
Qed.

Section Authors.
Context {K : Collaborators}.

Lemma handle_authors_wf st rq : authors_wf st -> authors_wf (fst (handle st rq)).
Proof.
  intros Inv. destruct rq; unfold_handlers.
  all: split_handler.
  all: cbn [fst]; try assumption.
  all: try solve [apply (authors_wf_same st); [reflexivity ..|assumption]].
  all: try solve [apply authors_wf_shrinks with st; auto with cascade].
  all: try solve [apply authors_wf_users; assumption].
  all: try solve [eapply authors_wf_replace_submission;
                    [assumption|eassumption|reflexivity]].
  all: match goal with
       | Hu : get_User ?s ?z = Some ?u,
         Hr : negb (String.eqb (u_role ?u) "student") = false |- _ =>
           apply negb_false_iff, String.eqb_eq in Hr;
           first [eapply authors_wf_add_submission; [assumption|exact Hu|exact Hr]
                 |eapply authors_wf_add_review; [assumption|exact Hu|exact Hr]]
       end.
Qed.

Lemma step_authors_wf st ev : authors_wf st -> authors_wf (step st ev).
Proof.
  intros Inv. destruct ev as [rq|s1 s2 pc now]; [now apply handle_authors_wf|].
  simpl. unfold _seed_data. destruct (users st) as [|u0 l] eqn:Hu; [|assumption].
  destruct Inv as [A B]. split; intros x Hx.
  - destruct (A x Hx) as (u & Hg & _). unfold get_User in Hg. rewrite Hu in Hg.
    discriminate Hg.
  - destruct (B x Hx) as (u & Hg & _). unfold get_User in Hg. rewrite Hu in Hg.
    discriminate Hg.
Qed.

Lemma reachable_authors_wf st : reachable st -> authors_wf st.
Proof.
  apply (reachable_invariant authors_wf); [|apply step_authors_wf].
  split; intros x [].
Qed.

(** X29. Every row has its parents and its author.  In every reachable
    state each assignment belongs to an existing class; each submission
    belongs to an existing assignment and is the work of an existing
    account with the role student; each peer review belongs to an existing
    submission and is written by an existing account with the role
    student.  (The author need not be a member of the class any more:
    leaving a class keeps the submissions.) *)
Theorem data_integrity :
  forall st, reachable st ->
    (forall a, In a (assignments st) ->
       exists c, get_Class st (a_class_id a) = Some c) /\
    (forall s, In s (submissions st) ->
       (exists a, get_Assignment st (s_assignment_id s) = Some a) /\
       (exists u, get_User st (s_student_id s) = Some u /\ u_role u = "student")) /\
    (forall r, In r (peer_reviews st) ->
       (exists s, get_Submission st (r_submission_id r) = Some s) /\
       (exists u, get_User st (r_reviewer_id r) = Some u /\ u_role u = "student")).
Proof.
  intros st Hr.
  destruct (reachable_no_orphans st Hr) as (OA & OS & OR).
  destruct (reachable_authors_wf st Hr) as [AS AR].
  assert (F : forall {A} (f : A -> Z) (l : list A) k,
            (exists x, In x l /\ f x = k) -> exists y, find (fun y => f y =? k) l = Some y).
  { intros A f l k (x & Hx & Hk).
    destruct (find (fun y => f y =? k) l) as [y|] eqn:E; [now exists y|].
    apply (find_none _ _ E) in Hx. rewrite Hk, Z.eqb_refl in Hx. discriminate. }
  split; [|split].
  - intros a Ha. apply (F _ c_id). apply (OA a Ha).
  - intros s Hs. split; [apply (F _ a_id), (OS s Hs)|apply (AS s Hs)].
  - intros r Hr'. split; [apply (F _ s_id), (OR r Hr')|apply (AR r Hr')].
Qed.
End Authors.

(** * Who can remove what *)

Lemma keeps_refl st : keeps st st.
Proof.
  repeat split; try (intros x Hx; exact Hx); intros x Hx; now exists x.
Qed.

Lemma keeps_more st st' :
  incl (classes st) (classes st') -> incl (class_students st) (class_students st') ->
  incl (assignments st) (assignments st') -> incl (submissions st) (submissions st') ->
  incl (peer_reviews st) (peer_reviews st') -> keeps st st'.
Proof.
  intros C E A S R. repeat split; try assumption.
  - intros a Ha. exists a. split; [now apply A|reflexivity].
  - intros s Hs. exists s. split; [now apply S|reflexivity].
Qed.

Lemma keeps_replace_assignment st a : keeps st (replace_assignment st a).
Proof.
  unfold replace_assignment.
  repeat split; cbn; try (intros x Hx; exact Hx).
  - intros x Hx. exists (if a_id x =? a_id a then a else x). split.
    + now apply (in_map (fun x => if a_id x =? a_id a then a else x)).
    + destruct (Z.eqb_spec (a_id x) (a_id a)); congruence.
  - intros x Hx. now exists x.
Qed.

Lemma keeps_replace_submission st s : keeps st (replace_submission st s).
Proof.
  unfold replace_submission.
  repeat split; cbn; try (intros x Hx; exact Hx).
  - intros x Hx. now exists x.
  - intros x Hx. exists (if s_id x =? s_id s then s else x). split.
    + now apply (in_map (fun x => if s_id x =? s_id s then s else x)).
    + destruct (Z.eqb_spec (s_id x) (s_id s)); congruence.
Qed.

Lemma find_key_present {A} (f : A -> Z) (l : list A) x :
  In x l -> find (fun y => f y =? f x) l <> None.
Proof.
  intros Hx E. apply (find_none _ _ E) in Hx. rewrite Z.eqb_refl in Hx. discriminate.
Qed.

Lemma removed_by_filter {A} (p : A -> bool) (l : list A) x :
  In x l -> ~ In x (filter p l) -> p x = false.
Proof.
  intros Hx Hn. destruct (p x) eqn:E; [|reflexivity].
  exfalso. apply Hn. apply filter_In. now split.
Qed.

Section Removal.
Context {K : Collaborators}.

Lemma keeps_seed st s1 s2 pc now : keeps st (_seed_data st s1 s2 pc now).
Proof.
  unfold _seed_data. destruct (users st); [|apply keeps_refl].
  apply keeps_more; cbn; intros x Hx; try exact Hx; apply in_or_app; now left.
Qed.

(** An event keeps every row, or it is one of the four removing requests,
    accepted. *)
Lemma step_cases st ev :
  keeps st (step st ev) \/
  (exists cls,
     get_Class st (c_id cls) = Some cls /\
     ev = Api (DeleteClass (Some (c_owner_id cls)) (c_id cls)) /\
     step st ev = session_delete_Class st cls) \/
  (exists uid a,
     owned_class st (a_class_id a) uid = true /\
     get_Assignment st (a_id a) = Some a /\
     ev = Api (DeleteAssignment (Some uid) (a_class_id a) (a_id a)) /\
     step st ev = session_delete_Assignment st a) \/
  (exists s a,
     get_Submission st (s_id s) = Some s /\
     get_Assignment st (s_assignment_id s) = Some a /\
     ev = Api (DeleteSubmission (Some (s_student_id s)) (a_class_id a)
                 (s_assignment_id s) (s_id s)) /\
     step st ev = session_delete_Submission st s) \/
  (exists uid cls,
     get_Class st (c_id cls) = Some cls /\
     ev = Api (LeaveClass (Some uid) (c_id cls)) /\
     step st ev
     = set_class_students st
         (filter (fun e => negb ((e_class_id e =? c_id cls) && (e_user_id e =? uid)))
                 (class_students st))).
Proof.
  destruct ev as [rq|s1 s2 pc now]; [|left; apply keeps_seed].
  cbn [step]. destruct rq; unfold_handlers; unfold Submission_assignment.
  all: split_handler.
  all: cbn [fst].
  all: try solve [left; apply keeps_refl].
  all: try solve [left; apply keeps_replace_assignment].
  all: try solve [left; apply keeps_replace_submission].
  all: try solve [left; apply keeps_more; cbn; intros x Hx; try exact Hx;
                  apply in_or_app; now left].
  all: repeat match goal with
       | H : negb _ = false |- _ => apply negb_false_iff in H
       | H : (_ =? _) = true |- _ => apply Z.eqb_eq in H
       end.
  all: repeat match goal with
       | H : get_Class _ _ = Some _ |- _ =>
           pose proof (proj2 (get_Class_some _ _ _ H)); revert H
       | H : get_Assignment _ _ = Some _ |- _ =>
           pose proof (proj2 (get_Assignment_some _ _ _ H)); revert H
       | H : get_Submission _ _ = Some _ |- _ =>
           pose proof (proj2 (get_Submission_some _ _ _ H)); revert H
       end; intros.
  all: subst.
  - right; left. eexists. repeat split; eassumption.
  - right; right; right; right. do 2 eexists. repeat split; eassumption.
  - right; right; left. do 2 eexists. repeat split; eassumption.
  - right; right; right; left. do 2 eexists. repeat split; try eassumption.
Qed.

Lemma owned_class_owner st cid uid :
  owned_class st cid uid = true ->
  exists c, get_Class st cid = Some c /\ c_owner_id c = uid.
Proof.
  unfold owned_class. destruct (get_Class st cid) as [c|]; [|discriminate].
  intros H. apply Z.eqb_eq in H. now exists c.
Qed.

Lemma class_removal st ev c :
  reachable st -> In c (classes st) -> ~ In c (classes (step st ev)) ->
  deletes_class st ev c.
Proof.
  intros Hr Hin Hout. destruct (reachable_keys_wf st Hr) as (NC & _ & _).
  destruct (step_cases st ev)
    as [Kp|[(cls & Hc & Hev & E)|[(uid & a & _ & _ & _ & E)
       |[(s & a & _ & _ & _ & E)|(uid & cls & _ & _ & E)]]]].
  - exfalso. apply Hout. now apply Kp.
  - rewrite E, classes_after_delete in Hout.
    apply removed_by_filter in Hout; [|exact Hin].
    apply negb_false_iff, Z.eqb_eq in Hout.
    apply get_Class_some in Hc as [Hc _].
    assert (c = cls) by now apply (NoDup_map_inj c_id (classes st)).
    subst cls. now split.
  - exfalso. apply Hout. now rewrite E, classes_after_delete_assignment.
  - exfalso. apply Hout. now rewrite E, classes_after_delete_submission.
  - exfalso. apply Hout. now rewrite E.
Qed.

Lemma membership_removal st ev e :
  In e (class_students st) -> ~ In e (class_students (step st ev)) ->
  leaves_class ev e \/
  exists c, c_id c = e_class_id e /\ deletes_class st ev c.
Proof.
  intros Hin Hout.
  destruct (step_cases st ev)
    as [Kp|[(cls & Hc & Hev & E)|[(uid & a & _ & _ & _ & E)
       |[(s & a & _ & _ & _ & E)|(uid & cls & _ & Hev & E)]]]].
  - exfalso. apply Hout. now apply Kp.
  - rewrite E, class_students_after_delete in Hout.
    apply removed_by_filter in Hout; [|exact Hin].
    apply negb_false_iff, Z.eqb_eq in Hout.
    right. exists cls. split; [now symmetry|].
    split; [now apply get_Class_some in Hc|exact Hev].
  - exfalso. apply Hout. now rewrite E, class_students_after_delete_assignment.
  - exfalso. apply Hout. now rewrite E, class_students_after_delete_submission.
  - rewrite E in Hout. cbn [class_students set_class_students] in Hout.
    apply removed_by_filter in Hout; [|exact Hin].
    apply negb_false_iff, andb_true_iff in Hout as [H1 H2].
    apply Z.eqb_eq in H1, H2. left. unfold leaves_class. now rewrite H1, H2.
Qed.

Lemma assignment_removal st ev a :
  reachable st -> In a (assignments st) ->
  get_Assignment (step st ev) (a_id a) = None ->
  deletes_assignment st ev a \/
  exists c, c_id c = a_class_id a /\ deletes_class st ev c.
Proof.
  intros Hr Hin Hout.
  destruct (reachable_child_keys st Hr) as [NA Hk].
  assert (Gone : ~ In a (assignments (step st ev))).
  { intros H. now apply (find_key_present a_id _ a H). }
  destruct (step_cases st ev)
    as [Kp|[(cls & Hc & Hev & E)|[(uid & a0 & Ho & Ha0 & Hev & E)
       |[(s & a0 & _ & _ & _ & E)|(uid & cls & _ & _ & E)]]]].
  - exfalso. destruct Kp as (_ & _ & KA & _). destruct (KA a Hin) as (a' & Ha' & Hid).
    apply (find_none _ _ Hout) in Ha'. apply Z.eqb_neq in Ha'. contradiction.
  - destruct (Z.eq_dec (a_class_id a) (c_id cls)) as [Hu|Hu].
    + right. exists cls. split; [now symmetry|].
      split; [now apply get_Class_some in Hc|exact Hev].
    + exfalso. apply Gone. rewrite E.
      now apply (kept_by_delete_class st cls NA Hk).
  - destruct (Z.eq_dec (a_id a) (a_id a0)) as [Hu|Hu].
    + apply get_Assignment_some in Ha0 as [Ha0 _].
      assert (a = a0) by now apply (NoDup_map_inj a_id (assignments st)).
      subst a0. destruct (owned_class_owner _ _ _ Ho) as (c & Hc & <-).
      left. now exists c.
    + exfalso. apply Gone. rewrite E.
      now apply (kept_by_delete_assignment st a0 Hk).
  - exfalso. apply Gone. now rewrite E, assignments_after_delete_submission.
  - exfalso. apply Gone. now rewrite E.
Qed.

Lemma submission_removal st ev s :
  reachable st -> In s (submissions st) ->
  get_Submission (step st ev) (s_id s) = None ->
  exists a, get_Assignment st (s_assignment_id s) = Some a /\
    (deletes_submission st ev s \/ deletes_assignment st ev a \/
     exists c, c_id c = a_class_id a /\ deletes_class st ev c).
Proof.
  intros Hr Hin Hout.
  destruct (reachable_child_keys st Hr) as [NA Hk]. pose proof Hk as [NS _].
  destruct (reachable_no_orphans st Hr) as (_ & OS & _).
  destruct (OS s Hin) as (a & Ha & Hid).
  assert (Hga : get_Assignment st (s_assignment_id s) = Some a).
  { unfold get_Assignment. rewrite <- Hid. now apply find_by_key. }
  exists a. split; [exact Hga|].
  assert (Gone : ~ In s (submissions (step st ev))).
  { intros H. now apply (find_key_present s_id _ s H). }
  destruct (step_cases st ev)
    as [Kp|[(cls & Hc & Hev & E)|[(uid & a0 & Ho & Ha0 & Hev & E)
       |[(s0 & a0 & Hs0 & Ha0 & Hev & E)|(uid & cls & _ & _ & E)]]]].
  - exfalso. destruct Kp as (_ & _ & _ & KS & _).
    destruct (KS s Hin) as (s' & Hs' & Hid').
    apply (find_none _ _ Hout) in Hs'. apply Z.eqb_neq in Hs'. contradiction.
  - destruct (Z.eq_dec (a_class_id a) (c_id cls)) as [Hu|Hu].
    + right; right. exists cls. split; [now symmetry|].
      split; [now apply get_Class_some in Hc|exact Hev].
    + exfalso. apply Gone. rewrite E.
      apply (kept_by_delete_class st cls NA Hk); [exact Hin|].
      intros (a2 & Ha2 & Hunder & Hid2).
      assert (a2 = a) by (apply (NoDup_map_inj a_id (assignments st)); congruence).
      subst a2. contradiction.
  - destruct (Z.eq_dec (s_assignment_id s) (a_id a0)) as [Hu|Hu].
    + apply get_Assignment_some in Ha0 as [Ha0 _].
      assert (a = a0) by (apply (NoDup_map_inj a_id (assignments st)); congruence).
      subst a0. destruct (owned_class_owner _ _ _ Ho) as (c & Hc & <-).
      right; left. now exists c.
    + exfalso. apply Gone. rewrite E.
      now apply (kept_by_delete_assignment st a0 Hk).
  - destruct (Z.eq_dec (s_id s) (s_id s0)) as [Hu|Hu].
    + apply get_Submission_some in Hs0 as [Hs0 _].
      assert (s = s0) by now apply (NoDup_map_inj s_id (submissions st)).
      subst s0. left. exists a. split; [exact Hga|].
      rewrite Hga in Ha0. injection Ha0 as <-. now rewrite Hid.
    + exfalso. apply Gone. rewrite E.
      now apply kept_submission_delete_submission.
  - exfalso. apply Gone. now rewrite E.
Qed.

Lemma review_removal st ev r :
  reachable st -> In r (peer_reviews st) ->
  ~ In r (peer_reviews (step st ev)) ->
  exists s a,
    get_Submission st (r_submission_id r) = Some s /\
    get_Assignment st (s_assignment_id s) = Some a /\
    (deletes_submission st ev s \/ deletes_assignment st ev a \/
     exists c, c_id c = a_class_id a /\ deletes_class st ev c).
Proof.
  intros Hr Hin Gone.
  destruct (reachable_child_keys st Hr) as [NA Hk]. pose proof Hk as [NS _].
  destruct (reachable_no_orphans st Hr) as (_ & OS & OR).
  destruct (OR r Hin) as (s & Hs & Hsid).
  destruct (OS s Hs) as (a & Ha & Hid).
  assert (Hgs : get_Submission st (r_submission_id r) = Some s).
  { unfold get_Submission. rewrite <- Hsid. now apply find_by_key. }
  assert (Hga : get_Assignment st (s_assignment_id s) = Some a).
  { unfold get_Assignment. rewrite <- Hid. now apply find_by_key. }
  exists s, a. split; [exact Hgs|]. split; [exact Hga|].
  destruct (step_cases st ev)
    as [Kp|[(cls & Hc & Hev & E)|[(uid & a0 & Ho & Ha0 & Hev & E)
       |[(s0 & a0 & Hs0 & Ha0 & Hev & E)|(uid & cls & _ & _ & E)]]]].
  - exfalso. apply Gone. now apply Kp.
  - destruct (Z.eq_dec (a_class_id a) (c_id cls)) as [Hu|Hu].
    + right; right. exists cls. split; [now symmetry|].
      split; [now apply get_Class_some in Hc|exact Hev].
    + exfalso. apply Gone. rewrite E.
      apply (kept_by_delete_class st cls NA Hk); [exact Hin|].
      intros (s2 & Hs2 & (a2 & Ha2 & Hunder & Hid2) & Hsid2).
      assert (s2 = s) by (apply (NoDup_map_inj s_id (submissions st)); congruence).
      subst s2.
      assert (a2 = a) by (apply (NoDup_map_inj a_id (assignments st)); congruence).
      subst a2. contradiction.
  - destruct (Z.eq_dec (s_assignment_id s) (a_id a0)) as [Hu|Hu].
    + apply get_Assignment_some in Ha0 as [Ha0 _].
      assert (a = a0) by (apply (NoDup_map_inj a_id (assignments st)); congruence).
      subst a0. destruct (owned_class_owner _ _ _ Ho) as (c & Hc & <-).
      right; left. now exists c.
    + exfalso. apply Gone. rewrite E.
      apply (kept_by_delete_assignment st a0 Hk); [exact Hin|].
      intros s2 Hs2 Hsid2.
      assert (s2 = s) by (apply (NoDup_map_inj s_id (submissions st)); congruence).
      now subst s2.
  - destruct (Z.eq_dec (r_submission_id r) (s_id s0)) as [Hu|Hu].
    + apply get_Submission_some in Hs0 as [Hs0 _].
      assert (s = s0) by (apply (NoDup_map_inj s_id (submissions st)); congruence).
      subst s0. left. exists a. split; [exact Hga|].
      rewrite Hga in Ha0. injection Ha0 as <-. now rewrite Hid.
    + exfalso. apply Gone. rewrite E.
      now apply kept_review_delete_submission.
  - exfalso. apply Gone. now rewrite E.
Qed.

(** X30. Who can remove what.  In a reachable state a row disappears only
    by the request of the one entitled to remove it or to remove a row
    above it: a class by [delete_class] of its owner; a membership by
    [leave_class] of that member or by the owner deleting the class; an
    assignment by [delete_assignment] or [delete_class] of the owner of
    its class; a submission by [delete_submission] of its author or by the
    owner of the class deleting the assignment or the class; a peer review
    with the submission it reviews, by one of these three.  No other
    request, no seeding and no request of anybody else makes a row
    disappear; in particular a reviewer cannot take a review back and a
    teacher cannot remove a member or a single submission.  (Assignments
    and submissions are followed by their id, since an update replaces
    the row.) *)
Theorem removal_authority :
  forall st ev,
    reachable st ->
    let st' := step st ev in
    (forall c, In c (classes st) -> ~ In c (classes st') -> deletes_class st ev c) /\
    (forall e, In e (class_students st) -> ~ In e (class_students st') ->
       leaves_class ev e \/
       exists c, c_id c = e_class_id e /\ deletes_class st ev c) /\
    (forall a, In a (assignments st) -> get_Assignment st' (a_id a) = None ->
       deletes_assignment st ev a \/
       exists c, c_id c = a_class_id a /\ deletes_class st ev c) /\
    (forall s, In s (submissions st) -> get_Submission st' (s_id s) = None ->
       exists a, get_Assignment st (s_assignment_id s) = Some a /\
         (deletes_submission st ev s \/ deletes_assignment st ev a \/
          exists c, c_id c = a_class_id a /\ deletes_class st ev c)) /\
    (forall r, In r (peer_reviews st) -> ~ In r (peer_reviews st') ->
       exists s a,
         get_Submission st (r_submission_id r) = Some s /\
         get_Assignment st (s_assignment_id s) = Some a /\
         (deletes_submission st ev s \/ deletes_assignment st ev a \/
          exists c, c_id c = a_class_id a /\ deletes_class st ev c)).
Proof.
  intros st ev Hr st'. subst st'.
  split; [intros c; now apply class_removal|].
  split; [intros e; now apply membership_removal|].
  split; [intros a; now apply assignment_removal|].
  split; [intros s; now apply submission_removal|].
  intros r; now apply review_removal.
Qed.
End Removal.

(* ================================================================== *)
(** * The further theorems at work on the concrete run *)

Lemma classroom_user_3 :
  get_User classroom_db 3
  = Some (mkUser 3 "B" "b@test.com" "bcrypt$Student1" "student" 12).
Proof. vm_compute. reflexivity. Qed.

Lemma classroom_no_orphans : no_orphans classroom_db.
Proof. exact (reachable_no_orphans classroom_db classroom_db_reachable). Qed.

(** Student 2 asks to review the own submission: 400, nothing written. *)
Lemma only_success_writes_witness :
  fst (handle (K := demo_collaborators) classroom_db
         (CreatePeerReview (Some 2) 1 1 1 (Some [("content", VStr "mine")]) 30))
  = classroom_db.
Proof.
  assert (H1 : status (handle (K := demo_collaborators) classroom_db
                         (CreatePeerReview (Some 2) 1 1 1
                            (Some [("content", VStr "mine")]) 30)) <> 200)
    by (vm_compute; discriminate).
  assert (H2 : status (handle (K := demo_collaborators) classroom_db
                         (CreatePeerReview (Some 2) 1 1 1
                            (Some [("content", VStr "mine")]) 30)) <> 201)
    by (vm_compute; discriminate).
  exact (only_success_writes (K := demo_collaborators) classroom_db _
           (or_intror (conj H1 H2))).
Defined.

(** Nobody, and then student 2, asks to delete class 1. *)
Lemma access_control_witness :
  handle (K := demo_collaborators) classroom_db (DeleteClass None 1)
  = (classroom_db, jwt_unauthorized) /\
  handle (K := demo_collaborators) classroom_db (DeleteClass (Some 2) 1)
  = (classroom_db, err "Teacher access required" 403).
Proof.
  assert (Hu : match get_User classroom_db 2 with
               | Some user => u_role user <> "teacher"
               | None => True
               end)
    by (rewrite classroom_user_2; discriminate).
  split.
  - exact (proj1 (access_control (K := demo_collaborators) classroom_db
                    (DeleteClass None 1) None eq_refl) eq_refl).
  - exact (proj1 (proj2 (access_control (K := demo_collaborators) classroom_db
                           (DeleteClass (Some 2) 1) (Some 2) eq_refl))
             "teacher" 2 eq_refl eq_refl Hu).
Defined.

(** Student 2 is still there when class 1 is gone. *)
Lemma accounts_are_permanent_witness :
  get_User (run (K := demo_collaborators) classroom_db [Api (DeleteClass (Some 1) 1)]) 2
  = Some (mkUser 2 "A" "a@test.com" "bcrypt$Student1" "student" 11).
Proof.
  exact (proj1 (accounts_are_permanent (K := demo_collaborators) classroom_db
                  [Api (DeleteClass (Some 1) 1)] 2 _ classroom_user_2)).
Defined.

Lemma account_integrity_witness :
  NoDup (map u_id (users classroom_db)).
Proof.
  exact (proj1 (account_integrity (K := demo_collaborators) classroom_db
                  classroom_db_reachable)).
Defined.

Lemma enrolment_integrity_witness :
  NoDup (map membership_key (class_students classroom_db)).
Proof.
  exact (proj1 (enrolment_integrity (K := demo_collaborators) classroom_db
                  classroom_db_reachable)).
Defined.


(** Student 3 reviews submission 1, then tries again. *)
Lemma review_only_once_witness :
  create_peer_review
    (fst (create_peer_review classroom_db (Some 3) 1 1 1
            (Some [("content", VStr "Nice")]) 30))
    (Some 3) 1 1 1 (Some [("content", VStr "Again")]) 31
  = (fst (create_peer_review classroom_db (Some 3) 1 1 1
            (Some [("content", VStr "Nice")]) 30),
     err "You have already reviewed this submission" 409).
Proof.
  assert (H : status (create_peer_review classroom_db (Some 3) 1 1 1
                        (Some [("content", VStr "Nice")]) 30) = 201)
    by (vm_compute; reflexivity).
  exact (review_only_once classroom_db (Some 3) 1 1 1 _ 30 H
           [("content", VStr "Again")] 31 eq_refl).
Defined.

Lemma review_consumes_pending_witness :
  is_pending classroom_db 3 1 /\
  ~ is_pending (fst (create_peer_review classroom_db (Some 3) 1 1 1
                       (Some [("content", VStr "Nice")]) 30)) 3 1.
Proof.
  assert (H : status (create_peer_review classroom_db (Some 3) 1 1 1
                        (Some [("content", VStr "Nice")]) 30) = 201)
    by (vm_compute; reflexivity).
  exact (review_consumes_pending classroom_db 3 1 1 1 _ 30 H).
Defined.

Lemma pending_entry_reviewable_witness :
  status (create_peer_review classroom_db (Some 3) 1 1 1
            (Some [("content", VStr "Nice")]) 30) = 201.
Proof.
  assert (Hin : In (mkClass 1 "Bio" "Biology" None None "ABC123" 1 13,
                    mkAssignment 1 "Lab Report" None None 1 16,
                    mkSubmission 1 (Some "My report") VNull VNull 2 1 17 None None None)
                   (pending_triples classroom_db 3))
    by (vm_compute; left; reflexivity).
  exact (pending_entry_reviewable (K := demo_collaborators) classroom_db 3 _ _ _ _
           [("content", VStr "Nice")] "Nice" 30
           classroom_db_reachable classroom_user_3 eq_refl Hin eq_refl).
Defined.

(** Student 2, having left, joins again and leaves again. *)
Lemma join_then_leave_witness :
  leave_class (fst (join_class after_leave_db (Some 2)
                      (Some [("classId", VInt 1); ("passcode", VStr "ABC123")]) 30))
              (Some 2) 1
  = (after_leave_db, (JObj [("message", JStr "Left class successfully")], 200)).
Proof.
  assert (H : status (join_class after_leave_db (Some 2)
                        (Some [("classId", VInt 1); ("passcode", VStr "ABC123")]) 30)
              = 200)
    by (vm_compute; reflexivity).
  exact (join_then_leave after_leave_db (Some 2) _ 1 30 H eq_refl).
Defined.

(** Student 3 submits and withdraws. *)
Lemma submit_then_withdraw_witness :
  delete_submission
    (fst (create_submission classroom_db (Some 3) 1 1
            (Some [("content", VStr "Mine")]) 30))
    (Some 3) 1 1 (next_id (map s_id (submissions classroom_db)))
  = (classroom_db, (JObj [("message", JStr "Submission withdrawn")], 200)).
Proof.
  assert (H : status (create_submission classroom_db (Some 3) 1 1
                        (Some [("content", VStr "Mine")]) 30) = 201)
    by (vm_compute; reflexivity).
  exact (submit_then_withdraw classroom_db (Some 3) 1 1 _ 30 classroom_no_orphans H).
Defined.

(** Student 2 withdraws submission 1. *)
Lemma delete_submission_spec_witness :
  snd (delete_submission classroom_db (Some 2) 1 1 1)
  = (JObj [("message", JStr "Submission withdrawn")], 200) /\
  get_Submission (fst (delete_submission classroom_db (Some 2) 1 1 1)) 1 = None.
Proof.
  pose proof (proj2 (proj1 (proj2 (delete_submission_spec classroom_db 2 _ 1 1 1
                                     classroom_user_2 eq_refl))
                       _ _ classroom_submission_1 eq_refl classroom_assignment_1 eq_refl)
                eq_refl) as H.
  cbv zeta in H.
  exact (conj (proj1 H)
              (proj1 (proj2 (proj2 (proj2 (proj2 (proj2 (proj2 H)))))))).
Defined.

(** The teacher deletes assignment 1, and submission 1 with it. *)
Lemma delete_assignment_spec_witness :
  snd (delete_assignment classroom_db (Some 1) 1 1)
  = (JObj [("message", JStr "Assignment deleted")], 200) /\
  get_Assignment (fst (delete_assignment classroom_db (Some 1) 1 1)) 1 = None.
Proof.
  assert (Hown : owned_class classroom_db 1 1 = true) by (vm_compute; reflexivity).
  pose proof (proj2 (proj2 (proj1 (proj2 (delete_assignment_spec classroom_db 1 _ 1 1
                                            classroom_user_1 eq_refl)) Hown)
                       _ classroom_assignment_1) eq_refl) as H.
  cbv zeta in H.
  exact (conj (proj1 H) (proj1 (proj2 (proj2 H)))).
Defined.

(** Student 2 edits submission 1. *)
Lemma update_submission_spec_witness :
  status (update_submission classroom_db (Some 2) 1 1 1
            (Some [("content", VStr " Second draft ")]) 40) = 200.
Proof.
  exact (proj1 (proj1 (proj2 (update_submission_spec classroom_db 2 _ 1 1 1 _ _
                                [("content", VStr " Second draft ")] 40
                                classroom_user_2 eq_refl classroom_submission_1 eq_refl
                                classroom_assignment_1 eq_refl eq_refl))
                  eq_refl)).
Defined.

(** The teacher renames assignment 1. *)
Lemma update_assignment_spec_witness :
  status (update_assignment (K := demo_collaborators) classroom_db (Some 1) 1 1
            (Some [("title", VStr "Lab Report 1")])) = 200.
Proof.
  assert (Hown : owned_class classroom_db 1 1 = true) by (vm_compute; reflexivity).
  exact (proj1 (proj1 (proj2 (update_assignment_spec (K := demo_collaborators)
                                classroom_db 1 _ 1 1 _
                                [("title", VStr "Lab Report 1")]
                                classroom_user_1 eq_refl classroom_assignment_1 eq_refl
                                eq_refl eq_refl))
                  Hown)).
Defined.

(** A number as grade is no server error. *)
Lemma no_server_error_witness :
  status (handle (K := demo_collaborators) classroom_db
            (GradeSubmission (Some 1) 1 1 1 (Some [("grade", VInt 9)]) 40)) <> 500.
Proof.
  exact (no_server_error (K := demo_collaborators) classroom_db
           (GradeSubmission (Some 1) 1 1 1 (Some [("grade", VInt 9)]) 40)
           classroom_no_orphans eq_refl).
Defined.

(** The address of student 2 in another spelling is taken. *)
Lemma register_outcome_witness :
  register (K := demo_collaborators) classroom_db
    (Some [("name", VStr "C"); ("email", VStr " A@Test.com ");
           ("password", VStr "Student1"); ("role", VStr "Student")]) "s4" 50
  = (classroom_db, err "Email already registered" 409).
Proof.
  assert (Hrole : lower (strip "Student") = "student") by (vm_compute; reflexivity).
  assert (Hmail : validate_email (lower (strip " A@Test.com ")) = true)
    by (vm_compute; reflexivity).
  assert (Hpw : fst (validate_password "Student1") = true) by (vm_compute; reflexivity).
  assert (Hu : find_user_by_email classroom_db (lower (strip " A@Test.com "))
               = Some (mkUser 2 "A" "a@test.com" "bcrypt$Student1" "student" 11))
    by (vm_compute; reflexivity).
  exact (proj1 (proj2 (proj2 (proj2 (register_outcome (K := demo_collaborators)
                                       classroom_db
                                       [("name", VStr "C"); ("email", VStr " A@Test.com ");
                                        ("password", VStr "Student1");
                                        ("role", VStr "Student")]
                                       "s4" 50 "C" " A@Test.com " "Student1" "Student"
                                       eq_refl eq_refl eq_refl eq_refl)
                                (or_intror Hrole))
                         Hmail)
                  Hpw)
           _ Hu).
Defined.

(** A number as name. *)
Lemma register_ill_typed_witness :
  status (register (K := demo_collaborators) classroom_db
            (Some [("name", VInt 5); ("email", VStr "c@test.com");
                   ("password", VStr "Student1"); ("role", VStr "student")]) "s4" 50)
  = 500.
Proof.
  exact (proj1 (register_ill_typed (K := demo_collaborators) classroom_db
                  [("name", VInt 5); ("email", VStr "c@test.com");
                   ("password", VStr "Student1"); ("role", VStr "student")]
                  "s4" 50 _ _ _ _ eq_refl eq_refl eq_refl eq_refl eq_refl)).
Defined.

(** A fourth user registers; the class is deleted; the session is still
    restored. *)
Lemma session_after_register_witness :
  status (get_session
            (run (K := demo_collaborators)
               (fst (register (K := demo_collaborators) classroom_db
                       (Some [("name", VStr "C"); ("email", VStr "c@test.com");
                              ("password", VStr "Student1"); ("role", VStr "student")])
                       "s4" 50))
               [Api (DeleteClass (Some 1) 1)])
            (Some 4)) = 200.
Proof.
  assert (H : status (register (K := demo_collaborators) classroom_db
                        (Some [("name", VStr "C"); ("email", VStr "c@test.com");
                               ("password", VStr "Student1"); ("role", VStr "student")])
                        "s4" 50) = 201)
    by (vm_compute; reflexivity).
  assert (Hid : u_id (new_user (K := demo_collaborators) classroom_db
                        "C" "c@test.com" "Student1" "student" "s4" 50) = 4)
    by (vm_compute; reflexivity).
  pose proof (proj2 (session_after_register (K := demo_collaborators) classroom_db
                       [("name", VStr "C"); ("email", VStr "c@test.com");
                        ("password", VStr "Student1"); ("role", VStr "student")]
                       "s4" 50 "C" "c@test.com" "Student1" "student"
                       [Api (DeleteClass (Some 1) 1)]
                       eq_refl eq_refl eq_refl eq_refl H)) as E.
  rewrite Hid in E. exact (f_equal status E).
Defined.

(** The teacher opens a second class; the generator draws 0, 1, ..., 5;
    student 2 joins. *)
Lemma create_class_then_join_witness :
  _generate_passcode (fun i => i) = "ABCDEF" /\
  status (join_class
            (fst (create_class classroom_db (Some 1)
                    (Some [("name", VStr "Chem"); ("subject", VStr "Chemistry")])
                    "ABCDEF" 60))
            (Some 2) (join_body 2 " ABCDEF ") 61) = 200.
Proof.
  assert (Hm : memberships_wf classroom_db)
    by exact (reachable_memberships_wf classroom_db classroom_db_reachable).
  assert (Hs : strip " ABCDEF " = _generate_passcode (fun i => i))
    by (vm_compute; reflexivity).
  assert (Hp : _generate_passcode (fun i => i) = "ABCDEF")
    by (vm_compute; reflexivity).
  assert (Hn : next_id (map c_id (classes classroom_db)) = 2)
    by (vm_compute; reflexivity).
  destruct (create_class_then_join classroom_db 1 _ 2 _
              [("name", VStr "Chem"); ("subject", VStr "Chemistry")]
              "Chem" "Chemistry" (fun i => i) 60
              classroom_user_1 eq_refl classroom_user_2 eq_refl
              eq_refl eq_refl eq_refl eq_refl Hm)
    as (_ & _ & _ & _ & _ & _ & _ & Hjoin).
  pose proof (proj1 (proj1 (Hjoin " ABCDEF " 61) Hs)) as H.
  rewrite Hp, Hn in H. exact (conj Hp H).
Defined.

(** Student 3 submits: student 2 is offered the new submission. *)
Lemma new_submission_is_pending_witness :
  is_pending (fst (create_submission classroom_db (Some 3) 1 1
                     (Some [("content", VStr "Mine")]) 30))
             2 (next_id (map s_id (submissions classroom_db))).
Proof.
  assert (H : status (create_submission classroom_db (Some 3) 1 1
                        (Some [("content", VStr "Mine")]) 30) = 201)
    by (vm_compute; reflexivity).
  assert (He : is_enrolled classroom_db 2 1 = true) by (vm_compute; reflexivity).
  assert (Hne : 2 <> 3) by lia.
  exact (proj1 (proj2 (new_submission_is_pending classroom_db 3 1 1 _ 30
                         classroom_no_orphans H)) 2 Hne He).
Defined.

(** The teacher sets a second assignment; the date is not an ISO date. *)
Lemma create_assignment_spec_witness :
  status (create_assignment (K := demo_collaborators) classroom_db (Some 1) 1
            (Some [("title", VStr " Essay "); ("dueDate", VStr "tomorrow")]) 70) = 201.
Proof.
  exact (proj1 (proj2 (proj2 (create_assignment_spec (K := demo_collaborators)
                                classroom_db 1 _ 1
                                [("title", VStr " Essay "); ("dueDate", VStr "tomorrow")]
                                " Essay " 70
                                classroom_user_1 eq_refl eq_refl eq_refl)
                         _ classroom_class_1)
                  eq_refl)).
Defined.

(** The teacher deletes class 1. *)
Lemma removal_authority_witness :
  deletes_class classroom_db (Api (DeleteClass (Some 1) 1))
    (mkClass 1 "Bio" "Biology" None None "ABC123" 1 13).
Proof.
  assert (Hin : In (mkClass 1 "Bio" "Biology" None None "ABC123" 1 13)
                   (classes classroom_db))
    by (vm_compute; left; reflexivity).
  assert (Hout : ~ In (mkClass 1 "Bio" "Biology" None None "ABC123" 1 13)
                      (classes (step (K := demo_collaborators) classroom_db
                                  (Api (DeleteClass (Some 1) 1)))))
    by (vm_compute; intros []).
  exact (proj1 (removal_authority (K := demo_collaborators) classroom_db
                  (Api (DeleteClass (Some 1) 1)) classroom_db_reachable) _ Hin Hout).
Defined.

(** The teacher grades submission 1. *)
Lemma submission_changed_only_by_author_or_teacher_witness :
  let s := mkSubmission 1 (Some "My report") VNull VNull 2 1 17 None None None in
  let s' := mkSubmission 1 (Some "My report") VNull VNull 2 1 17
                         (Some "A") None (Some 40) in
  let ev := Api (GradeSubmission (Some 1) 1 1 1 (Some [("grade", VStr "A")]) 40) in
  (exists cid aid body now,
     ev = Api (UpdateSubmission (Some (s_student_id s)) cid aid 1 body now) /\
     same_but_work s s') \/
  (exists uid cid aid body now a,
     ev = Api (GradeSubmission (Some uid) cid aid 1 body now) /\
     owned_class classroom_db cid uid = true /\
     get_Assignment classroom_db (s_assignment_id s) = Some a /\ a_class_id a = cid /\
     same_but_grading s s').
Proof.
  cbv zeta.
  assert (Hs' : get_Submission
                  (step (K := demo_collaborators) classroom_db
                     (Api (GradeSubmission (Some 1) 1 1 1
                             (Some [("grade", VStr "A")]) 40))) 1
                = Some (mkSubmission 1 (Some "My report") VNull VNull 2 1 17
                                     (Some "A") None (Some 40)))
    by (vm_compute; reflexivity).
  assert (Hne : mkSubmission 1 (Some "My report") VNull VNull 2 1 17
                             (Some "A") None (Some 40)
                <> mkSubmission 1 (Some "My report") VNull VNull 2 1 17 None None None)
    by discriminate.
  exact (submission_changed_only_by_author_or_teacher (K := demo_collaborators)
           classroom_db _ 1 _ _ classroom_db_reachable classroom_submission_1 Hs' Hne).
Defined.

(** The teacher deletes class 1: the accounts stay. *)
Lemma delete_class_frame_witness :
  users (fst (delete_class classroom_db (Some 1) 1)) = users classroom_db.
Proof.
  assert (H : status (delete_class classroom_db (Some 1) 1) = 200)
    by (vm_compute; reflexivity).
  exact (proj1 (delete_class_frame (K := demo_collaborators) classroom_db (Some 1) 1
                  classroom_db_reachable H)).
Defined.

(** The class of assignment 1. *)
Lemma data_integrity_witness :
  exists c, get_Class classroom_db 1 = Some c.
Proof.
  assert (Hin : In (mkAssignment 1 "Lab Report" None None 1 16)
                   (assignments classroom_db))
    by (vm_compute; left; reflexivity).
  exact (proj1 (data_integrity (K := demo_collaborators) classroom_db
                  classroom_db_reachable) _ Hin).
Defined.
